(** * The VT render engine's I/O state: src/renderer/vt/state.cpp

    A shallow embedding of [VtEngine]'s constructor, write/flush channel,
    viewport update, cursor inheritance/request and shutdown watchdog.

    The engine is a record of its data members; the operating system (the
    shared shutdown event, the thread's last-error value, the pipe and the
    allocator) is a second record.  Every method is a state transformer over
    the pair.  The outcomes the program cannot decide itself (what
    [WriteFile] returns, whether growing the buffer throws) are read from
    scripts carried by the operating-system record, and every action that is
    visible from outside the call is appended to a trace.  The calls into
    the invalidation code, which is in another file, are listed apart, in
    the order they are made.

    The embedding is of the production build, in which [UNIT_TESTING] is not
    defined: the constructor checks its handles, and the test-callback path
    of [_Write] and the early return of [_Flush] are compiled out. *)

From Stdlib Require Import ZArith List String Ascii DecimalString Bool Lia.
Import ListNotations.
Local Open Scope Z_scope.

(** ** Windows scalar types *)

Definition DWORD := Z.      (* unsigned 32 bits *)
Definition HRESULT := Z.    (* signed 32 bits *)
Definition SHORT := Z.      (* signed 16 bits *)
Definition HANDLE := Z.
Definition COLORREF := Z.

Definition to_DWORD (z : Z) : DWORD := z mod 2 ^ 32.
Definition to_LONG (z : Z) : Z := (z + 2 ^ 31) mod 2 ^ 32 - 2 ^ 31.
Definition to_SHORT (z : Z) : SHORT := (z + 2 ^ 15) mod 2 ^ 16 - 2 ^ 15.

Definition INVALID_HANDLE_VALUE : HANDLE := -1.

Definition S_OK : HRESULT := 0.
Definition E_HANDLE : HRESULT := to_LONG 0x80070006.
Definition E_OUTOFMEMORY : HRESULT := to_LONG 0x8007000E.

Definition SUCCEEDED (hr : HRESULT) : bool := 0 <=? hr.
Definition FAILED (hr : HRESULT) : bool := hr <? 0.

Definition FACILITY_WIN32 : Z := 7.
Definition ERROR_SUCCESS : DWORD := 0.
Definition ERROR_UNHANDLED_EXCEPTION : DWORD := 574.
Definition ERROR_ASSERTION_FAILURE : DWORD := 668.

(** winerror.h: [(HRESULT)x <= 0 ? (HRESULT)x
                 : (HRESULT)((x & 0xFFFF) | (FACILITY_WIN32 << 16) | 0x80000000)] *)
Definition HRESULT_FROM_WIN32 (x : DWORD) : HRESULT :=
  if to_LONG x <=? 0 then to_LONG x
  else to_LONG (Z.lor (Z.lor (Z.land x 0xFFFF) (Z.shiftl FACILITY_WIN32 16)) 0x80000000).

(** wil: the last error, with a substitute when the last error says success,
    so that the HRESULT made from it is always a failure. *)
Definition GetLastErrorFail (lastError : DWORD) : DWORD :=
  if lastError =? ERROR_SUCCESS then ERROR_ASSERTION_FAILURE else lastError.

Definition GetLastErrorFailHr (lastError : DWORD) : HRESULT :=
  HRESULT_FROM_WIN32 (GetLastErrorFail lastError).

(** wil: what [CATCH_RETURN] makes of the exceptions [std::string::append]
    can throw. *)
Inductive Exception := bad_alloc | length_error.

Definition ResultFromCaughtException (ex : Exception) : HRESULT :=
  match ex with
  | bad_alloc => E_OUTOFMEMORY
  | length_error => HRESULT_FROM_WIN32 ERROR_UNHANDLED_EXCEPTION
  end.

Record COORD := { X : SHORT; Y : SHORT }.
Record SMALL_RECT := { Left : SHORT; Top : SHORT; Right : SHORT; Bottom : SHORT }.

Definition static_cast_DWORD (n : nat) : DWORD := to_DWORD (Z.of_nat n).

(** ** Viewport *)

Module Viewport.

(** Modelled from the spec: the [Viewport] class (types/viewport.cpp) is not
    among the sources read here.  Section 3 describes it as an axis-aligned
    rectangle with inclusive and exclusive edge conventions; the methods
    below are the ones state.cpp calls.  The rectangle is kept with
    inclusive edges, an exclusive edge is one past the inclusive one, and
    width and height count the columns and rows in between.  Results are
    16-bit, as the [short] locals of [UpdateViewport] that receive them. *)
Record t := FromInclusive { _sr : SMALL_RECT }.

Definition Left (v : t) : SHORT := Left (_sr v).
Definition Top (v : t) : SHORT := Top (_sr v).
Definition RightInclusive (v : t) : SHORT := Right (_sr v).
Definition BottomInclusive (v : t) : SHORT := Bottom (_sr v).
Definition RightExclusive (v : t) : SHORT := to_SHORT (RightInclusive v + 1).
Definition BottomExclusive (v : t) : SHORT := to_SHORT (BottomInclusive v + 1).
Definition Width (v : t) : SHORT := to_SHORT (RightExclusive v - Left v).
Definition Height (v : t) : SHORT := to_SHORT (BottomExclusive v - Top v).

(** The rectangle without cells. *)
Definition Empty : t := FromInclusive (Build_SMALL_RECT 0 0 (-1) (-1)).

Definition IsValid (v : t) : bool := (0 <? Height v) && (0 <? Width v).

(** [operator==] *)
Definition eqb (a b : t) : bool :=
  (Left a =? Left b) && (Top a =? Top b)
  && (RightInclusive a =? RightInclusive b)
  && (BottomInclusive a =? BottomInclusive b).

(** The cell in column [x] and row [y] lies in the rectangle. *)
Definition contains (v : t) (x y : Z) : bool :=
  (Left v <=? x) && (x <=? RightInclusive v)
  && (Top v <=? y) && (y <=? BottomInclusive v).

(** Rectangle union (section 3, "combine"): the smallest rectangle around
    both; a rectangle without cells adds nothing. *)
Definition Union (lhs rhs : t) : t :=
  if negb (IsValid rhs) then lhs
  else if negb (IsValid lhs) then rhs
  else FromInclusive
         (Build_SMALL_RECT
            (Z.min (Left lhs) (Left rhs))
            (Z.min (Top lhs) (Top rhs))
            (Z.max (RightInclusive lhs) (RightInclusive rhs))
            (Z.max (BottomInclusive lhs) (BottomInclusive rhs))).

(** Clipping (section 4.2, "clipped to the current Viewport"): the part of
    [rect] inside [bounds], [Empty] when they do not meet. *)
Definition Clip (bounds rect : t) : t :=
  let clipped :=
    FromInclusive
      (Build_SMALL_RECT
         (Z.max (Left bounds) (Left rect))
         (Z.max (Top bounds) (Top rect))
         (Z.min (RightInclusive bounds) (RightInclusive rect))
         (Z.min (BottomInclusive bounds) (BottomInclusive rect))) in
  if IsValid clipped then clipped else Empty.

(** Every edge of [inner] is within the edges of [outer]. *)
Definition inside (inner outer : t) : bool :=
  (Left outer <=? Left inner) && (Top outer <=? Top inner)
  && (RightInclusive inner <=? RightInclusive outer)
  && (BottomInclusive inner <=? BottomInclusive outer).

End Viewport.

(** ** The engine and the operating system around it *)

(** The data members of [VtEngine], in the order of the constructor's
    initialiser list ([_colorProvider] and [_trace] carry no state of
    interest; what [_trace] is told goes to the trace of the [World]). *)
Record VtEngine := {
  _shutdownEvent : HANDLE;
  _hFile : HANDLE;
  _blockedThreadId : DWORD;
  _buffer : string;
  _LastFG : COLORREF;
  _LastBG : COLORREF;
  _lastWasBold : bool;
  _lastViewport : Viewport.t;
  _invalidRect : Viewport.t;
  _fInvalidRectUsed : bool;
  _lastRealCursor : COORD;
  _lastText : COORD;
  _scrollDelta : COORD;
  _quickReturn : bool;
  _clearedAllThisFrame : bool;
  _cursorMoved : bool;
  _resized : bool;
  _suppressResizeRepaint : bool;
  _virtualTop : SHORT;
  _circled : bool;
  _firstPaint : bool;
  _skipCursor : bool;
  _newBottomLine : bool;
  _deferredCursorPos : COORD;
  _inResizeRequest : bool
}.

Definition set_blockedThreadId (v : DWORD) (e : VtEngine) : VtEngine :=
  {| _shutdownEvent := _shutdownEvent e; _hFile := _hFile e; _blockedThreadId := v;
     _buffer := _buffer e; _LastFG := _LastFG e; _LastBG := _LastBG e;
     _lastWasBold := _lastWasBold e; _lastViewport := _lastViewport e;
     _invalidRect := _invalidRect e; _fInvalidRectUsed := _fInvalidRectUsed e;
     _lastRealCursor := _lastRealCursor e; _lastText := _lastText e;
     _scrollDelta := _scrollDelta e; _quickReturn := _quickReturn e;
     _clearedAllThisFrame := _clearedAllThisFrame e; _cursorMoved := _cursorMoved e;
     _resized := _resized e; _suppressResizeRepaint := _suppressResizeRepaint e;
     _virtualTop := _virtualTop e; _circled := _circled e; _firstPaint := _firstPaint e;
     _skipCursor := _skipCursor e; _newBottomLine := _newBottomLine e;
     _deferredCursorPos := _deferredCursorPos e; _inResizeRequest := _inResizeRequest e |}.

Definition set_buffer (v : string) (e : VtEngine) : VtEngine :=
  {| _shutdownEvent := _shutdownEvent e; _hFile := _hFile e;
     _blockedThreadId := _blockedThreadId e; _buffer := v; _LastFG := _LastFG e;
     _LastBG := _LastBG e; _lastWasBold := _lastWasBold e;
     _lastViewport := _lastViewport e; _invalidRect := _invalidRect e;
     _fInvalidRectUsed := _fInvalidRectUsed e; _lastRealCursor := _lastRealCursor e;
     _lastText := _lastText e; _scrollDelta := _scrollDelta e;
     _quickReturn := _quickReturn e; _clearedAllThisFrame := _clearedAllThisFrame e;
     _cursorMoved := _cursorMoved e; _resized := _resized e;
     _suppressResizeRepaint := _suppressResizeRepaint e; _virtualTop := _virtualTop e;
     _circled := _circled e; _firstPaint := _firstPaint e; _skipCursor := _skipCursor e;
     _newBottomLine := _newBottomLine e; _deferredCursorPos := _deferredCursorPos e;
     _inResizeRequest := _inResizeRequest e |}.

Definition set_lastViewport (v : Viewport.t) (e : VtEngine) : VtEngine :=
  {| _shutdownEvent := _shutdownEvent e; _hFile := _hFile e;
     _blockedThreadId := _blockedThreadId e; _buffer := _buffer e; _LastFG := _LastFG e;
     _LastBG := _LastBG e; _lastWasBold := _lastWasBold e; _lastViewport := v;
     _invalidRect := _invalidRect e; _fInvalidRectUsed := _fInvalidRectUsed e;
     _lastRealCursor := _lastRealCursor e; _lastText := _lastText e;
     _scrollDelta := _scrollDelta e; _quickReturn := _quickReturn e;
     _clearedAllThisFrame := _clearedAllThisFrame e; _cursorMoved := _cursorMoved e;
     _resized := _resized e; _suppressResizeRepaint := _suppressResizeRepaint e;
     _virtualTop := _virtualTop e; _circled := _circled e; _firstPaint := _firstPaint e;
     _skipCursor := _skipCursor e; _newBottomLine := _newBottomLine e;
     _deferredCursorPos := _deferredCursorPos e; _inResizeRequest := _inResizeRequest e |}.

Definition set_invalidRect (v : Viewport.t) (e : VtEngine) : VtEngine :=
  {| _shutdownEvent := _shutdownEvent e; _hFile := _hFile e;
     _blockedThreadId := _blockedThreadId e; _buffer := _buffer e; _LastFG := _LastFG e;
     _LastBG := _LastBG e; _lastWasBold := _lastWasBold e;
     _lastViewport := _lastViewport e; _invalidRect := v;
     _fInvalidRectUsed := _fInvalidRectUsed e; _lastRealCursor := _lastRealCursor e;
     _lastText := _lastText e; _scrollDelta := _scrollDelta e;
     _quickReturn := _quickReturn e; _clearedAllThisFrame := _clearedAllThisFrame e;
     _cursorMoved := _cursorMoved e; _resized := _resized e;
     _suppressResizeRepaint := _suppressResizeRepaint e; _virtualTop := _virtualTop e;
     _circled := _circled e; _firstPaint := _firstPaint e; _skipCursor := _skipCursor e;
     _newBottomLine := _newBottomLine e; _deferredCursorPos := _deferredCursorPos e;
     _inResizeRequest := _inResizeRequest e |}.

Definition set_lastText (v : COORD) (e : VtEngine) : VtEngine :=
  {| _shutdownEvent := _shutdownEvent e; _hFile := _hFile e;
     _blockedThreadId := _blockedThreadId e; _buffer := _buffer e; _LastFG := _LastFG e;
     _LastBG := _LastBG e; _lastWasBold := _lastWasBold e;
     _lastViewport := _lastViewport e; _invalidRect := _invalidRect e;
     _fInvalidRectUsed := _fInvalidRectUsed e; _lastRealCursor := _lastRealCursor e;
     _lastText := v; _scrollDelta := _scrollDelta e; _quickReturn := _quickReturn e;
     _clearedAllThisFrame := _clearedAllThisFrame e; _cursorMoved := _cursorMoved e;
     _resized := _resized e; _suppressResizeRepaint := _suppressResizeRepaint e;
     _virtualTop := _virtualTop e; _circled := _circled e; _firstPaint := _firstPaint e;
     _skipCursor := _skipCursor e; _newBottomLine := _newBottomLine e;
     _deferredCursorPos := _deferredCursorPos e; _inResizeRequest := _inResizeRequest e |}.

Definition set_resized (v : bool) (e : VtEngine) : VtEngine :=
  {| _shutdownEvent := _shutdownEvent e; _hFile := _hFile e;
     _blockedThreadId := _blockedThreadId e; _buffer := _buffer e; _LastFG := _LastFG e;
     _LastBG := _LastBG e; _lastWasBold := _lastWasBold e;
     _lastViewport := _lastViewport e; _invalidRect := _invalidRect e;
     _fInvalidRectUsed := _fInvalidRectUsed e; _lastRealCursor := _lastRealCursor e;
     _lastText := _lastText e; _scrollDelta := _scrollDelta e;
     _quickReturn := _quickReturn e; _clearedAllThisFrame := _clearedAllThisFrame e;
     _cursorMoved := _cursorMoved e; _resized := v;
     _suppressResizeRepaint := _suppressResizeRepaint e; _virtualTop := _virtualTop e;
     _circled := _circled e; _firstPaint := _firstPaint e; _skipCursor := _skipCursor e;
     _newBottomLine := _newBottomLine e; _deferredCursorPos := _deferredCursorPos e;
     _inResizeRequest := _inResizeRequest e |}.

Definition set_suppressResizeRepaint (v : bool) (e : VtEngine) : VtEngine :=
  {| _shutdownEvent := _shutdownEvent e; _hFile := _hFile e;
     _blockedThreadId := _blockedThreadId e; _buffer := _buffer e; _LastFG := _LastFG e;
     _LastBG := _LastBG e; _lastWasBold := _lastWasBold e;
     _lastViewport := _lastViewport e; _invalidRect := _invalidRect e;
     _fInvalidRectUsed := _fInvalidRectUsed e; _lastRealCursor := _lastRealCursor e;
     _lastText := _lastText e; _scrollDelta := _scrollDelta e;
     _quickReturn := _quickReturn e; _clearedAllThisFrame := _clearedAllThisFrame e;
     _cursorMoved := _cursorMoved e; _resized := _resized e; _suppressResizeRepaint := v;
     _virtualTop := _virtualTop e; _circled := _circled e; _firstPaint := _firstPaint e;
     _skipCursor := _skipCursor e; _newBottomLine := _newBottomLine e;
     _deferredCursorPos := _deferredCursorPos e; _inResizeRequest := _inResizeRequest e |}.

Definition set_virtualTop (v : SHORT) (e : VtEngine) : VtEngine :=
  {| _shutdownEvent := _shutdownEvent e; _hFile := _hFile e;
     _blockedThreadId := _blockedThreadId e; _buffer := _buffer e; _LastFG := _LastFG e;
     _LastBG := _LastBG e; _lastWasBold := _lastWasBold e;
     _lastViewport := _lastViewport e; _invalidRect := _invalidRect e;
     _fInvalidRectUsed := _fInvalidRectUsed e; _lastRealCursor := _lastRealCursor e;
     _lastText := _lastText e; _scrollDelta := _scrollDelta e;
     _quickReturn := _quickReturn e; _clearedAllThisFrame := _clearedAllThisFrame e;
     _cursorMoved := _cursorMoved e; _resized := _resized e;
     _suppressResizeRepaint := _suppressResizeRepaint e; _virtualTop := v;
     _circled := _circled e; _firstPaint := _firstPaint e; _skipCursor := _skipCursor e;
     _newBottomLine := _newBottomLine e; _deferredCursorPos := _deferredCursorPos e;
     _inResizeRequest := _inResizeRequest e |}.

Definition set_firstPaint (v : bool) (e : VtEngine) : VtEngine :=
  {| _shutdownEvent := _shutdownEvent e; _hFile := _hFile e;
     _blockedThreadId := _blockedThreadId e; _buffer := _buffer e; _LastFG := _LastFG e;
     _LastBG := _LastBG e; _lastWasBold := _lastWasBold e;
     _lastViewport := _lastViewport e; _invalidRect := _invalidRect e;
     _fInvalidRectUsed := _fInvalidRectUsed e; _lastRealCursor := _lastRealCursor e;
     _lastText := _lastText e; _scrollDelta := _scrollDelta e;
     _quickReturn := _quickReturn e; _clearedAllThisFrame := _clearedAllThisFrame e;
     _cursorMoved := _cursorMoved e; _resized := _resized e;
     _suppressResizeRepaint := _suppressResizeRepaint e; _virtualTop := _virtualTop e;
     _circled := _circled e; _firstPaint := v; _skipCursor := _skipCursor e;
     _newBottomLine := _newBottomLine e; _deferredCursorPos := _deferredCursorPos e;
     _inResizeRequest := _inResizeRequest e |}.

Definition set_skipCursor (v : bool) (e : VtEngine) : VtEngine :=
  {| _shutdownEvent := _shutdownEvent e; _hFile := _hFile e;
     _blockedThreadId := _blockedThreadId e; _buffer := _buffer e; _LastFG := _LastFG e;
     _LastBG := _LastBG e; _lastWasBold := _lastWasBold e;
     _lastViewport := _lastViewport e; _invalidRect := _invalidRect e;
     _fInvalidRectUsed := _fInvalidRectUsed e; _lastRealCursor := _lastRealCursor e;
     _lastText := _lastText e; _scrollDelta := _scrollDelta e;
     _quickReturn := _quickReturn e; _clearedAllThisFrame := _clearedAllThisFrame e;
     _cursorMoved := _cursorMoved e; _resized := _resized e;
     _suppressResizeRepaint := _suppressResizeRepaint e; _virtualTop := _virtualTop e;
     _circled := _circled e; _firstPaint := _firstPaint e; _skipCursor := v;
     _newBottomLine := _newBottomLine e; _deferredCursorPos := _deferredCursorPos e;
     _inResizeRequest := _inResizeRequest e |}.

Definition set_inResizeRequest (v : bool) (e : VtEngine) : VtEngine :=
  {| _shutdownEvent := _shutdownEvent e; _hFile := _hFile e;
     _blockedThreadId := _blockedThreadId e; _buffer := _buffer e; _LastFG := _LastFG e;
     _LastBG := _LastBG e; _lastWasBold := _lastWasBold e;
     _lastViewport := _lastViewport e; _invalidRect := _invalidRect e;
     _fInvalidRectUsed := _fInvalidRectUsed e; _lastRealCursor := _lastRealCursor e;
     _lastText := _lastText e; _scrollDelta := _scrollDelta e;
     _quickReturn := _quickReturn e; _clearedAllThisFrame := _clearedAllThisFrame e;
     _cursorMoved := _cursorMoved e; _resized := _resized e;
     _suppressResizeRepaint := _suppressResizeRepaint e; _virtualTop := _virtualTop e;
     _circled := _circled e; _firstPaint := _firstPaint e; _skipCursor := _skipCursor e;
     _newBottomLine := _newBottomLine e; _deferredCursorPos := _deferredCursorPos e;
     _inResizeRequest := v |}.

(** What [WriteFile] does with one request. *)
Inductive WriteOutcome :=
| WriteOk                          (* returns TRUE *)
| WriteFails (lastError : DWORD).  (* returns FALSE and sets the last error *)

(** The actions of a call that are visible outside it, in program order. *)
Inductive Event :=
| EvTraceString (str : string)
| EvStoreBlockedThreadId (threadId : DWORD)
| EvWriteFile (hFile : HANDLE) (lpBuffer : string) (nNumberOfBytesToWrite : DWORD)
| EvBlockedInWrite (threadId : DWORD)
    (* what [_blockedThreadId.load()] gives another thread while the
       [WriteFile] just requested is in progress *)
| EvSetEvent (hEvent : HANDLE).

Record World := {
  shutdown_signaled : bool;                (* state of the shared shutdown event *)
  current_thread : DWORD;                  (* what GetCurrentThreadId returns *)
  last_error : DWORD;                      (* what GetLastError returns *)
  pipe_script : list WriteOutcome;         (* outcomes of the WriteFile calls to come *)
  alloc_script : list (option Exception);  (* outcomes of the allocations to come:
                                              buffer appends and reservations *)
  trace : list Event
}.

Definition set_shutdown_signaled (v : bool) (w : World) : World :=
  {| shutdown_signaled := v; current_thread := current_thread w;
     last_error := last_error w; pipe_script := pipe_script w;
     alloc_script := alloc_script w; trace := trace w |}.

Definition set_last_error (v : DWORD) (w : World) : World :=
  {| shutdown_signaled := shutdown_signaled w; current_thread := current_thread w;
     last_error := v; pipe_script := pipe_script w;
     alloc_script := alloc_script w; trace := trace w |}.

Definition set_pipe_script (v : list WriteOutcome) (w : World) : World :=
  {| shutdown_signaled := shutdown_signaled w; current_thread := current_thread w;
     last_error := last_error w; pipe_script := v;
     alloc_script := alloc_script w; trace := trace w |}.

Definition set_alloc_script (v : list (option Exception)) (w : World) : World :=
  {| shutdown_signaled := shutdown_signaled w; current_thread := current_thread w;
     last_error := last_error w; pipe_script := pipe_script w;
     alloc_script := v; trace := trace w |}.

Definition set_trace (v : list Event) (w : World) : World :=
  {| shutdown_signaled := shutdown_signaled w; current_thread := current_thread w;
     last_error := last_error w; pipe_script := pipe_script w;
     alloc_script := alloc_script w; trace := v |}.

(** The calls the engine makes into invalidate.cpp, in the order it makes
    them.  The code keeps no such list: it is kept here so that a statement
    can tell which invalidation was asked for first. *)
Inductive Invalidation :=
| InvalidatedAll
| InvalidCombined (invalid : Viewport.t).

Record Machine := {
  this : VtEngine;
  os : World;
  invalidations : list Invalidation
}.

(** ** A state monad for the methods *)

Definition M (A : Type) : Type := Machine -> A * Machine.

Definition ret {A} (a : A) : M A := fun m => (a, m).

Definition bind {A B} (c : M A) (k : A -> M B) : M B :=
  fun m => let (a, m') := c m in k a m'.

Declare Scope vt_scope.
Delimit Scope vt_scope with vt.
Notation "x <- c ;; k" := (bind c (fun x => k))
  (at level 61, c at next level, right associativity) : vt_scope.
Notation "c ;; k" := (bind c (fun _ => k))
  (at level 61, right associativity) : vt_scope.
(** wil's [RETURN_IF_FAILED(c)]: leave with [c]'s result when it is a failure. *)
Notation "'RETURN_IF_FAILED' c ;; k" :=
  (bind c (fun hr => if FAILED hr then ret hr else k))
  (at level 61, c at next level, right associativity) : vt_scope.
Local Open Scope vt_scope.

Definition member {A} (field : VtEngine -> A) : M A := fun m => (field (this m), m).

Definition assign (setter : VtEngine -> VtEngine) : M unit :=
  fun m => (tt, {| this := setter (this m); os := os m;
                   invalidations := invalidations m |}).

Definition sys {A} (field : World -> A) : M A := fun m => (field (os m), m).

Definition sys_update (f : World -> World) : M unit :=
  fun m => (tt, {| this := this m; os := f (os m);
                   invalidations := invalidations m |}).

Definition emit (ev : Event) : M unit :=
  sys_update (fun w => set_trace (trace w ++ [ev]) w).

Definition invalidation (call : Invalidation) : M unit :=
  fun m => (tt, {| this := this m; os := os m;
                   invalidations := invalidations m ++ [call] |}).

(** ** The operating-system and library calls of state.cpp *)

(** [_shutdownEvent.is_signaled()] *)
Definition is_signaled : M bool := sys shutdown_signaled.

(** [_shutdownEvent.SetEvent()] *)
Definition SetEvent : M unit :=
  hEvent <- member _shutdownEvent;;
  emit (EvSetEvent hEvent);;
  sys_update (set_shutdown_signaled true).

Definition GetCurrentThreadId : M DWORD := sys current_thread.

(** [_blockedThreadId.store(v)] *)
Definition blockedThreadId_store (v : DWORD) : M unit :=
  emit (EvStoreBlockedThreadId v);;
  assign (set_blockedThreadId v).

(** [WriteFile(hFile, lpBuffer, nNumberOfBytesToWrite, nullptr, nullptr)]:
    the request goes to the trace, the outcome comes from the script (a pipe
    without script accepts the write).  The call is synchronous: until it
    returns, the other threads (the watchdog) find the engine as the caller
    left it, and what they would load from [_blockedThreadId] goes to the
    trace with the request. *)
Definition WriteFile (hFile : HANDLE) (lpBuffer : string) (n : DWORD) : M bool :=
  emit (EvWriteFile hFile lpBuffer n);;
  blocked <- member _blockedThreadId;;
  emit (EvBlockedInWrite blocked);;
  script <- sys pipe_script;;
  match script with
  | [] => ret true
  | WriteOk :: rest => sys_update (set_pipe_script rest);; ret true
  | WriteFails err :: rest =>
      sys_update (set_pipe_script rest);;
      sys_update (set_last_error (to_DWORD err));;
      ret false
  end.

(** [_buffer.append(str)]: [None] when the string was appended, the exception
    when the append threw. *)
Definition buffer_append (str : string) : M (option Exception) :=
  script <- sys alloc_script;;
  match script with
  | Some ex :: rest => sys_update (set_alloc_script rest);; ret (Some ex)
  | None :: rest =>
      sys_update (set_alloc_script rest);;
      assign (fun e => set_buffer (_buffer e ++ str)%string e);;
      ret None
  | [] =>
      assign (fun e => set_buffer (_buffer e ++ str)%string e);;
      ret None
  end.

(** wil's [RETURN_LAST_ERROR()] *)
Definition RETURN_LAST_ERROR : M HRESULT :=
  err <- sys last_error;;
  ret (GetLastErrorFailHr err).

(** ** The shutdown watchdog *)

Module Watchdog.

(** The task the constructor starts with [std::async] is a straight-line
    program; its control points are the calls it can be stopped at. *)
Inductive pc :=
| Waiting                            (* in [_shutdownEvent.wait()] *)
| Loading                            (* before [_blockedThreadId.load()] *)
| Opening (threadId : DWORD)         (* before [OpenThread] *)
| Cancelling (threadHandle : HANDLE) (* before [CancelSynchronousIo] *)
| Returned.

(** What the task sees of the rest of the system when it takes a step: the
    engine and the operating system as the other threads have left them,
    and the answer [OpenThread] would give ([0] is the null handle). *)
Record Env := {
  machine : Machine;
  OpenThread : DWORD -> DWORD -> HANDLE
}.

Definition STANDARD_RIGHTS_ALL : DWORD := 0x001F0000.
Definition THREAD_TERMINATE : DWORD := 0x0001.

Inductive Action :=
| ActLoad (threadId : DWORD)
| ActOpenThread (dwDesiredAccess : DWORD) (dwThreadId : DWORD)
| ActCancelSynchronousIo (hThread : HANDLE).

(** One step of the task.  A wait on an event that is not signalled does
    not return: the task stays where it is. *)
Definition step (env : Env) (p : pc) : pc * list Action :=
  match p with
  | Waiting =>
      if shutdown_signaled (os (machine env)) then (Loading, []) else (Waiting, [])
  | Loading =>
      let threadId := _blockedThreadId (this (machine env)) in
      if threadId =? 0 then (Returned, [ActLoad threadId])
      else (Opening threadId, [ActLoad threadId])
  | Opening threadId =>
      let access := Z.lor STANDARD_RIGHTS_ALL THREAD_TERMINATE in
      let threadHandle := OpenThread env access threadId in
      if threadHandle =? 0 then (Returned, [ActOpenThread access threadId])
      else (Cancelling threadHandle, [ActOpenThread access threadId])
  | Cancelling threadHandle =>
      (Returned, [ActCancelSynchronousIo threadHandle])
  | Returned => (Returned, [])
  end.

(** The task along a schedule: one environment per step it is given. *)
Fixpoint run (schedule : list Env) (p : pc) : pc * list Action :=
  match schedule with
  | [] => (p, [])
  | env :: rest =>
      let (p', acts) := step env p in
      let (p'', acts') := run rest p' in
      (p'', acts ++ acts')
  end.

Definition is_load (a : Action) : bool :=
  match a with ActLoad _ => true | _ => false end.

Definition is_cancel (a : Action) : bool :=
  match a with ActCancelSynchronousIo _ => true | _ => false end.

Definition loads (acts : list Action) : nat := List.length (filter is_load acts).

Definition cancels (acts : list Action) : nat := List.length (filter is_cancel acts).

Definition signalled (env : Env) : bool := shutdown_signaled (os (machine env)).

End Watchdog.

(** ** The constructor *)

Definition INVALID_COORDS : COORD := {| X := -1; Y := -1 |}.

Section Constructor.

(** [INVALID_COLOR] is declared in vtrenderer.hpp, which is not among the
    sources read here. *)
Variable INVALID_COLOR : COLORREF.

(** The constructor either throws an HRESULT or yields the engine and the
    watchdog task it has started.  [_blockedThreadId] and [_buffer] are not
    in the initialiser list: the buffer starts empty, the slot with whatever
    its declaration gives it ([blockedThreadId0]). *)
Definition VtEngine_ctor (pipe shutdownEvent : HANDLE) (initialViewport : Viewport.t)
    (blockedThreadId0 : DWORD) : HRESULT + VtEngine * Watchdog.pc :=
  let engine :=
    {| _shutdownEvent := shutdownEvent;
       _hFile := pipe;
       _blockedThreadId := blockedThreadId0;
       _buffer := ""%string;
       _LastFG := INVALID_COLOR;
       _LastBG := INVALID_COLOR;
       _lastWasBold := false;
       _lastViewport := initialViewport;
       _invalidRect := Viewport.Empty;
       _fInvalidRectUsed := false;
       _lastRealCursor := {| X := 0; Y := 0 |};
       _lastText := {| X := 0; Y := 0 |};
       _scrollDelta := {| X := 0; Y := 0 |};
       _quickReturn := false;
       _clearedAllThisFrame := false;
       _cursorMoved := false;
       _resized := false;
       _suppressResizeRepaint := true;
       _virtualTop := 0;
       _circled := false;
       _firstPaint := true;
       _skipCursor := false;
       _newBottomLine := false;
       _deferredCursorPos := INVALID_COORDS;
       _inResizeRequest := false |} in
  if _hFile engine =? INVALID_HANDLE_VALUE then inl E_HANDLE
  else if _shutdownEvent engine =? 0 then inl E_HANDLE
  else inr (engine, Watchdog.Waiting).

End Constructor.

(** ** The write/flush channel *)

Definition _Write (str : string) : M HRESULT :=
  emit (EvTraceString str);;
  thrown <- buffer_append str;;
  match thrown with
  | None => ret S_OK
  | Some ex => ret (ResultFromCaughtException ex)
  end.

Definition _Flush : M HRESULT :=
  signaled <- is_signaled;;
  if negb signaled then
    threadId <- GetCurrentThreadId;;
    blockedThreadId_store threadId;;
    hFile <- member _hFile;;
    buffer <- member _buffer;;
    fSuccess <- WriteFile hFile buffer (static_cast_DWORD (String.length buffer));;
    blockedThreadId_store 0;;
    assign (set_buffer ""%string);;
    if negb fSuccess then
      SetEvent;;
      RETURN_LAST_ERROR
    else ret S_OK
  else ret S_OK.

Definition WriteTerminalUtf8 (str : string) : M HRESULT := _Write str.

(** ** Invalidation *)

(** Modelled from the spec: [_InvalidCombine] and [InvalidateAll] live in
    invalidate.cpp, which is not among the sources read here.  Section 4.2:
    invalidating a rectangle "unions [it] into the Invalidated Region, clipped
    to the current Viewport", without effect when the rectangle does not meet
    the viewport; section 3: the region is a single rectangle accumulated by
    rectangle union.  The spec names no failure for it.  The call is entered
    in the machine's list of invalidations. *)
Definition _InvalidCombine (invalid : Viewport.t) : M HRESULT :=
  invalidation (InvalidCombined invalid);;
  viewport <- member _lastViewport;;
  region <- member _invalidRect;;
  assign (set_invalidRect (Viewport.Union region (Viewport.Clip viewport invalid)));;
  ret S_OK.

(** Modelled from the spec: section 4.2, [invalidateAll()] "sets Invalidated
    Region equal to the full Viewport".  The call is entered in the machine's
    list of invalidations. *)
Definition InvalidateAll : M HRESULT :=
  invalidation InvalidatedAll;;
  viewport <- member _lastViewport;;
  assign (set_invalidRect viewport);;
  ret S_OK.

Definition _AllIsInvalid (e : VtEngine) : bool :=
  Viewport.eqb (_lastViewport e) (_invalidRect e).

(** ** Resizing and the cursor *)

Section FormattingLayer.

(** The control sequences themselves are the formatting layer's
    (VtSequences.cpp, not among the sources read here; section 6 leaves
    their grammar out of scope). *)
Variable ResizeWindowSequence : SHORT -> SHORT -> string.
Variable RequestCursorSequence : string.

(** Modelled from the spec: section 4.2 step 3, "emit a resize control
    sequence sized to the new width/height"; emitting is writing to the
    channel. *)
Definition _ResizeWindow (sWidth sHeight : SHORT) : M HRESULT :=
  _Write (ResizeWindowSequence sWidth sHeight).

(** Modelled from the spec: section 4.3, "emits a report cursor position
    control sequence". *)
Definition _RequestCursor : M HRESULT :=
  _Write RequestCursorSequence.

Definition UpdateViewport (srNewViewport : SMALL_RECT) : M HRESULT :=
  let hr := S_OK in
  oldView <- member _lastViewport;;
  let newView := Viewport.FromInclusive srNewViewport in
  assign (set_lastViewport newView);;
  hr <- (if negb (Viewport.Height oldView =? Viewport.Height newView)
            || negb (Viewport.Width oldView =? Viewport.Width newView)
         then
           suppress <- member _suppressResizeRepaint;;
           if negb suppress
           then _ResizeWindow (Viewport.Width newView) (Viewport.Height newView)
           else ret hr
         else ret hr);;
  assign (set_suppressResizeRepaint false);;
  hr <- (if SUCCEEDED hr then
           if (Viewport.Height oldView >? Viewport.Height newView)
              || (Viewport.Width oldView >? Viewport.Width newView)
           then InvalidateAll
           else
             hr <- (if Viewport.Width oldView <? Viewport.Width newView then
                      let left := Viewport.RightExclusive oldView in
                      let top := 0 in
                      let right := Viewport.RightInclusive newView in
                      let bottom := Viewport.BottomInclusive oldView in
                      let rightOfOldViewport :=
                        Viewport.FromInclusive (Build_SMALL_RECT left top right bottom) in
                      _InvalidCombine rightOfOldViewport
                    else ret hr);;
             if SUCCEEDED hr && (Viewport.Height oldView <? Viewport.Height newView) then
               let left := 0 in
               let top := Viewport.BottomExclusive oldView in
               let right := Viewport.RightInclusive newView in
               let bottom := Viewport.BottomInclusive newView in
               let belowOldViewport :=
                 Viewport.FromInclusive (Build_SMALL_RECT left top right bottom) in
               _InvalidCombine belowOldViewport
             else ret hr
         else ret hr);;
  assign (set_resized true);;
  ret hr.

Definition SuppressResizeRepaint : M HRESULT :=
  assign (set_suppressResizeRepaint true);;
  ret S_OK.

Definition InheritCursor (coordCursor : COORD) : M HRESULT :=
  assign (set_virtualTop (Y coordCursor));;
  assign (set_lastText coordCursor);;
  assign (set_skipCursor true);;
  assign (set_firstPaint false);;
  ret S_OK.

Definition RequestCursor : M HRESULT :=
  RETURN_IF_FAILED _RequestCursor;;
  RETURN_IF_FAILED _Flush;;
  ret S_OK.

Definition BeginResizeRequest : M unit := assign (set_inResizeRequest true).

Definition EndResizeRequest : M unit := assign (set_inResizeRequest false).

End FormattingLayer.

(** ** Vocabulary of the statements *)

(** The outcome the pipe has in store for the next [WriteFile]. *)
Definition pending_write (w : World) : WriteOutcome :=
  match pipe_script w with
  | [] => WriteOk
  | outcome :: _ => outcome
  end.

(** The outcome the allocator has in store for the next append. *)
Definition pending_append (w : World) : option Exception :=
  match alloc_script w with
  | [] => None
  | outcome :: _ => outcome
  end.

Definition is_WriteFile (ev : Event) : bool :=
  match ev with EvWriteFile _ _ _ => true | _ => false end.

Definition writes (tr : list Event) : list Event := filter is_WriteFile tr.

Definition flush_sample : Machine :=
  {| this :=
       {| _shutdownEvent := 4; _hFile := 3; _blockedThreadId := 0;
          _buffer := "abc"%string;
          _LastFG := 0xffffffff; _LastBG := 0xffffffff; _lastWasBold := false;
          _lastViewport := Viewport.FromInclusive (Build_SMALL_RECT 0 0 79 24);
          _invalidRect := Viewport.Empty; _fInvalidRectUsed := false;
          _lastRealCursor := {| X := 0; Y := 0 |}; _lastText := {| X := 0; Y := 0 |};
          _scrollDelta := {| X := 0; Y := 0 |}; _quickReturn := false;
          _clearedAllThisFrame := false; _cursorMoved := false; _resized := false;
          _suppressResizeRepaint := false; _virtualTop := 0; _circled := false;
          _firstPaint := false; _skipCursor := false; _newBottomLine := false;
          _deferredCursorPos := INVALID_COORDS; _inResizeRequest := false |};
     os :=
       {| shutdown_signaled := false; current_thread := 42; last_error := 0;
          pipe_script := []; alloc_script := []; trace := [] |};
     invalidations := [] |}.

Definition on_world (f : World -> World) (m : Machine) : Machine :=
  {| this := this m; os := f (os m); invalidations := invalidations m |}.

Definition on_engine (f : VtEngine -> VtEngine) (m : Machine) : Machine :=
  {| this := f (this m); os := os m; invalidations := invalidations m |}.

Definition size_changed (oldView newView : Viewport.t) : bool :=
  negb (Viewport.Height oldView =? Viewport.Height newView)
  || negb (Viewport.Width oldView =? Viewport.Width newView).

Definition shrank (oldView newView : Viewport.t) : bool :=
  (Viewport.Height oldView >? Viewport.Height newView)
  || (Viewport.Width oldView >? Viewport.Width newView).

Definition width_grew (oldView newView : Viewport.t) : bool :=
  Viewport.Width oldView <? Viewport.Width newView.

Definition height_grew (oldView newView : Viewport.t) : bool :=
  Viewport.Height oldView <? Viewport.Height newView.

(** The band of columns right of the old viewport, down to its bottom row. *)
Definition right_band (oldView newView : Viewport.t) : Viewport.t :=
  Viewport.FromInclusive
    (Build_SMALL_RECT (Viewport.RightExclusive oldView) 0
       (Viewport.RightInclusive newView) (Viewport.BottomInclusive oldView)).

(** The band of rows below the old viewport, over the new viewport's columns. *)
Definition bottom_band (oldView newView : Viewport.t) : Viewport.t :=
  Viewport.FromInclusive
    (Build_SMALL_RECT 0 (Viewport.BottomExclusive oldView)
       (Viewport.RightInclusive newView) (Viewport.BottomInclusive newView)).

(** The call emits a resize sequence exactly when the size changes and no
    suppression is pending. *)
Definition emits_resize (srNewViewport : SMALL_RECT) (m : Machine) : bool :=
  size_changed (_lastViewport (this m)) (Viewport.FromInclusive srNewViewport)
  && negb (_suppressResizeRepaint (this m)).

(** The invalidations a growing viewport asks for, in order. *)
Definition grown_invalidations (oldView newView : Viewport.t) : list Invalidation :=
  (if width_grew oldView newView
   then [InvalidCombined (right_band oldView newView)] else [])
  ++ (if height_grew oldView newView
      then [InvalidCombined (bottom_band oldView newView)] else []).

(** The region a growing viewport leaves behind. *)
Definition grown_region (oldView newView region : Viewport.t) : Viewport.t :=
  let region1 :=
    if width_grew oldView newView
    then Viewport.Union region (Viewport.Clip newView (right_band oldView newView))
    else region in
  if height_grew oldView newView
  then Viewport.Union region1 (Viewport.Clip newView (bottom_band oldView newView))
  else region1.

(** An xterm-style formatting layer and a few machines, to run the methods on
    concrete inputs. *)
Definition decimal (z : Z) : string := NilZero.string_of_int (Z.to_int z).

Definition ESC : ascii := ascii_of_nat 27.

Definition xterm_ResizeWindowSequence (sWidth sHeight : SHORT) : string :=
  String ESC ("[8;" ++ decimal sHeight ++ ";" ++ decimal sWidth ++ "t")%string.

Definition xterm_RequestCursorSequence : string := String ESC "[6n"%string.

Definition rect (left top right bottom : SHORT) : Viewport.t :=
  Viewport.FromInclusive (Build_SMALL_RECT left top right bottom).

(** [flush_sample] with another viewport. *)
Definition viewport_sample (oldView : Viewport.t) : Machine :=
  on_engine (set_lastViewport oldView) flush_sample.

(** [viewport_sample], short of memory at the next append. *)
Definition starved_sample (oldView : Viewport.t) : Machine :=
  on_world (set_alloc_script [Some bad_alloc]) (viewport_sample oldView).

(** [flush_sample] after the shutdown event has been set. *)
Definition shutdown_sample : Machine :=
  on_world (set_shutdown_signaled true) flush_sample.

(** [flush_sample] on a pipe whose reader is gone (ERROR_BROKEN_PIPE). *)
Definition broken_pipe_sample : Machine :=
  on_world (set_pipe_script [WriteFails 109]) flush_sample.

(** A buffer of 2^32 bytes, and [flush_sample] holding it. *)
Definition huge_buffer : string :=
  string_of_list_ascii (repeat "a"%char (Z.to_nat (2 ^ 32))).

Definition huge_sample : Machine :=
  on_engine (set_buffer huge_buffer) flush_sample.

(** The spec's shrink scenario, (0,0)-(15,12) to (0,0)-(10,10), with memory
    to spare and without. *)
Definition shrink_scenario : HRESULT * Machine :=
  UpdateViewport xterm_ResizeWindowSequence (Build_SMALL_RECT 0 0 10 10)
    (viewport_sample (rect 0 0 15 12)).

Definition shrink_scenario_starved : HRESULT * Machine :=
  UpdateViewport xterm_ResizeWindowSequence (Build_SMALL_RECT 0 0 10 10)
    (starved_sample (rect 0 0 15 12)).

(** The spec's growth scenario, (0,0)-(10,10) to (0,0)-(15,12), likewise. *)
Definition growth_scenario : HRESULT * Machine :=
  UpdateViewport xterm_ResizeWindowSequence (Build_SMALL_RECT 0 0 15 12)
    (viewport_sample (rect 0 0 10 10)).

Definition growth_scenario_starved : HRESULT * Machine :=
  UpdateViewport xterm_ResizeWindowSequence (Build_SMALL_RECT 0 0 15 12)
    (starved_sample (rect 0 0 10 10)).

(** A suppression request, then an update that keeps the size, then one that
    changes it. *)
Definition suppressed_update : HRESULT * Machine :=
  UpdateViewport xterm_ResizeWindowSequence (Build_SMALL_RECT 0 0 10 10)
    (snd (SuppressResizeRepaint (viewport_sample (rect 0 0 10 10)))).

Definition update_after_suppressed : HRESULT * Machine :=
  UpdateViewport xterm_ResizeWindowSequence (Build_SMALL_RECT 0 0 15 12)
    (snd suppressed_update).

(** A machine around an engine. *)
Definition boot (e : VtEngine) (w : World) : Machine :=
  {| this := e; os := w; invalidations := [] |}.

(** The engine the constructor builds for pipe 3, event 4 and an 80x25
    viewport, in the world of [flush_sample]. *)
Definition fresh_engine : VtEngine :=
  match VtEngine_ctor 0xffffffff 3 4 (rect 0 0 79 24) 0 with
  | inr (engine, _) => engine
  | inl _ => this flush_sample
  end.

(** A cursor request on the broken pipe. *)
Definition request_on_broken_pipe : HRESULT * Machine :=
  RequestCursor xterm_RequestCursorSequence broken_pipe_sample.

(** The calls a client of the engine can make, to speak of what happens
    "later". *)
Inductive Call :=
| CallWriteTerminalUtf8 (str : string)
| CallFlush
| CallUpdateViewport (srNewViewport : SMALL_RECT)
| CallSuppressResizeRepaint
| CallInheritCursor (coordCursor : COORD)
| CallRequestCursor
| CallBeginResizeRequest
| CallEndResizeRequest.

Section Calls.

Variable ResizeWindowSequence : SHORT -> SHORT -> string.
Variable RequestCursorSequence : string.

Definition perform (c : Call) (m : Machine) : Machine :=
  match c with
  | CallWriteTerminalUtf8 str => snd (WriteTerminalUtf8 str m)
  | CallFlush => snd (_Flush m)
  | CallUpdateViewport sr => snd (UpdateViewport ResizeWindowSequence sr m)
  | CallSuppressResizeRepaint => snd (SuppressResizeRepaint m)
  | CallInheritCursor coordCursor => snd (InheritCursor coordCursor m)
  | CallRequestCursor => snd (RequestCursor RequestCursorSequence m)
  | CallBeginResizeRequest => snd (BeginResizeRequest m)
  | CallEndResizeRequest => snd (EndResizeRequest m)
  end.

Fixpoint perform_all (calls : list Call) (m : Machine) : Machine :=
  match calls with
  | [] => m
  | c :: rest => perform_all rest (perform c m)
  end.

End Calls.

(** Growth without a wider viewport: (0,0)-(10,10) moves five columns to the
    right and gains two rows. *)
Definition shifted_right_scenario : HRESULT * Machine :=
  UpdateViewport xterm_ResizeWindowSequence (Build_SMALL_RECT 5 0 15 12)
    (viewport_sample (rect 0 0 10 10)).

(** Growth without a higher viewport: (0,0)-(10,10) moves five rows down and
    gains five columns. *)
Definition shifted_down_scenario : HRESULT * Machine :=
  UpdateViewport xterm_ResizeWindowSequence (Build_SMALL_RECT 0 5 15 15)
    (viewport_sample (rect 0 0 10 10)).

(** Growth of a viewport that starts left of column 0: (-5,0)-(5,10) gains
    two rows. *)
Definition negative_left_scenario : HRESULT * Machine :=
  UpdateViewport xterm_ResizeWindowSequence (Build_SMALL_RECT (-5) 0 5 12)
    (viewport_sample (rect (-5) 0 5 10)).

(** The spec's growth scenario after the viewport has moved: a viewport
    (10,10)-(25,25) shrinks to (10,10)-(20,20), which invalidates all of it,
    and moves to (0,0)-(10,10) without a change of size; then it grows to
    (0,0)-(15,12). *)
Definition moved_sample : Machine :=
  perform_all xterm_ResizeWindowSequence xterm_RequestCursorSequence
    [CallUpdateViewport (Build_SMALL_RECT 10 10 20 20);
     CallUpdateViewport (Build_SMALL_RECT 0 0 10 10)]
    (viewport_sample (rect 10 10 25 25)).

Definition moved_growth_scenario : HRESULT * Machine :=
  UpdateViewport xterm_ResizeWindowSequence (Build_SMALL_RECT 0 0 15 12) moved_sample.

(** Environments for the watchdog: the engine's slot holds [threadId], the
    event is signalled or not, and [OpenThread] answers [threadHandle]. *)
Definition watchdog_env (signaled : bool) (threadId : DWORD) (threadHandle : HANDLE)
  : Watchdog.Env :=
  {| Watchdog.machine :=
       on_engine (set_blockedThreadId threadId)
         (on_world (set_shutdown_signaled signaled) flush_sample);
     Watchdog.OpenThread := fun _ _ => threadHandle |}.

Definition unsignalled (env : Watchdog.Env) : bool := negb (Watchdog.signalled env).

(** A schedule on which thread 7 is caught in its write and can be opened
    (handle 9), and one on which thread 5 cannot be opened. *)
Definition rescue_schedule : list Watchdog.Env :=
  [watchdog_env false 7 9; watchdog_env false 7 9;
   watchdog_env true 7 9; watchdog_env true 7 9; watchdog_env true 7 9;
   watchdog_env true 7 9; watchdog_env true 0 9].

Definition unopened_schedule : list Watchdog.Env :=
  [watchdog_env true 5 0; watchdog_env true 5 0; watchdog_env true 5 0;
   watchdog_env true 5 0; watchdog_env true 5 0].

(** ** The rest of state.cpp *)

Definition wchar_t := Z.    (* unsigned 16 bits *)

(** [~VtEngine]: an engine that holds the event sets it. *)
Definition VtEngine_dtor : M unit :=
  hEvent <- member _shutdownEvent;;
  if negb (hEvent =? 0) then SetEvent else ret tt.

(** The loop of [_WriteTerminalAscii]: one [push_back] per wide character,
    of ['?'] for a character above 0x7f and of the character itself
    otherwise. *)
Definition ascii_needed (wstr : list wchar_t) : string :=
  fold_left
    (fun needed wch =>
       (needed ++ String (if wch >? 0x7f then "?"%char
                          else ascii_of_nat (Z.to_nat wch)) "")%string)
    wstr ""%string.

(** [needed.reserve(n)]: the allocator is asked once; [None] when the room
    was made, the exception when the reservation threw. *)
Definition reserve (n : nat) : M (option Exception) :=
  script <- sys alloc_script;;
  match script with
  | Some ex :: rest => sys_update (set_alloc_script rest);; ret (Some ex)
  | None :: rest => sys_update (set_alloc_script rest);; ret None
  | [] => ret None
  end.

(** [_WriteTerminalAscii].  The method is [noexcept] and builds its local
    string outside any [try]: an exception from [reserve] reaches the
    boundary of the method and [std::terminate] ends the process.  [None] is
    that end; the method then neither returns nor leaves a machine behind.
    After the reservation the string has room for one byte per wide
    character, so that no [push_back] allocates. *)
Definition _WriteTerminalAscii (wstr : list wchar_t) (m : Machine)
    : option (HRESULT * Machine) :=
  let cchActual := List.length wstr in
  let (thrown, m) := reserve (List.length wstr) m in
  match thrown with
  | Some _ => None
  | None =>
      let needed := ascii_needed wstr in
      Some (_Write needed m)
  end.

(** ** Vocabulary of the further properties *)

(** The wide string of a narrow one. *)
Definition widen (str : string) : list wchar_t :=
  map (fun c => Z.of_nat (nat_of_ascii c)) (list_ascii_of_string str).

Definition seven_bit (c : ascii) : bool := (nat_of_ascii c <? 128)%nat.

(** What the pipe has been handed, and what the channel has been told to
    write, along a trace.  A [WriteFile] hands over the first
    [nNumberOfBytesToWrite] bytes of its buffer. *)
Fixpoint sent (tr : list Event) : string :=
  match tr with
  | [] => ""%string
  | EvWriteFile _ lpBuffer n :: rest =>
      (substring 0 (Z.to_nat n) lpBuffer ++ sent rest)%string
  | _ :: rest => sent rest
  end.

(** The [WriteFile] was asked for all of its buffer. *)
Definition whole_buffer (ev : Event) : bool :=
  match ev with
  | EvWriteFile _ lpBuffer n => n =? Z.of_nat (String.length lpBuffer)
  | _ => true
  end.

Fixpoint written (tr : list Event) : string :=
  match tr with
  | [] => ""%string
  | EvTraceString str :: rest => (str ++ written rest)%string
  | _ :: rest => written rest
  end.

Definition no_throw (outcome : option Exception) : bool :=
  match outcome with None => true | Some _ => false end.

Definition no_failure (outcome : WriteOutcome) : bool :=
  match outcome with WriteOk => true | WriteFails _ => false end.

(** A world in which nothing goes wrong: the event is not signalled, no
    append throws and no write fails. *)
Definition healthy (w : World) : bool :=
  negb (shutdown_signaled w)
  && forallb no_throw (alloc_script w)
  && forallb no_failure (pipe_script w).

(** The calls that flush. *)
Definition flushes (c : Call) : bool :=
  match c with
  | CallFlush | CallRequestCursor => true
  | _ => false
  end.

(** The flags as the calls leave them, one call after the other. *)
Definition inResizeRequest_after (flag : bool) (c : Call) : bool :=
  match c with
  | CallBeginResizeRequest => true
  | CallEndResizeRequest => false
  | _ => flag
  end.

Definition suppressResizeRepaint_after (flag : bool) (c : Call) : bool :=
  match c with
  | CallSuppressResizeRepaint => true
  | CallUpdateViewport _ => false
  | _ => flag
  end.

(** The watchdog can still read the slot, or still cancel, from a control
    point on. *)
Definition loads_ahead (p : Watchdog.pc) : nat :=
  match p with
  | Watchdog.Waiting | Watchdog.Loading => 1
  | _ => 0
  end.

Definition cancels_ahead (p : Watchdog.pc) : nat :=
  match p with
  | Watchdog.Returned => 0
  | _ => 1
  end.

(** An environment for the watchdog around a given machine. *)
Definition env_of (m : Machine) (OpenThread : DWORD -> DWORD -> HANDLE) : Watchdog.Env :=
  {| Watchdog.machine := m; Watchdog.OpenThread := OpenThread |}.

(** The machine once a reservation has been granted: the allocator has
    answered once. *)
Definition after_reservation (m : Machine) : Machine :=
  on_world (fun w => set_alloc_script (tl (alloc_script w)) w) m.

(** The byte [_WriteTerminalAscii] makes of one wide character. *)
Definition to_ascii (wch : wchar_t) : ascii :=
  if wch >? 0x7f then "?"%char else ascii_of_nat (Z.to_nat wch).

(** Samples for the ASCII writer: "a", e-acute, a CJK character, "z". *)
Definition wide_sample : list wchar_t := [97; 233; 0x4e2d; 122].

(** * Properties *)

(** ** HRESULT arithmetic *)

Lemma to_LONG_small (z : Z) : 0 <= z < 2 ^ 31 -> to_LONG z = z.
Proof.
  intros Hz. unfold to_LONG.
  rewrite Z.mod_small; lia.
Qed.

Lemma to_LONG_big (z : Z) : 2 ^ 31 <= z < 2 ^ 32 -> to_LONG z = z - 2 ^ 32.
Proof.
  intros Hz. unfold to_LONG.
  replace (z + 2 ^ 31) with (z - 2 ^ 31 + 1 * 2 ^ 32) by lia.
  rewrite Z.mod_add by lia.
  rewrite Z.mod_small; lia.
Qed.

Lemma lor_pow2_above (a n : Z) : 0 <= n -> 0 <= a < 2 ^ n -> Z.lor a (2 ^ n) = a + 2 ^ n.
Proof.
  intros Hn Ha.
  assert (Hdisjoint : Z.land a (2 ^ n) = 0).
  { apply Z.bits_inj'. intros i Hi.
    rewrite Z.land_spec, Z.bits_0, Z.pow2_bits_eqb by lia.
    destruct (Z.eqb_spec n i) as [->|Hne].
    - destruct (Z.eq_dec a 0) as [->|Hnz]; [now rewrite Z.bits_0|].
      rewrite Z.bits_above_log2; [reflexivity|lia|].
      apply Z.log2_lt_pow2; lia.
    - apply andb_false_r. }
  rewrite <- Z.lxor_lor by exact Hdisjoint.
  symmetry. now apply Z.add_nocarry_lxor.
Qed.

Lemma win32_facility_bounds (x : Z) :
  0 <= Z.lor (Z.land x 0xFFFF) (Z.shiftl FACILITY_WIN32 16) < 2 ^ 31.
Proof.
  assert (Hland : 0 <= Z.land x 0xFFFF < 2 ^ 16).
  { change 0xFFFF with (Z.ones 16). rewrite Z.land_ones by lia.
    apply Z.mod_pos_bound. lia. }
  set (a := Z.land x 0xFFFF) in *.
  change (Z.shiftl FACILITY_WIN32 16) with 458752.
  assert (Hnonneg : 0 <= Z.lor a 458752) by (apply Z.lor_nonneg; lia).
  split; [exact Hnonneg|].
  destruct (Z.eq_dec (Z.lor a 458752) 0) as [->|Hnz]; [lia|].
  apply Z.log2_lt_pow2; [lia|].
  rewrite Z.log2_lor by lia.
  apply Z.max_lub_lt.
  - destruct (Z.eq_dec a 0) as [->|Ha]; [cbn; lia|].
    apply Z.log2_lt_pow2; lia.
  - cbn. lia.
Qed.

(** An HRESULT made from a Win32 error other than success is a failure. *)
Lemma HRESULT_FROM_WIN32_failed (x : DWORD) :
  0 < x < 2 ^ 32 -> FAILED (HRESULT_FROM_WIN32 x) = true.
Proof.
  intros Hx. unfold FAILED, HRESULT_FROM_WIN32.
  apply Z.ltb_lt.
  destruct (Z.leb_spec (to_LONG x) 0) as [Hle|Hgt].
  - destruct (Z_lt_le_dec x (2 ^ 31)) as [Hsmall|Hbig].
    + rewrite to_LONG_small in * by lia. lia.
    + rewrite to_LONG_big by lia. lia.
  - pose proof (win32_facility_bounds x) as Hb.
    change 0x80000000 with (2 ^ 31).
    rewrite lor_pow2_above by lia.
    rewrite to_LONG_big by lia. lia.
Qed.

(** [RETURN_LAST_ERROR] never reports success, whatever the last error. *)
Lemma GetLastErrorFailHr_failed (err : Z) :
  FAILED (GetLastErrorFailHr (to_DWORD err)) = true.
Proof.
  unfold GetLastErrorFailHr, GetLastErrorFail.
  destruct (Z.eqb_spec (to_DWORD err) ERROR_SUCCESS) as [_|Hnz].
  - reflexivity.
  - apply HRESULT_FROM_WIN32_failed.
    unfold to_DWORD, ERROR_SUCCESS in *.
    pose proof (Z.mod_pos_bound err (2 ^ 32)). lia.
Qed.

Lemma ResultFromCaughtException_failed (ex : Exception) :
  FAILED (ResultFromCaughtException ex) = true.
Proof. destruct ex; reflexivity. Qed.

Lemma FAILED_SUCCEEDED (hr : HRESULT) : SUCCEEDED hr = negb (FAILED hr).
Proof.
  unfold SUCCEEDED, FAILED.
  destruct (Z.leb_spec 0 hr), (Z.ltb_spec hr 0); auto; lia.
Qed.

Lemma static_cast_DWORD_fits (n : nat) :
  Z.of_nat n < 2 ^ 32 -> static_cast_DWORD n = Z.of_nat n.
Proof.
  intros Hn. unfold static_cast_DWORD, to_DWORD.
  apply Z.mod_small. lia.
Qed.

(** ** Strings *)

Lemma string_app_nil_r (s : string) : (s ++ "")%string = s.
Proof.
  induction s as [|c s IH]; cbn; [reflexivity|now rewrite IH].
Qed.

Lemma string_app_assoc (s1 s2 s3 : string) :
  ((s1 ++ s2) ++ s3)%string = (s1 ++ (s2 ++ s3))%string.
Proof.
  induction s1 as [|c s1 IH]; cbn; [reflexivity|now rewrite IH].
Qed.

Lemma string_app_length (s1 s2 : string) :
  String.length (s1 ++ s2) = (String.length s1 + String.length s2)%nat.
Proof.
  induction s1 as [|c s1 IH]; cbn; [reflexivity|now rewrite IH].
Qed.

Lemma string_of_list_ascii_app (l1 l2 : list ascii) :
  string_of_list_ascii (l1 ++ l2)
  = (string_of_list_ascii l1 ++ string_of_list_ascii l2)%string.
Proof.
  induction l1 as [|c l1 IH]; cbn; [reflexivity|now rewrite IH].
Qed.

Lemma string_of_list_ascii_length (l : list ascii) :
  String.length (string_of_list_ascii l) = List.length l.
Proof.
  induction l as [|c l IH]; cbn; [reflexivity|now rewrite IH].
Qed.

(** ** The write/flush channel *)

(** Runs the straight-line part of a method: the monad, the calls into the
    operating system and the field accesses. *)
Ltac run_method :=
  repeat first
    [ progress cbn [fst snd this os invalidations bind ret member assign sys
                    sys_update emit invalidation
                    is_signaled SetEvent GetCurrentThreadId blockedThreadId_store
                    RETURN_LAST_ERROR negb
                    shutdown_signaled current_thread last_error pipe_script
                    alloc_script trace set_shutdown_signaled set_last_error
                    set_pipe_script set_alloc_script set_trace
                    _shutdownEvent _hFile _blockedThreadId _buffer
                    _LastFG _LastBG _lastWasBold _lastViewport
                    _invalidRect _fInvalidRectUsed _lastRealCursor
                    _lastText _scrollDelta _quickReturn
                    _clearedAllThisFrame _cursorMoved _resized
                    _suppressResizeRepaint _virtualTop _circled
                    _firstPaint _skipCursor _newBottomLine
                    _deferredCursorPos _inResizeRequest
                    set_blockedThreadId set_buffer set_lastViewport
                    set_invalidRect set_lastText set_resized
                    set_suppressResizeRepaint set_virtualTop
                    set_firstPaint set_skipCursor set_inResizeRequest]
    | progress unfold bind, ret, member, assign, sys, sys_update, emit, is_signaled,
        SetEvent, GetCurrentThreadId, blockedThreadId_store, RETURN_LAST_ERROR ].

(** With the event signalled [_Flush] is the identity. *)
Lemma _Flush_signaled (m : Machine) :
  shutdown_signaled (os m) = true -> _Flush m = (S_OK, m).
Proof.
  intros Hsignaled. destruct m as [e w calls]. cbn [os] in Hsignaled.
  unfold _Flush. run_method. rewrite Hsignaled. reflexivity.
Qed.

(** What [_Flush] does when the event is not signalled. *)
Lemma _Flush_running (m : Machine) :
  shutdown_signaled (os m) = false ->
  let hr := fst (_Flush m) in
  let m' := snd (_Flush m) in
  let buffer := _buffer (this m) in
  let stash := EvStoreBlockedThreadId (current_thread (os m)) in
  let write := EvWriteFile (_hFile (this m)) buffer
                 (static_cast_DWORD (String.length buffer)) in
  let blocked := EvBlockedInWrite (current_thread (os m)) in
  let unstash := EvStoreBlockedThreadId 0 in
  this m' = set_buffer ""%string (set_blockedThreadId 0 (this m))
  /\ writes (trace (os m')) = writes (trace (os m)) ++ [write]
  /\ match pending_write (os m) with
     | WriteOk =>
         hr = S_OK
         /\ trace (os m') = trace (os m) ++ [stash; write; blocked; unstash]
         /\ shutdown_signaled (os m') = false
     | WriteFails err =>
         hr = GetLastErrorFailHr (to_DWORD err)
         /\ trace (os m') =
              trace (os m)
              ++ [stash; write; blocked; unstash; EvSetEvent (_shutdownEvent (this m))]
         /\ shutdown_signaled (os m') = true
     end.
Proof.
  intros Hrunning. cbv zeta.
  destruct m as [e w calls]. cbn [this os] in *.
  unfold _Flush, WriteFile, pending_write. run_method. rewrite Hrunning. run_method.
  split; [|split].
  - destruct (pipe_script w) as [|[|err] rest]; reflexivity.
  - unfold writes.
    destruct (pipe_script w) as [|[|err] rest]; run_method;
      repeat rewrite <- app_assoc; rewrite !filter_app; cbn;
      rewrite ?app_nil_r; reflexivity.
  - destruct (pipe_script w) as [|[|err] rest]; run_method;
      repeat rewrite <- app_assoc; cbn [app]; auto.
Qed.

(** C1.  A [_Flush] entered with the shutdown event already signalled returns
    [S_OK] and leaves the engine and the operating system exactly as they
    were: nothing is added to the trace (no [WriteFile], no store to
    [_blockedThreadId]), the slot and the buffer keep their values. *)
Theorem flush_after_shutdown (m : Machine) :
  shutdown_signaled (os m) = true ->
  _Flush m = (S_OK, m)
  /\ writes (trace (os (snd (_Flush m)))) = writes (trace (os m))
  /\ trace (os (snd (_Flush m))) = trace (os m)
  /\ _blockedThreadId (this (snd (_Flush m))) = _blockedThreadId (this m)
  /\ _buffer (this (snd (_Flush m))) = _buffer (this m).
Proof.
  intros Hsignaled.
  rewrite (_Flush_signaled m Hsignaled). cbn [snd]. auto.
Qed.

Lemma flush_after_shutdown_witness :
  shutdown_signaled (os shutdown_sample) = true
  /\ _Flush shutdown_sample = (S_OK, shutdown_sample)
  /\ writes (trace (os (snd (_Flush shutdown_sample)))) = writes (trace (os shutdown_sample))
  /\ trace (os (snd (_Flush shutdown_sample))) = trace (os shutdown_sample)
  /\ _blockedThreadId (this (snd (_Flush shutdown_sample)))
     = _blockedThreadId (this shutdown_sample)
  /\ _buffer (this (snd (_Flush shutdown_sample))) = _buffer (this shutdown_sample).
Proof.
  split; [reflexivity|].
  exact (flush_after_shutdown shutdown_sample eq_refl).
Defined.

(** C2, as amended.  A [_Flush] entered with the shutdown event not signalled
    stores the calling thread's id in [_blockedThreadId], where it is what
    another thread loads for as long as the write is in progress; it calls
    [WriteFile] once, with the pipe handle, the buffer and the buffer's size
    as a DWORD (the size modulo 2^32: the size itself whenever it fits 32
    bits), and stores 0 in the slot afterwards, whatever [WriteFile]
    returned.  When the write fails
    the shutdown event is set and the HRESULT of the last error, a failure,
    is returned; when it succeeds the buffer is emptied, the event is left
    alone and [S_OK] is returned. *)
Theorem flush_while_running (m : Machine) :
  shutdown_signaled (os m) = false ->
  let hr := fst (_Flush m) in
  let m' := snd (_Flush m) in
  let buffer := _buffer (this m) in
  let stash := EvStoreBlockedThreadId (current_thread (os m)) in
  let write := EvWriteFile (_hFile (this m)) buffer
                 (static_cast_DWORD (String.length buffer)) in
  let blocked := EvBlockedInWrite (current_thread (os m)) in
  let unstash := EvStoreBlockedThreadId 0 in
  _blockedThreadId (this m') = 0
  /\ writes (trace (os m')) = writes (trace (os m)) ++ [write]
  /\ static_cast_DWORD (String.length buffer) = Z.of_nat (String.length buffer) mod 2 ^ 32
  /\ (Z.of_nat (String.length buffer) < 2 ^ 32 ->
      static_cast_DWORD (String.length buffer) = Z.of_nat (String.length buffer))
  /\ match pending_write (os m) with
     | WriteOk =>
         hr = S_OK
         /\ trace (os m') = trace (os m) ++ [stash; write; blocked; unstash]
         /\ _buffer (this m') = ""%string
         /\ shutdown_signaled (os m') = false
     | WriteFails err =>
         FAILED hr = true
         /\ hr = GetLastErrorFailHr (to_DWORD err)
         /\ trace (os m') =
              trace (os m)
              ++ [stash; write; blocked; unstash; EvSetEvent (_shutdownEvent (this m))]
         /\ shutdown_signaled (os m') = true
     end.
Proof.
  intros Hrunning. cbv zeta.
  destruct (_Flush_running m Hrunning) as (Hthis & Hwrites & Houtcome).
  cbv zeta in Hthis, Hwrites, Houtcome.
  split; [now rewrite Hthis|].
  split; [exact Hwrites|].
  split; [reflexivity|].
  split; [apply static_cast_DWORD_fits|].
  destruct (pending_write (os m)) as [|err].
  - destruct Houtcome as (Hhr & Htrace & Hsignal).
    rewrite Hthis. auto.
  - destruct Houtcome as (Hhr & Htrace & Hsignal).
    rewrite Hhr. auto using GetLastErrorFailHr_failed.
Qed.

(** On a broken pipe the flush of "abc" stores the thread id 42, which is
    what the slot holds during the write of the three bytes, clears the
    slot, sets the event and returns 0x8007006D. *)
Lemma flush_while_running_witness :
  shutdown_signaled (os broken_pipe_sample) = false
  /\ _blockedThreadId (this (snd (_Flush broken_pipe_sample))) = 0
  /\ writes (trace (os (snd (_Flush broken_pipe_sample)))) = [EvWriteFile 3 "abc" 3]
  /\ FAILED (fst (_Flush broken_pipe_sample)) = true
  /\ fst (_Flush broken_pipe_sample) = to_LONG 0x8007006D
  /\ trace (os (snd (_Flush broken_pipe_sample))) =
       [EvStoreBlockedThreadId 42; EvWriteFile 3 "abc" 3; EvBlockedInWrite 42;
        EvStoreBlockedThreadId 0; EvSetEvent 4]
  /\ shutdown_signaled (os (snd (_Flush broken_pipe_sample))) = true.
Proof.
  pose proof (flush_while_running broken_pipe_sample eq_refl)
    as (Hslot & Hwrites & _ & _ & Hfailed & Hhr & Htrace & Hevent).
  exact (conj eq_refl
           (conj Hslot (conj Hwrites (conj Hfailed (conj Hhr (conj Htrace Hevent)))))).
Defined.

(** The buffer of 2^32 bytes has that length, which as a DWORD is 0. *)
Lemma huge_buffer_length : Z.of_nat (String.length huge_buffer) = 2 ^ 32.
Proof.
  unfold huge_buffer.
  rewrite string_of_list_ascii_length, repeat_length.
  apply Z2Nat.id. apply Z.pow_nonneg. lia.
Qed.

(** [flush_sample] with a buffer whose size is 0 as a DWORD. *)
Lemma _Flush_wrapped_count (buffer : string) :
  static_cast_DWORD (String.length buffer) = 0 ->
  let m := on_engine (set_buffer buffer) flush_sample in
  shutdown_signaled (os m) = false
  /\ pending_write (os m) = WriteOk
  /\ _buffer (this m) = buffer
  /\ writes (trace (os (snd (_Flush m)))) = [EvWriteFile 3 buffer 0]
  /\ fst (_Flush m) = S_OK
  /\ _buffer (this (snd (_Flush m))) = ""%string.
Proof.
  intros Hcount m.
  pose proof (_Flush_running m eq_refl) as (Hthis & Hwrites & Houtcome).
  cbv zeta in Hthis, Hwrites, Houtcome.
  change (_buffer (this m)) with buffer in *.
  change (pending_write (os m)) with WriteOk in Houtcome.
  change (writes (trace (os m))) with (@nil Event) in Hwrites.
  change (_hFile (this m)) with 3 in Hwrites.
  rewrite Hcount in Hwrites.
  destruct Houtcome as (Hhr & _ & _).
  split; [reflexivity|]. split; [reflexivity|]. split; [reflexivity|].
  split; [exact Hwrites|].
  split; [exact Hhr|].
  rewrite Hthis. reflexivity.
Qed.

(** C2, as stated, fails: with 2^32 bytes in the buffer the one [WriteFile]
    is asked for none of them, not for the entire buffer; on a pipe that
    takes every write the call returns [S_OK], and the buffer is emptied all
    the same. *)
Lemma flush_truncates_huge_buffer :
  Z.of_nat (String.length huge_buffer) = 2 ^ 32
  /\ shutdown_signaled (os huge_sample) = false
  /\ pending_write (os huge_sample) = WriteOk
  /\ _buffer (this huge_sample) = huge_buffer
  /\ writes (trace (os (snd (_Flush huge_sample)))) = [EvWriteFile 3 huge_buffer 0]
  /\ fst (_Flush huge_sample) = S_OK
  /\ _buffer (this (snd (_Flush huge_sample))) = ""%string.
Proof.
  split; [exact huge_buffer_length|].
  unfold huge_sample.
  apply (_Flush_wrapped_count huge_buffer).
  unfold static_cast_DWORD, to_DWORD. rewrite huge_buffer_length.
  apply Z.mod_same. lia.
Qed.

(** *** What the methods leave alone *)

(** [_Write] touches the buffer, the allocator's script and the trace, to
    which it adds its [EvTraceString] and nothing else. *)
Lemma _Write_effect (str : string) (m : Machine) :
  let hr := fst (_Write str m) in
  let m' := snd (_Write str m) in
  trace (os m') = trace (os m) ++ [EvTraceString str]
  /\ shutdown_signaled (os m') = shutdown_signaled (os m)
  /\ pipe_script (os m') = pipe_script (os m)
  /\ current_thread (os m') = current_thread (os m)
  /\ alloc_script (os m') = tl (alloc_script (os m))
  /\ this m' = set_buffer (match pending_append (os m) with
                           | None => (_buffer (this m) ++ str)%string
                           | Some _ => _buffer (this m)
                           end) (this m)
  /\ hr = match pending_append (os m) with
          | None => S_OK
          | Some ex => ResultFromCaughtException ex
          end.
Proof.
  destruct m as [e w calls]. unfold _Write, buffer_append, pending_append. run_method.
  destruct (alloc_script w) as [|[ex|] rest] eqn:Hscript; run_method;
    rewrite ?Hscript; destruct e; repeat split; reflexivity.
Qed.

Lemma writes_app (tr tr' : list Event) : writes (tr ++ tr') = writes tr ++ writes tr'.
Proof. apply filter_app. Qed.

(** ** Viewport updates *)


(** Case analysis on the conditions a method is stuck on. *)
Ltac split_ifs :=
  repeat match goal with
    | |- context [if ?c then _ else _] => destruct c eqn:?
    | |- context [match ?s with [] => _ | _ :: _ => _ end] => destruct s eqn:?
    | |- context [match ?o with Some _ => _ | None => _ end] => destruct o eqn:?
    end.

Section UpdateViewportFacts.

Variable ResizeWindowSequence : SHORT -> SHORT -> string.

Ltac run_UpdateViewport :=
  unfold UpdateViewport, _ResizeWindow, _Write, buffer_append,
    InvalidateAll, _InvalidCombine, emits_resize, size_changed, shrank,
    grown_region, grown_invalidations, width_grew, height_grew, right_band,
    bottom_band, pending_append;
  run_method.

Lemma UpdateViewport_flags (sr : SMALL_RECT) (m : Machine) :
  let e' := this (snd (UpdateViewport ResizeWindowSequence sr m)) in
  _lastViewport e' = Viewport.FromInclusive sr
  /\ _suppressResizeRepaint e' = false
  /\ _resized e' = true.
Proof.
  destruct m as [e w calls]. run_UpdateViewport.
  split_ifs; run_method; split_ifs; cbn; auto.
Qed.

(** Without emission the call leaves the operating system and the buffer
    alone and succeeds. *)
Lemma UpdateViewport_quiet (sr : SMALL_RECT) (m : Machine) :
  emits_resize sr m = false ->
  fst (UpdateViewport ResizeWindowSequence sr m) = S_OK
  /\ os (snd (UpdateViewport ResizeWindowSequence sr m)) = os m
  /\ _buffer (this (snd (UpdateViewport ResizeWindowSequence sr m))) = _buffer (this m).
Proof.
  destruct m as [e w calls]. run_UpdateViewport. intros Hquiet.
  destruct (negb (Viewport.Height (_lastViewport e) =? Viewport.Height (Viewport.FromInclusive sr))
            || negb (Viewport.Width (_lastViewport e) =? Viewport.Width (Viewport.FromInclusive sr)));
    run_method;
    [destruct (_suppressResizeRepaint e); [|discriminate Hquiet]|]; run_method;
    split_ifs; run_method; destruct w; cbn; auto.
Qed.

(** With emission the sequence for the new width and height is written to
    the channel, once; nothing goes to the pipe and the shutdown event is
    not touched.  The sequence reaches the buffer unless the append throws,
    in which case the call fails with the exception's HRESULT. *)
Lemma UpdateViewport_emit (sr : SMALL_RECT) (m : Machine) :
  emits_resize sr m = true ->
  let newView := Viewport.FromInclusive sr in
  let sequence :=
    ResizeWindowSequence (Viewport.Width newView) (Viewport.Height newView) in
  let hr := fst (UpdateViewport ResizeWindowSequence sr m) in
  let m' := snd (UpdateViewport ResizeWindowSequence sr m) in
  trace (os m') = trace (os m) ++ [EvTraceString sequence]
  /\ shutdown_signaled (os m') = shutdown_signaled (os m)
  /\ pipe_script (os m') = pipe_script (os m)
  /\ match pending_append (os m) with
     | None => hr = S_OK /\ _buffer (this m') = (_buffer (this m) ++ sequence)%string
     | Some ex =>
         hr = ResultFromCaughtException ex /\ _buffer (this m') = _buffer (this m)
     end.
Proof.
  destruct m as [e w calls]. run_UpdateViewport. intros Hemit.
  apply andb_prop in Hemit as [Hchanged Hsuppress].
  rewrite Hchanged. run_method.
  destruct (_suppressResizeRepaint e); [discriminate Hsuppress|].
  run_method.
  destruct (alloc_script w) as [|[ex|] rest]; run_method.
  - split_ifs; run_method; cbn; auto.
  - rewrite FAILED_SUCCEEDED, ResultFromCaughtException_failed. cbn. auto.
  - split_ifs; run_method; cbn; auto.
Qed.

(** What the call does to the invalidated region. *)
Lemma UpdateViewport_region (sr : SMALL_RECT) (m : Machine) :
  let oldView := _lastViewport (this m) in
  let newView := Viewport.FromInclusive sr in
  let hr := fst (UpdateViewport ResizeWindowSequence sr m) in
  let region' := _invalidRect (this (snd (UpdateViewport ResizeWindowSequence sr m))) in
  region' =
    if FAILED hr then _invalidRect (this m)
    else if shrank oldView newView then newView
    else grown_region oldView newView (_invalidRect (this m)).
Proof.
  destruct m as [e w calls]. run_UpdateViewport.
  destruct (negb (Viewport.Height (_lastViewport e) =? Viewport.Height (Viewport.FromInclusive sr))
            || negb (Viewport.Width (_lastViewport e) =? Viewport.Width (Viewport.FromInclusive sr)));
    run_method; [destruct (_suppressResizeRepaint e)|]; run_method.
  2: destruct (alloc_script w) as [|[ex|] rest]; run_method.
  3: { rewrite FAILED_SUCCEEDED, ResultFromCaughtException_failed. run_method.
       rewrite ResultFromCaughtException_failed. reflexivity. }
  all: change (SUCCEEDED S_OK) with true; change (FAILED S_OK) with false; cbn [andb];
    split_ifs; run_method; cbn; try reflexivity; try discriminate.
Qed.

(** The invalidations the call asks for, in the order it asks for them. *)
Lemma UpdateViewport_invalidations (sr : SMALL_RECT) (m : Machine) :
  let oldView := _lastViewport (this m) in
  let newView := Viewport.FromInclusive sr in
  let hr := fst (UpdateViewport ResizeWindowSequence sr m) in
  invalidations (snd (UpdateViewport ResizeWindowSequence sr m)) =
    invalidations m
    ++ (if FAILED hr then []
        else if shrank oldView newView then [InvalidatedAll]
        else grown_invalidations oldView newView).
Proof.
  destruct m as [e w calls]. run_UpdateViewport.
  destruct (negb (Viewport.Height (_lastViewport e) =? Viewport.Height (Viewport.FromInclusive sr))
            || negb (Viewport.Width (_lastViewport e) =? Viewport.Width (Viewport.FromInclusive sr)));
    run_method; [destruct (_suppressResizeRepaint e)|]; run_method.
  2: destruct (alloc_script w) as [|[ex|] rest]; run_method.
  3: { rewrite FAILED_SUCCEEDED, ResultFromCaughtException_failed. run_method.
       rewrite ResultFromCaughtException_failed. now rewrite app_nil_r. }
  all: change (SUCCEEDED S_OK) with true; change (FAILED S_OK) with false; cbn [andb];
    split_ifs; run_method; cbn; rewrite <- ?app_assoc, ?app_nil_r;
    try reflexivity; try discriminate.
Qed.

End UpdateViewportFacts.

(** *** Rectangles *)

Lemma to_SHORT_small (z : Z) : - 2 ^ 15 <= z < 2 ^ 15 -> to_SHORT z = z.
Proof.
  intros Hz. unfold to_SHORT.
  rewrite Z.mod_small; lia.
Qed.

Lemma Viewport_eqb_refl (v : Viewport.t) : Viewport.eqb v v = true.
Proof.
  unfold Viewport.eqb. now rewrite !Z.eqb_refl.
Qed.

Lemma Viewport_eqb_eq (a b : Viewport.t) : Viewport.eqb a b = true <-> a = b.
Proof.
  split.
  - destruct a as [[al atop ar ab]], b as [[bl btop br bb]].
    unfold Viewport.eqb. cbn.
    rewrite !andb_true_iff, !Z.eqb_eq. intros [[[-> ->] ->] ->]. reflexivity.
  - intros ->. apply Viewport_eqb_refl.
Qed.

Lemma Empty_contains_nothing (x y : Z) : Viewport.contains Viewport.Empty x y = false.
Proof.
  unfold Viewport.contains. cbn.
  destruct (Z.leb_spec 0 x), (Z.leb_spec x (-1)); cbn; try reflexivity; lia.
Qed.

(** A clipped rectangle lies within the bounds and within the rectangle. *)
Lemma Clip_within (bounds rect : Viewport.t) (x y : Z) :
  Viewport.contains (Viewport.Clip bounds rect) x y = true ->
  Viewport.contains bounds x y = true /\ Viewport.contains rect x y = true.
Proof.
  unfold Viewport.Clip.
  destruct (Viewport.IsValid _).
  - unfold Viewport.contains. cbn.
    rewrite !andb_true_iff, !Z.leb_le. lia.
  - rewrite Empty_contains_nothing. discriminate.
Qed.

Lemma SUCCEEDED_not_FAILED (hr : HRESULT) : SUCCEEDED hr = true -> FAILED hr = false.
Proof.
  rewrite FAILED_SUCCEEDED. now destruct (FAILED hr).
Qed.

Lemma shrank_iff (oldView newView : Viewport.t) :
  shrank oldView newView = true <->
  Viewport.Width newView < Viewport.Width oldView
  \/ Viewport.Height newView < Viewport.Height oldView.
Proof.
  unfold shrank. rewrite orb_true_iff, !Z.gtb_ltb, !Z.ltb_lt. tauto.
Qed.

(** C4, as amended.  An [UpdateViewport] that succeeds and makes the viewport
    narrower or lower leaves the invalidated region equal to the whole new
    viewport, so that [_AllIsInvalid] holds. *)
Theorem shrink_invalidates_all
    (ResizeWindowSequence : SHORT -> SHORT -> string) (sr : SMALL_RECT) (m : Machine) :
  Viewport.Width (Viewport.FromInclusive sr) < Viewport.Width (_lastViewport (this m))
  \/ Viewport.Height (Viewport.FromInclusive sr) < Viewport.Height (_lastViewport (this m)) ->
  SUCCEEDED (fst (UpdateViewport ResizeWindowSequence sr m)) = true ->
  let e' := this (snd (UpdateViewport ResizeWindowSequence sr m)) in
  _lastViewport e' = Viewport.FromInclusive sr
  /\ _invalidRect e' = Viewport.FromInclusive sr
  /\ _AllIsInvalid e' = true.
Proof.
  intros Hshrank Hok e'.
  apply shrank_iff in Hshrank. apply SUCCEEDED_not_FAILED in Hok.
  pose proof (UpdateViewport_flags ResizeWindowSequence sr m) as [Hview _].
  pose proof (UpdateViewport_region ResizeWindowSequence sr m) as Hregion.
  cbv zeta in Hview, Hregion. fold e' in Hview, Hregion.
  rewrite Hok, Hshrank in Hregion.
  unfold _AllIsInvalid. rewrite Hview, Hregion.
  auto using Viewport_eqb_refl.
Qed.

(** The spec's shrink scenario: from (0,0)-(15,12) to (0,0)-(10,10). *)
Lemma shrink_invalidates_all_witness :
  Viewport.Width (rect 0 0 10 10) < Viewport.Width (rect 0 0 15 12)
  /\ SUCCEEDED (fst shrink_scenario) = true
  /\ _invalidRect (this (snd shrink_scenario)) = rect 0 0 10 10
  /\ _AllIsInvalid (this (snd shrink_scenario)) = true.
Proof.
  assert (Hnarrower : Viewport.Width (rect 0 0 10 10) < Viewport.Width (rect 0 0 15 12))
    by reflexivity.
  destruct (shrink_invalidates_all xterm_ResizeWindowSequence
              (Build_SMALL_RECT 0 0 10 10) (viewport_sample (rect 0 0 15 12))
              (or_introl Hnarrower) eq_refl)
    as (_ & Hregion & Hall).
  exact (conj Hnarrower (conj eq_refl (conj Hregion Hall))).
Defined.

(** C4, as stated, fails: in the spec's shrink scenario, when the append of
    the resize sequence throws, the call fails before it invalidates
    anything and the region stays as it was. *)
Lemma shrink_without_invalidation :
  Viewport.Width (rect 0 0 10 10) < Viewport.Width (rect 0 0 15 12)
  /\ _lastViewport (this (starved_sample (rect 0 0 15 12))) = rect 0 0 15 12
  /\ fst shrink_scenario_starved = E_OUTOFMEMORY
  /\ _invalidRect (this (snd shrink_scenario_starved)) = Viewport.Empty
  /\ _invalidRect (this (snd shrink_scenario_starved)) <> rect 0 0 10 10
  /\ _AllIsInvalid (this (snd shrink_scenario_starved)) = false.
Proof.
  vm_compute. repeat split. discriminate.
Qed.

(** In the spec's growth scenario the two bands together span the whole new
    viewport, whatever was invalid before inside it. *)
Lemma growth_scenario_region (region : Viewport.t) :
  (Viewport.IsValid region = true -> Viewport.inside region (rect 0 0 15 12) = true) ->
  grown_region (rect 0 0 10 10) (rect 0 0 15 12) region = rect 0 0 15 12.
Proof.
  intros Hinside. unfold grown_region.
  change (width_grew (rect 0 0 10 10) (rect 0 0 15 12)) with true.
  change (height_grew (rect 0 0 10 10) (rect 0 0 15 12)) with true.
  change (Viewport.Clip (rect 0 0 15 12) (right_band (rect 0 0 10 10) (rect 0 0 15 12)))
    with (rect 11 0 15 10).
  change (Viewport.Clip (rect 0 0 15 12) (bottom_band (rect 0 0 10 10) (rect 0 0 15 12)))
    with (rect 0 11 15 12).
  cbv iota.
  unfold Viewport.Union at 2.
  change (Viewport.IsValid (rect 11 0 15 10)) with true. cbn [negb].
  destruct (Viewport.IsValid region) eqn:Hvalid; cbn [negb].
  - specialize (Hinside eq_refl).
    destruct region as [[l t r b]].
    unfold Viewport.inside in Hinside. cbn in Hinside.
    rewrite !andb_true_iff, !Z.leb_le in Hinside.
    destruct Hinside as [[[Hl Ht] Hr] Hb].
    unfold Viewport.Union.
    change (Viewport.IsValid (rect 0 11 15 12)) with true. cbn [negb].
    match goal with
    | |- (if negb (Viewport.IsValid ?box) then _ else _) = _ =>
        assert (Hbox : Viewport.IsValid box = true)
    end.
    { unfold Viewport.IsValid, Viewport.Height, Viewport.Width,
        Viewport.BottomExclusive, Viewport.RightExclusive.
      cbn [Viewport.BottomInclusive Viewport.RightInclusive Viewport.Left Viewport.Top
           Viewport._sr Left Top Right Bottom rect].
      rewrite (to_SHORT_small (Z.max b 10 + 1)) by lia.
      rewrite (to_SHORT_small (Z.max r 15 + 1)) by lia.
      rewrite !to_SHORT_small by lia.
      apply andb_true_iff; split; apply Z.ltb_lt; lia. }
    rewrite Hbox. cbn [negb].
    cbn [Viewport.BottomInclusive Viewport.RightInclusive Viewport.Left Viewport.Top
         Viewport._sr Left Top Right Bottom rect].
    unfold rect. do 2 f_equal; lia.
  - reflexivity.
Qed.

Lemma not_shrank_iff (oldView newView : Viewport.t) :
  shrank oldView newView = false <->
  Viewport.Width oldView <= Viewport.Width newView
  /\ Viewport.Height oldView <= Viewport.Height newView.
Proof.
  unfold shrank. rewrite orb_false_iff, !Z.gtb_ltb, !Z.ltb_ge. tauto.
Qed.

(** The clipped bands lie in the new viewport, right of and below the old
    one, in the rows and columns from 0 on. *)
Lemma right_band_within (oldView newView : Viewport.t) (x y : Z) :
  Viewport.contains (Viewport.Clip newView (right_band oldView newView)) x y = true ->
  Viewport.contains newView x y = true
  /\ Viewport.RightExclusive oldView <= x
  /\ 0 <= y <= Viewport.BottomInclusive oldView.
Proof.
  intros Hin. apply Clip_within in Hin as [Hnew Hband].
  split; [exact Hnew|].
  unfold Viewport.contains, right_band in Hband. cbn in Hband.
  rewrite !andb_true_iff, !Z.leb_le in Hband. lia.
Qed.

Lemma bottom_band_within (oldView newView : Viewport.t) (x y : Z) :
  Viewport.contains (Viewport.Clip newView (bottom_band oldView newView)) x y = true ->
  Viewport.contains newView x y = true
  /\ Viewport.BottomExclusive oldView <= y
  /\ 0 <= x.
Proof.
  intros Hin. apply Clip_within in Hin as [Hnew Hband].
  split; [exact Hnew|].
  unfold Viewport.contains, bottom_band in Hband. cbn in Hband.
  rewrite !andb_true_iff, !Z.leb_le in Hband. lia.
Qed.

(** C5, as amended.  An [UpdateViewport] that succeeds, shrinks neither
    dimension and grows at least one asks for these invalidations and no
    others, in this order: first, when the width grew, of the band of
    columns right of the old viewport, from row 0 down to the old bottom
    row; then, when the height grew, of the band of rows below the old
    viewport, from column 0 up to the new right column.  Each band is
    unioned into the invalidated region clipped to the new viewport.  In the
    spec's growth scenario, (0,0)-(10,10) to (0,0)-(15,12), with a region
    that was empty or inside the new viewport, the result is the union of
    columns 11-15 over rows 0-10 and rows 11-12 over columns 0-15. *)
Theorem growth_invalidates_bands
    (ResizeWindowSequence : SHORT -> SHORT -> string) (sr : SMALL_RECT) (m : Machine) :
  Viewport.Width (_lastViewport (this m)) <= Viewport.Width (Viewport.FromInclusive sr)
  /\ Viewport.Height (_lastViewport (this m)) <= Viewport.Height (Viewport.FromInclusive sr) ->
  Viewport.Width (_lastViewport (this m)) < Viewport.Width (Viewport.FromInclusive sr)
  \/ Viewport.Height (_lastViewport (this m)) < Viewport.Height (Viewport.FromInclusive sr) ->
  SUCCEEDED (fst (UpdateViewport ResizeWindowSequence sr m)) = true ->
  let oldView := _lastViewport (this m) in
  let newView := Viewport.FromInclusive sr in
  let region := _invalidRect (this m) in
  let m' := snd (UpdateViewport ResizeWindowSequence sr m) in
  let region' := _invalidRect (this m') in
  let rightOfOldViewport := Viewport.Clip newView (right_band oldView newView) in
  let belowOldViewport := Viewport.Clip newView (bottom_band oldView newView) in
  let region1 :=
    if Viewport.Width oldView <? Viewport.Width newView
    then Viewport.Union region rightOfOldViewport
    else region in
  invalidations m' =
    invalidations m
    ++ (if Viewport.Width oldView <? Viewport.Width newView
        then [InvalidCombined (right_band oldView newView)] else [])
    ++ (if Viewport.Height oldView <? Viewport.Height newView
        then [InvalidCombined (bottom_band oldView newView)] else [])
  /\ region' =
       (if Viewport.Height oldView <? Viewport.Height newView
        then Viewport.Union region1 belowOldViewport
        else region1)
  /\ (forall x y, Viewport.contains rightOfOldViewport x y = true ->
        Viewport.contains newView x y = true
        /\ Viewport.RightExclusive oldView <= x
        /\ 0 <= y <= Viewport.BottomInclusive oldView)
  /\ (forall x y, Viewport.contains belowOldViewport x y = true ->
        Viewport.contains newView x y = true
        /\ Viewport.BottomExclusive oldView <= y
        /\ 0 <= x)
  /\ (oldView = rect 0 0 10 10 ->
      newView = rect 0 0 15 12 ->
      (Viewport.IsValid region = true -> Viewport.inside region newView = true) ->
      region' = Viewport.Union (rect 11 0 15 10) (rect 0 11 15 12)
      /\ region' = rect 0 0 15 12).
Proof.
  intros Hkept Hgrew Hok. cbv zeta.
  apply not_shrank_iff in Hkept. apply SUCCEEDED_not_FAILED in Hok.
  pose proof (UpdateViewport_region ResizeWindowSequence sr m) as Hregion.
  pose proof (UpdateViewport_invalidations ResizeWindowSequence sr m) as Hcalls.
  cbv zeta in Hregion, Hcalls. rewrite Hok, Hkept in Hregion, Hcalls.
  split; [exact Hcalls|].
  split; [exact Hregion|].
  split; [intros x y; apply right_band_within|].
  split; [intros x y; apply bottom_band_within|].
  intros Hold Hnew Hinside.
  rewrite Hregion, Hold, Hnew. rewrite Hnew in Hinside.
  rewrite (growth_scenario_region _ Hinside).
  split; reflexivity.
Qed.

(** The spec's growth scenario: the column band is asked for first, the row
    band second, and the region ends as their union. *)
Lemma growth_invalidates_bands_witness :
  (Viewport.Width (rect 0 0 10 10) <= Viewport.Width (rect 0 0 15 12)
   /\ Viewport.Height (rect 0 0 10 10) <= Viewport.Height (rect 0 0 15 12))
  /\ Viewport.Width (rect 0 0 10 10) < Viewport.Width (rect 0 0 15 12)
  /\ SUCCEEDED (fst growth_scenario) = true
  /\ invalidations (snd growth_scenario)
     = [InvalidCombined (rect 11 0 15 10); InvalidCombined (rect 0 11 15 12)]
  /\ _invalidRect (this (snd growth_scenario))
     = Viewport.Union (rect 11 0 15 10) (rect 0 11 15 12)
  /\ _invalidRect (this (snd growth_scenario)) = rect 0 0 15 12.
Proof.
  assert (Hkept : Viewport.Width (rect 0 0 10 10) <= Viewport.Width (rect 0 0 15 12)
                  /\ Viewport.Height (rect 0 0 10 10) <= Viewport.Height (rect 0 0 15 12))
    by (split; discriminate).
  assert (Hgrew : Viewport.Width (rect 0 0 10 10) < Viewport.Width (rect 0 0 15 12))
    by reflexivity.
  destruct (growth_invalidates_bands xterm_ResizeWindowSequence
              (Build_SMALL_RECT 0 0 15 12) (viewport_sample (rect 0 0 10 10))
              Hkept (or_introl Hgrew) eq_refl)
    as (Hcalls & _ & _ & _ & Hscenario).
  assert (Hinside : Viewport.IsValid (_invalidRect (this (viewport_sample (rect 0 0 10 10))))
                    = true ->
                    Viewport.inside (_invalidRect (this (viewport_sample (rect 0 0 10 10))))
                      (rect 0 0 15 12) = true)
    by discriminate.
  destruct (Hscenario eq_refl eq_refl Hinside) as [Hunion Hwhole].
  exact (conj Hkept (conj Hgrew (conj eq_refl (conj Hcalls (conj Hunion Hwhole))))).
Defined.

(** C5, as stated, fails in each of these calls, none of which shrinks the
    viewport and all of which grow it.
    - The spec's growth scenario when the append of the resize sequence
      throws: the call fails before it invalidates anything, and the region
      stays empty.
    - (0,0)-(10,10) to (5,0)-(15,12): the width is the same, so that the
      columns 11-15, right of the old viewport and inside the new one, are
      not invalidated; only the row band is.
    - (0,0)-(10,10) to (0,5)-(15,15): the height is the same, so that the
      rows 11-15, below the old viewport and inside the new one, are not
      invalidated; only the column band is.
    - (-5,0)-(5,10) to (-5,0)-(5,12): the row band starts in column 0, so
      that the columns -5 to -1 of the new rows are not invalidated.
    - The spec's growth scenario with a region left behind outside the
      viewport by an earlier move: the region ends as (0,0)-(20,20), which
      is not the union of the two bands. *)
Lemma growth_without_invalidation :
  (Viewport.Width (rect 0 0 10 10) < Viewport.Width (rect 0 0 15 12)
   /\ Viewport.Height (rect 0 0 10 10) < Viewport.Height (rect 0 0 15 12)
   /\ _lastViewport (this (starved_sample (rect 0 0 10 10))) = rect 0 0 10 10
   /\ _invalidRect (this (starved_sample (rect 0 0 10 10))) = Viewport.Empty
   /\ fst growth_scenario_starved = E_OUTOFMEMORY
   /\ invalidations (snd growth_scenario_starved) = []
   /\ _invalidRect (this (snd growth_scenario_starved)) = Viewport.Empty
   /\ _invalidRect (this (snd growth_scenario_starved))
      <> Viewport.Union (rect 11 0 15 10) (rect 0 11 15 12))
  /\ (Viewport.Width (rect 0 0 10 10) = Viewport.Width (rect 5 0 15 12)
      /\ Viewport.Height (rect 0 0 10 10) < Viewport.Height (rect 5 0 15 12)
      /\ fst shifted_right_scenario = S_OK
      /\ Viewport.Clip (rect 5 0 15 12) (right_band (rect 0 0 10 10) (rect 5 0 15 12))
         = rect 11 0 15 10
      /\ invalidations (snd shifted_right_scenario)
         = [InvalidCombined (bottom_band (rect 0 0 10 10) (rect 5 0 15 12))]
      /\ _invalidRect (this (snd shifted_right_scenario)) = rect 5 11 15 12
      /\ Viewport.contains (_invalidRect (this (snd shifted_right_scenario))) 11 0 = false)
  /\ (Viewport.Width (rect 0 0 10 10) < Viewport.Width (rect 0 5 15 15)
      /\ Viewport.Height (rect 0 0 10 10) = Viewport.Height (rect 0 5 15 15)
      /\ fst shifted_down_scenario = S_OK
      /\ Viewport.Clip (rect 0 5 15 15) (bottom_band (rect 0 0 10 10) (rect 0 5 15 15))
         = rect 0 11 15 15
      /\ invalidations (snd shifted_down_scenario)
         = [InvalidCombined (right_band (rect 0 0 10 10) (rect 0 5 15 15))]
      /\ _invalidRect (this (snd shifted_down_scenario)) = rect 11 5 15 10
      /\ Viewport.contains (_invalidRect (this (snd shifted_down_scenario))) 0 11 = false)
  /\ (Viewport.Width (rect (-5) 0 5 10) = Viewport.Width (rect (-5) 0 5 12)
      /\ Viewport.Height (rect (-5) 0 5 10) < Viewport.Height (rect (-5) 0 5 12)
      /\ fst negative_left_scenario = S_OK
      /\ invalidations (snd negative_left_scenario) = [InvalidCombined (rect 0 11 5 12)]
      /\ _invalidRect (this (snd negative_left_scenario)) = rect 0 11 5 12
      /\ Viewport.contains (rect (-5) 0 5 12) (-5) 11 = true
      /\ Viewport.contains (_invalidRect (this (snd negative_left_scenario))) (-5) 11 = false)
  /\ (_lastViewport (this moved_sample) = rect 0 0 10 10
      /\ _invalidRect (this moved_sample) = rect 10 10 20 20
      /\ fst moved_growth_scenario = S_OK
      /\ invalidations (snd moved_growth_scenario)
         = invalidations moved_sample
           ++ [InvalidCombined (rect 11 0 15 10); InvalidCombined (rect 0 11 15 12)]
      /\ _invalidRect (this (snd moved_growth_scenario)) = rect 0 0 20 20
      /\ _invalidRect (this (snd moved_growth_scenario))
         <> Viewport.Union (rect 11 0 15 10) (rect 0 11 15 12)).
Proof.
  vm_compute. repeat split; discriminate.
Qed.

(** ** Resize suppression *)

(** C3.  After [SuppressResizeRepaint] the next [UpdateViewport], whatever
    its rectangle (same size or not), emits nothing (the trace, the rest of
    the operating system and the buffer are as before) and leaves the flag
    cleared.  A following [UpdateViewport] to a rectangle of another size
    does emit: the resize sequence for the new width and height goes to the
    channel, once, and reaches the buffer unless the append throws. *)
Theorem suppression_is_one_shot
    (ResizeWindowSequence : SHORT -> SHORT -> string)
    (sr1 sr2 : SMALL_RECT) (m : Machine) :
  let suppressed := snd (SuppressResizeRepaint m) in
  let first := UpdateViewport ResizeWindowSequence sr1 suppressed in
  let second := UpdateViewport ResizeWindowSequence sr2 (snd first) in
  let sequence :=
    ResizeWindowSequence (Viewport.Width (Viewport.FromInclusive sr2))
      (Viewport.Height (Viewport.FromInclusive sr2)) in
  _suppressResizeRepaint (this suppressed) = true
  /\ fst first = S_OK
  /\ os (snd first) = os m
  /\ _buffer (this (snd first)) = _buffer (this m)
  /\ _suppressResizeRepaint (this (snd first)) = false
  /\ (Viewport.Width (Viewport.FromInclusive sr2) <> Viewport.Width (Viewport.FromInclusive sr1)
      \/ Viewport.Height (Viewport.FromInclusive sr2)
         <> Viewport.Height (Viewport.FromInclusive sr1) ->
      trace (os (snd second)) = trace (os m) ++ [EvTraceString sequence]
      /\ match pending_append (os m) with
         | None =>
             fst second = S_OK
             /\ _buffer (this (snd second)) = (_buffer (this m) ++ sequence)%string
         | Some ex =>
             fst second = ResultFromCaughtException ex
             /\ _buffer (this (snd second)) = _buffer (this m)
         end).
Proof.
  cbv zeta.
  set (suppressed := snd (SuppressResizeRepaint m)).
  assert (Hflag : _suppressResizeRepaint (this suppressed) = true) by reflexivity.
  assert (Hos : os suppressed = os m) by reflexivity.
  assert (Hbuffer : _buffer (this suppressed) = _buffer (this m)) by reflexivity.
  assert (Hquiet : emits_resize sr1 suppressed = false).
  { unfold emits_resize. rewrite Hflag. apply andb_false_r. }
  destruct (UpdateViewport_quiet ResizeWindowSequence sr1 suppressed Hquiet)
    as (Hhr1 & Hos1 & Hbuffer1).
  destruct (UpdateViewport_flags ResizeWindowSequence sr1 suppressed)
    as (Hview1 & Hflag1 & _).
  set (first := UpdateViewport ResizeWindowSequence sr1 suppressed) in *.
  repeat (split; [congruence|]).
  intros Hchanged.
  assert (Hemit : emits_resize sr2 (snd first) = true).
  { unfold emits_resize, size_changed. rewrite Hview1, Hflag1.
    apply andb_true_iff. split; [|reflexivity].
    apply orb_true_iff.
    destruct Hchanged as [Hw|Hh]; [right|left];
      apply negb_true_iff, Z.eqb_neq; congruence. }
  destruct (UpdateViewport_emit ResizeWindowSequence sr2 (snd first) Hemit)
    as (Htrace & _ & _ & Hresult).
  rewrite Hos1, Hos, Hbuffer1, Hbuffer in *.
  split; assumption.
Qed.

Lemma suppression_is_one_shot_witness :
  Viewport.Width (rect 0 0 15 12) <> Viewport.Width (rect 0 0 10 10)
  /\ fst suppressed_update = S_OK
  /\ os (snd suppressed_update) = os (viewport_sample (rect 0 0 10 10))
  /\ _suppressResizeRepaint (this (snd suppressed_update)) = false
  /\ trace (os (snd update_after_suppressed))
     = [EvTraceString (xterm_ResizeWindowSequence 16 13)]
  /\ fst update_after_suppressed = S_OK
  /\ _buffer (this (snd update_after_suppressed))
     = ("abc" ++ xterm_ResizeWindowSequence 16 13)%string.
Proof.
  assert (Hchanged : Viewport.Width (rect 0 0 15 12) <> Viewport.Width (rect 0 0 10 10))
    by discriminate.
  destruct (suppression_is_one_shot xterm_ResizeWindowSequence
              (Build_SMALL_RECT 0 0 10 10) (Build_SMALL_RECT 0 0 15 12)
              (viewport_sample (rect 0 0 10 10)))
    as (_ & Hhr & Hos & _ & Hflag & Hsecond).
  destruct (Hsecond (or_introl Hchanged)) as (Htrace & Hhr2 & Hbuffer).
  exact (conj Hchanged
           (conj Hhr (conj Hos (conj Hflag (conj Htrace (conj Hhr2 Hbuffer)))))).
Defined.

(** ** Construction *)

(** C10.  The engine the constructor yields has [_suppressResizeRepaint]
    set, and the first [UpdateViewport] on it, whatever its rectangle and
    whatever the world, emits nothing: it succeeds, leaves the operating
    system (trace included) and the buffer as they were, and clears the
    flag. *)
Theorem first_update_is_silent
    (ResizeWindowSequence : SHORT -> SHORT -> string) (INVALID_COLOR : COLORREF)
    (pipe shutdownEvent : HANDLE) (initialViewport : Viewport.t) (slot : DWORD)
    (engine : VtEngine) (watchdog : Watchdog.pc) (w : World) (sr : SMALL_RECT) :
  VtEngine_ctor INVALID_COLOR pipe shutdownEvent initialViewport slot
  = inr (engine, watchdog) ->
  let first := UpdateViewport ResizeWindowSequence sr (boot engine w) in
  _suppressResizeRepaint engine = true
  /\ _lastViewport engine = initialViewport
  /\ fst first = S_OK
  /\ os (snd first) = w
  /\ trace (os (snd first)) = trace w
  /\ _buffer (this (snd first)) = ""%string
  /\ _suppressResizeRepaint (this (snd first)) = false.
Proof.
  intros Hctor. cbv zeta.
  assert (Hflag : _suppressResizeRepaint engine = true
                  /\ _lastViewport engine = initialViewport
                  /\ _buffer engine = ""%string).
  { unfold VtEngine_ctor in Hctor. cbn in Hctor.
    destruct (pipe =? INVALID_HANDLE_VALUE); [discriminate|].
    destruct (shutdownEvent =? 0); [discriminate|].
    injection Hctor as <- _. cbn. auto. }
  destruct Hflag as (Hflag & Hview & Hbuffer).
  assert (Hquiet : emits_resize sr (boot engine w) = false).
  { unfold emits_resize. cbn [this boot]. rewrite Hflag. apply andb_false_r. }
  destruct (UpdateViewport_quiet ResizeWindowSequence sr (boot engine w) Hquiet)
    as (Hhr & Hos & Hbuffer').
  destruct (UpdateViewport_flags ResizeWindowSequence sr (boot engine w))
    as (_ & Hflag' & _).
  cbn [this os boot] in *.
  rewrite Hos. repeat split; congruence.
Qed.

(** A fresh 80x25 engine asked for 120x30: nothing is emitted. *)
Lemma first_update_is_silent_witness :
  VtEngine_ctor 0xffffffff 3 4 (rect 0 0 79 24) 0 = inr (fresh_engine, Watchdog.Waiting)
  /\ _suppressResizeRepaint fresh_engine = true
  /\ fst (UpdateViewport xterm_ResizeWindowSequence (Build_SMALL_RECT 0 0 119 29)
            (boot fresh_engine (os flush_sample))) = S_OK
  /\ trace (os (snd (UpdateViewport xterm_ResizeWindowSequence (Build_SMALL_RECT 0 0 119 29)
                       (boot fresh_engine (os flush_sample))))) = []
  /\ _buffer (this (snd (UpdateViewport xterm_ResizeWindowSequence
                           (Build_SMALL_RECT 0 0 119 29)
                           (boot fresh_engine (os flush_sample))))) = ""%string.
Proof.
  split; [reflexivity|].
  destruct (first_update_is_silent xterm_ResizeWindowSequence 0xffffffff 3 4
              (rect 0 0 79 24) 0
              fresh_engine Watchdog.Waiting (os flush_sample)
              (Build_SMALL_RECT 0 0 119 29) eq_refl)
    as (Hflag & _ & Hhr & _ & Htrace & Hbuffer & _).
  exact (conj Hflag (conj Hhr (conj Htrace Hbuffer))).
Defined.

(** ** The cursor protocol *)

(** C7.  [InheritCursor] returns [S_OK], sets [_virtualTop] to the row of the
    position, [_lastText] to the position, [_skipCursor] to true and
    [_firstPaint] to false, and leaves every other member of the engine (the
    viewport, the invalidated region and the last colours and bold state
    among them) and the operating system as they were. *)
Theorem InheritCursor_effect (coordCursor : COORD) (m : Machine) :
  let hr := fst (InheritCursor coordCursor m) in
  let m' := snd (InheritCursor coordCursor m) in
  hr = S_OK
  /\ os m' = os m
  /\ this m' =
      {|
         _shutdownEvent := _shutdownEvent (this m);
         _hFile := _hFile (this m);
         _blockedThreadId := _blockedThreadId (this m);
         _buffer := _buffer (this m);
         _LastFG := _LastFG (this m);
         _LastBG := _LastBG (this m);
         _lastWasBold := _lastWasBold (this m);
         _lastViewport := _lastViewport (this m);
         _invalidRect := _invalidRect (this m);
         _fInvalidRectUsed := _fInvalidRectUsed (this m);
         _lastRealCursor := _lastRealCursor (this m);
         _lastText := coordCursor;
         _scrollDelta := _scrollDelta (this m);
         _quickReturn := _quickReturn (this m);
         _clearedAllThisFrame := _clearedAllThisFrame (this m);
         _cursorMoved := _cursorMoved (this m);
         _resized := _resized (this m);
         _suppressResizeRepaint := _suppressResizeRepaint (this m);
         _virtualTop := Y coordCursor;
         _circled := _circled (this m);
         _firstPaint := false;
         _skipCursor := true;
         _newBottomLine := _newBottomLine (this m);
         _deferredCursorPos := _deferredCursorPos (this m);
         _inResizeRequest := _inResizeRequest (this m)
      |}
  /\ _lastViewport (this m') = _lastViewport (this m)
  /\ _invalidRect (this m') = _invalidRect (this m)
  /\ _LastFG (this m') = _LastFG (this m)
  /\ _LastBG (this m') = _LastBG (this m)
  /\ _lastWasBold (this m') = _lastWasBold (this m).
Proof.
  destruct m as [e w calls]. unfold InheritCursor. run_method.
  repeat split; reflexivity.
Qed.

(** C6.  [RequestCursor] first emits the report-cursor-position sequence and
    then, unless the emission failed, flushes what the emission left behind,
    so that an unhindered flush hands the pipe the buffer with the request at
    its end.  Its result is a success exactly when the emission and the flush
    both are, and then it is [S_OK]; a failure of the flush is the result of
    the call. *)
Theorem RequestCursor_surfaces_failures (RequestCursorSequence : string) (m : Machine) :
  let emitted := _RequestCursor RequestCursorSequence m in
  let flushed := _Flush (snd emitted) in
  let result := RequestCursor RequestCursorSequence m in
  trace (os (snd emitted)) = trace (os m) ++ [EvTraceString RequestCursorSequence]
  /\ (FAILED (fst emitted) = true -> result = emitted)
  /\ (FAILED (fst emitted) = false -> snd result = snd flushed)
  /\ SUCCEEDED (fst result) = SUCCEEDED (fst emitted) && SUCCEEDED (fst flushed)
  /\ (SUCCEEDED (fst result) = true -> fst result = S_OK)
  /\ (FAILED (fst emitted) = false -> FAILED (fst flushed) = true ->
      fst result = fst flushed)
  /\ (FAILED (fst emitted) = false -> shutdown_signaled (os m) = false ->
      writes (trace (os (snd result))) =
        writes (trace (os m))
        ++ [EvWriteFile (_hFile (this m))
              (_buffer (this m) ++ RequestCursorSequence)
              (static_cast_DWORD
                 (String.length (_buffer (this m) ++ RequestCursorSequence)))]).
Proof.
  cbv zeta.
  pose proof (_Write_effect RequestCursorSequence m)
    as (Htrace & Hsignal & _ & _ & _ & Hthis & Hhr).
  cbv zeta in Htrace, Hsignal, Hthis, Hhr.
  unfold RequestCursor, _RequestCursor, bind, ret.
  destruct (_Write RequestCursorSequence m) as [hr1 m1] eqn:Hemitted.
  cbn [fst snd] in *.
  split; [exact Htrace|].
  destruct (FAILED hr1) eqn:Hfailed1.
  - cbn [fst snd]. rewrite (FAILED_SUCCEEDED hr1), Hfailed1. cbn [negb andb].
    repeat split; intros; try discriminate; reflexivity.
  - destruct (_Flush m1) as [hr2 m2] eqn:Hflushed.
    cbn [fst snd]. rewrite (FAILED_SUCCEEDED hr1), Hfailed1. cbn [negb andb].
    assert (Hwrites : shutdown_signaled (os m) = false ->
                      writes (trace (os m2)) =
                        writes (trace (os m))
                        ++ [EvWriteFile (_hFile (this m))
                              (_buffer (this m) ++ RequestCursorSequence)
                              (static_cast_DWORD
                                 (String.length
                                    (_buffer (this m) ++ RequestCursorSequence)))]).
    { intros Hrunning.
      assert (Hrunning1 : shutdown_signaled (os m1) = false) by congruence.
      pose proof (_Flush_running m1 Hrunning1) as (_ & Hw & _).
      cbv zeta in Hw. rewrite Hflushed in Hw. cbn [snd] in Hw.
      rewrite Hw, Htrace, writes_app. cbn [writes filter is_WriteFile].
      rewrite app_nil_r.
      assert (Hnone : pending_append (os m) = None).
      { destruct (pending_append (os m)) as [ex|]; [|reflexivity].
        rewrite Hhr, ResultFromCaughtException_failed in Hfailed1. discriminate. }
      rewrite Hthis, Hnone. reflexivity. }
    destruct (FAILED hr2) eqn:Hfailed2; cbn [fst snd];
      rewrite ?(FAILED_SUCCEEDED hr2), ?Hfailed2; cbn [negb];
      repeat split; intros; auto; try discriminate.
Qed.

(** A request on a broken pipe: the pipe is handed "abc" followed by the
    request, and the failure of the write is what the caller gets. *)
Lemma RequestCursor_surfaces_failures_witness :
  FAILED (fst (_RequestCursor xterm_RequestCursorSequence broken_pipe_sample)) = false
  /\ shutdown_signaled (os broken_pipe_sample) = false
  /\ writes (trace (os (snd request_on_broken_pipe)))
     = [EvWriteFile 3 ("abc" ++ xterm_RequestCursorSequence) 7]
  /\ FAILED (fst request_on_broken_pipe) = true
  /\ fst request_on_broken_pipe = to_LONG 0x8007006D.
Proof.
  destruct (RequestCursor_surfaces_failures xterm_RequestCursorSequence broken_pipe_sample)
    as (_ & _ & _ & _ & _ & Hsurfaced & Hwrites).
  exact (conj eq_refl
           (conj eq_refl
              (conj (Hwrites eq_refl eq_refl)
                 (conj eq_refl (Hsurfaced eq_refl eq_refl))))).
Defined.

(** ** After the shutdown event is set *)

Section AfterShutdown.

Variable ResizeWindowSequence : SHORT -> SHORT -> string.
Variable RequestCursorSequence : string.

(** No call unsets the event, and with the event set no call writes to the
    pipe. *)
Lemma perform_after_shutdown (c : Call) (m : Machine) :
  shutdown_signaled (os m) = true ->
  shutdown_signaled (os (perform ResizeWindowSequence RequestCursorSequence c m)) = true
  /\ writes (trace (os (perform ResizeWindowSequence RequestCursorSequence c m)))
     = writes (trace (os m)).
Proof.
  intros Hset.
  destruct c as [str| |sr| |coordCursor| | |]; cbn [perform].
  - pose proof (_Write_effect str m) as (Htrace & Hsignal & _). cbv zeta in *.
    unfold WriteTerminalUtf8.
    rewrite Hsignal, Htrace, writes_app, Hset. cbn. now rewrite app_nil_r.
  - rewrite (_Flush_signaled m Hset). auto.
  - destruct (emits_resize sr m) eqn:Hemit.
    + destruct (UpdateViewport_emit ResizeWindowSequence sr m Hemit)
        as (Htrace & Hsignal & _).
      rewrite Hsignal, Htrace, writes_app, Hset. cbn. now rewrite app_nil_r.
    + destruct (UpdateViewport_quiet ResizeWindowSequence sr m Hemit) as (_ & -> & _).
      auto.
  - auto.
  - auto.
  - pose proof (_Write_effect RequestCursorSequence m) as (Htrace & Hsignal & _).
    cbv zeta in *.
    unfold RequestCursor, _RequestCursor, bind, ret.
    destruct (_Write RequestCursorSequence m) as [hr1 m1]. cbn [fst snd] in *.
    assert (Hset1 : shutdown_signaled (os m1) = true) by congruence.
    assert (Hwrites1 : writes (trace (os m1)) = writes (trace (os m))).
    { rewrite Htrace, writes_app. cbn. now rewrite app_nil_r. }
    destruct (FAILED hr1); cbn [snd]; [auto|].
    rewrite (_Flush_signaled m1 Hset1).
    cbn. auto.
  - auto.
  - auto.
Qed.

Lemma perform_all_after_shutdown (calls : list Call) (m : Machine) :
  shutdown_signaled (os m) = true ->
  shutdown_signaled (os (perform_all ResizeWindowSequence RequestCursorSequence calls m))
  = true
  /\ writes (trace (os (perform_all ResizeWindowSequence RequestCursorSequence calls m)))
     = writes (trace (os m)).
Proof.
  revert m. induction calls as [|c rest IH]; intros m Hset; cbn [perform_all].
  - auto.
  - destruct (perform_after_shutdown c m Hset) as [Hset' Hwrites'].
    destruct (IH _ Hset') as [Hset'' Hwrites''].
    split; congruence.
Qed.

End AfterShutdown.

(** C9.  On the path taken when the shutdown event is not signalled,
    [_Flush] leaves the buffer empty whether [WriteFile] succeeded or not.
    The next flush has nothing of the old bytes to send: it either writes
    the empty buffer or, the event being set, nothing.  After a failed write
    in particular the bytes are gone for good: the call reports the failure,
    and whatever calls follow, no flush ever reaches the pipe again. *)
Theorem flush_drops_buffer
    (ResizeWindowSequence : SHORT -> SHORT -> string) (RequestCursorSequence : string)
    (m : Machine) :
  shutdown_signaled (os m) = false ->
  let m' := snd (_Flush m) in
  _buffer (this m') = ""%string
  /\ writes (trace (os (snd (_Flush m')))) =
       writes (trace (os m'))
       ++ (if shutdown_signaled (os m') then []
           else [EvWriteFile (_hFile (this m)) ""%string 0])
  /\ (forall err, pending_write (os m) = WriteFails err ->
      FAILED (fst (_Flush m)) = true
      /\ _Flush m' = (S_OK, m')
      /\ forall calls,
           let later := perform_all ResizeWindowSequence RequestCursorSequence calls m' in
           _Flush later = (S_OK, later)
           /\ writes (trace (os later)) = writes (trace (os m'))).
Proof.
  intros Hrunning. cbv zeta.
  destruct (_Flush_running m Hrunning) as (Hthis & _ & Houtcome).
  cbv zeta in Hthis, Houtcome.
  split; [now rewrite Hthis|]. split.
  - destruct (shutdown_signaled (os (snd (_Flush m)))) eqn:Hsignal.
    + rewrite (_Flush_signaled _ Hsignal). cbn [snd]. now rewrite app_nil_r.
    + destruct (_Flush_running _ Hsignal) as (_ & Hwrites & _).
      cbv zeta in Hwrites. rewrite Hwrites, Hthis. reflexivity.
  - intros err Hfails. rewrite Hfails in Houtcome.
    destruct Houtcome as (Hhr & _ & Hsignal).
    split; [rewrite Hhr; apply GetLastErrorFailHr_failed|].
    split; [apply (_Flush_signaled _ Hsignal)|].
    intros calls.
    destruct (perform_all_after_shutdown ResizeWindowSequence RequestCursorSequence
                calls _ Hsignal) as [Hsignal' Hwrites'].
    split; [apply (_Flush_signaled _ Hsignal')|exact Hwrites'].
Qed.

(** The three bytes lost on the broken pipe are not in the buffer afterwards,
    and writing more and flushing again sends nothing. *)
Lemma flush_drops_buffer_witness :
  shutdown_signaled (os broken_pipe_sample) = false
  /\ pending_write (os broken_pipe_sample) = WriteFails 109
  /\ _buffer (this (snd (_Flush broken_pipe_sample))) = ""%string
  /\ FAILED (fst (_Flush broken_pipe_sample)) = true
  /\ writes (trace (os (perform_all xterm_ResizeWindowSequence xterm_RequestCursorSequence
                          [CallWriteTerminalUtf8 "more"; CallFlush; CallRequestCursor]
                          (snd (_Flush broken_pipe_sample)))))
     = [EvWriteFile 3 "abc" 3].
Proof.
  destruct (flush_drops_buffer xterm_ResizeWindowSequence xterm_RequestCursorSequence
              broken_pipe_sample eq_refl)
    as (Hbuffer & _ & Hlater).
  destruct (Hlater 109 eq_refl) as (Hfailed & _ & Hcalls).
  destruct (Hcalls [CallWriteTerminalUtf8 "more"; CallFlush; CallRequestCursor])
    as [_ Hwrites].
  exact (conj eq_refl (conj eq_refl (conj Hbuffer (conj Hfailed Hwrites)))).
Defined.

(** ** The shutdown watchdog *)

Lemma watchdog_run_app (schedule schedule' : list Watchdog.Env) (p : Watchdog.pc) :
  Watchdog.run (schedule ++ schedule') p =
  (fst (Watchdog.run schedule' (fst (Watchdog.run schedule p))),
   snd (Watchdog.run schedule p)
   ++ snd (Watchdog.run schedule' (fst (Watchdog.run schedule p)))).
Proof.
  revert p.
  induction schedule as [|env rest IH]; intros p; cbn [Watchdog.run app fst snd].
  - destruct (Watchdog.run schedule' p). reflexivity.
  - destruct (Watchdog.step env p) as [p' acts].
    rewrite IH.
    destruct (Watchdog.run rest p') as [p'' acts'].
    cbn [fst snd].
    destruct (Watchdog.run schedule' p'') as [p3 acts3].
    cbn [fst snd]. now rewrite app_assoc.
Qed.

(** While the event is not signalled the task stays in its wait and does
    nothing. *)
Lemma watchdog_blocked (schedule : list Watchdog.Env) :
  forallb unsignalled schedule = true ->
  Watchdog.run schedule Watchdog.Waiting = (Watchdog.Waiting, []).
Proof.
  induction schedule as [|env rest IH]; cbn [forallb Watchdog.run]; intros Hwait.
  - reflexivity.
  - apply andb_prop in Hwait as [Henv Hrest].
    unfold unsignalled, Watchdog.signalled in Henv.
    apply negb_true_iff in Henv.
    cbn [Watchdog.step]. rewrite Henv, (IH Hrest). reflexivity.
Qed.

(** Once the task has returned it takes no further action. *)
Lemma watchdog_returned (schedule : list Watchdog.Env) :
  Watchdog.run schedule Watchdog.Returned = (Watchdog.Returned, []).
Proof.
  induction schedule as [|env rest IH]; cbn [Watchdog.run Watchdog.step].
  - reflexivity.
  - now rewrite IH.
Qed.

(** C8, as amended.  Along any schedule the task does nothing while the event
    is not signalled.  Given four steps from the first one that finds the
    event signalled, it reads [_blockedThreadId] once; if the value is not 0
    it calls [OpenThread] for it, and if that yields a handle it calls
    [CancelSynchronousIo] on the handle; then it has returned, and whatever
    the schedule goes on with, it neither waits, reads nor cancels again. *)
Theorem watchdog_protocol
    (waiting : list Watchdog.Env) (woken loading opening cancelling : Watchdog.Env)
    (rest : list Watchdog.Env) :
  forallb unsignalled waiting = true ->
  Watchdog.signalled woken = true ->
  let threadId := _blockedThreadId (this (Watchdog.machine loading)) in
  let access := Z.lor Watchdog.STANDARD_RIGHTS_ALL Watchdog.THREAD_TERMINATE in
  let threadHandle := Watchdog.OpenThread opening access threadId in
  let result :=
    Watchdog.run (waiting ++ woken :: loading :: opening :: cancelling :: rest)
      Watchdog.Waiting in
  Watchdog.run waiting Watchdog.Waiting = (Watchdog.Waiting, [])
  /\ fst result = Watchdog.Returned
  /\ snd result =
       (if threadId =? 0 then [Watchdog.ActLoad threadId]
        else if threadHandle =? 0
             then [Watchdog.ActLoad threadId; Watchdog.ActOpenThread access threadId]
             else [Watchdog.ActLoad threadId; Watchdog.ActOpenThread access threadId;
                   Watchdog.ActCancelSynchronousIo threadHandle])
  /\ Watchdog.loads (snd result) = 1%nat
  /\ (Watchdog.cancels (snd result) = 1%nat <-> threadId <> 0 /\ threadHandle <> 0)
  /\ (Watchdog.cancels (snd result) = 0%nat <-> threadId = 0 \/ threadHandle = 0).
Proof.
  intros Hwaiting Hwoken. cbv zeta.
  rewrite watchdog_run_app, (watchdog_blocked waiting Hwaiting).
  cbn [fst snd app Watchdog.run Watchdog.step].
  unfold Watchdog.signalled in Hwoken. rewrite Hwoken.
  cbn [fst snd app Watchdog.run Watchdog.step].
  split; [reflexivity|].
  pose proof (watchdog_returned rest) as Hrest.
  destruct (Z.eqb_spec (_blockedThreadId (this (Watchdog.machine loading))) 0)
    as [Hzero|Hid];
    cbn [fst snd app Watchdog.run Watchdog.step].
  - rewrite Hrest. cbn.
    repeat split; intros; try discriminate; try tauto.
  - destruct (Z.eqb_spec
                (Watchdog.OpenThread opening
                   (Z.lor Watchdog.STANDARD_RIGHTS_ALL Watchdog.THREAD_TERMINATE)
                   (_blockedThreadId (this (Watchdog.machine loading)))) 0)
      as [Hnull|Hhandle];
      cbn [fst snd app Watchdog.run Watchdog.step];
      rewrite Hrest; cbn;
      repeat split; intros; try discriminate; try tauto.
Qed.

Lemma watchdog_protocol_witness :
  forallb unsignalled [watchdog_env false 7 9; watchdog_env false 7 9] = true
  /\ Watchdog.signalled (watchdog_env true 7 9) = true
  /\ fst (Watchdog.run rescue_schedule Watchdog.Waiting) = Watchdog.Returned
  /\ snd (Watchdog.run rescue_schedule Watchdog.Waiting) =
       [Watchdog.ActLoad 7; Watchdog.ActOpenThread 0x1F0001 7;
        Watchdog.ActCancelSynchronousIo 9]
  /\ Watchdog.loads (snd (Watchdog.run rescue_schedule Watchdog.Waiting)) = 1%nat.
Proof.
  destruct (watchdog_protocol
              [watchdog_env false 7 9; watchdog_env false 7 9]
              (watchdog_env true 7 9) (watchdog_env true 7 9) (watchdog_env true 7 9)
              (watchdog_env true 7 9) [watchdog_env true 0 9] eq_refl eq_refl)
    as (_ & Hreturned & Hactions & Hloads & _).
  exact (conj eq_refl (conj eq_refl (conj Hreturned (conj Hactions Hloads)))).
Defined.

(** C8, as stated, fails: the slot holds thread 5, but [OpenThread] yields no
    handle for it; the task returns without a call to [CancelSynchronousIo]. *)
Lemma watchdog_without_cancellation :
  Watchdog.signalled (watchdog_env true 5 0) = true
  /\ _blockedThreadId (this (Watchdog.machine (watchdog_env true 5 0))) = 5
  /\ Watchdog.run unopened_schedule Watchdog.Waiting =
       (Watchdog.Returned, [Watchdog.ActLoad 5; Watchdog.ActOpenThread 0x1F0001 5])
  /\ Watchdog.cancels (snd (Watchdog.run unopened_schedule Watchdog.Waiting)) = 0%nat.
Proof.
  repeat split.
Qed.

(** * Further properties of state.cpp *)

(** ** Effects of the methods, in full *)

Lemma pending_append_healthy (w : World) :
  forallb no_throw (alloc_script w) = true -> pending_append w = None.
Proof.
  intros Hw. unfold pending_append.
  destruct (alloc_script w) as [|[ex|] rest]; cbn in Hw; congruence.
Qed.

Lemma pending_write_healthy (w : World) :
  forallb no_failure (pipe_script w) = true -> pending_write w = WriteOk.
Proof.
  intros Hw. unfold pending_write.
  destruct (pipe_script w) as [|[|err] rest]; cbn in Hw; congruence.
Qed.

Lemma forallb_tl {A} (f : A -> bool) (l : list A) :
  forallb f l = true -> forallb f (tl l) = true.
Proof.
  destruct l as [|a l]; cbn; [auto|]. intros H. now apply andb_prop in H.
Qed.

Lemma written_app (tr tr' : list Event) :
  written (tr ++ tr') = (written tr ++ written tr')%string.
Proof.
  induction tr as [|ev tr IH]; cbn; [reflexivity|].
  destruct ev; rewrite IH; rewrite ?string_app_assoc; reflexivity.
Qed.

Lemma sent_app (tr tr' : list Event) :
  sent (tr ++ tr') = (sent tr ++ sent tr')%string.
Proof.
  induction tr as [|ev tr IH]; cbn; [reflexivity|].
  destruct ev; rewrite IH; rewrite ?string_app_assoc; reflexivity.
Qed.

(** [_Write], as one equation. *)
Lemma _Write_result (str : string) (m : Machine) :
  _Write str m =
  (match pending_append (os m) with
   | None => S_OK
   | Some ex => ResultFromCaughtException ex
   end,
   {| this := set_buffer (match pending_append (os m) with
                          | None => (_buffer (this m) ++ str)%string
                          | Some _ => _buffer (this m)
                          end) (this m);
      os := set_alloc_script (tl (alloc_script (os m)))
              (set_trace (trace (os m) ++ [EvTraceString str]) (os m));
      invalidations := invalidations m |}).
Proof.
  destruct m as [e w calls]. unfold _Write, buffer_append, pending_append. run_method.
  destruct (alloc_script w) as [|[ex|] rest] eqn:Hscript; run_method;
    rewrite ?Hscript; destruct e, w; cbn in *; subst; reflexivity.
Qed.

(** [_Flush] on the path that writes, as one equation. *)
Lemma _Flush_result (m : Machine) :
  shutdown_signaled (os m) = false ->
  let events :=
    [EvStoreBlockedThreadId (current_thread (os m));
     EvWriteFile (_hFile (this m)) (_buffer (this m))
       (static_cast_DWORD (String.length (_buffer (this m))));
     EvBlockedInWrite (current_thread (os m));
     EvStoreBlockedThreadId 0] in
  let drained :=
    set_pipe_script (tl (pipe_script (os m)))
      (set_trace (trace (os m) ++ events) (os m)) in
  _Flush m =
  match pending_write (os m) with
  | WriteOk =>
      (S_OK,
       {| this := set_buffer ""%string (set_blockedThreadId 0 (this m));
          os := drained;
          invalidations := invalidations m |})
  | WriteFails err =>
      (GetLastErrorFailHr (to_DWORD err),
       {| this := set_buffer ""%string (set_blockedThreadId 0 (this m));
          os := set_shutdown_signaled true
                  (set_trace (trace drained ++ [EvSetEvent (_shutdownEvent (this m))])
                     (set_last_error (to_DWORD err) drained));
          invalidations := invalidations m |})
  end.
Proof.
  intros Hrunning. cbv zeta.
  destruct m as [e w calls]. cbn [this os] in *.
  unfold _Flush, WriteFile, pending_write. run_method. rewrite Hrunning. run_method.
  destruct (pipe_script w) as [|[|err] rest] eqn:Hscript; run_method;
    rewrite ?Hscript; repeat rewrite <- app_assoc; cbn [app tl];
    destruct e, w; cbn in *; subst; reflexivity.
Qed.

Section Shapes.

Variable ResizeWindowSequence : SHORT -> SHORT -> string.
Variable RequestCursorSequence : string.

(** [UpdateViewport] is the emission, if any, followed by four assignments
    to the engine. *)
Lemma UpdateViewport_shape (sr : SMALL_RECT) (m : Machine) :
  let newView := Viewport.FromInclusive sr in
  let sequence :=
    ResizeWindowSequence (Viewport.Width newView) (Viewport.Height newView) in
  let emitted := if emits_resize sr m then snd (_Write sequence m) else m in
  os (snd (UpdateViewport ResizeWindowSequence sr m)) = os emitted
  /\ exists region,
       this (snd (UpdateViewport ResizeWindowSequence sr m)) =
       set_resized true
         (set_invalidRect region
            (set_suppressResizeRepaint false
               (set_lastViewport newView (this emitted)))).
Proof.
  cbv zeta. rewrite _Write_result.
  destruct m as [e w calls].
  unfold UpdateViewport, _ResizeWindow, _Write, buffer_append,
    InvalidateAll, _InvalidCombine, emits_resize, size_changed, pending_append.
  run_method.
  destruct (negb (Viewport.Height (_lastViewport e) =? Viewport.Height (Viewport.FromInclusive sr))
            || negb (Viewport.Width (_lastViewport e) =? Viewport.Width (Viewport.FromInclusive sr)));
    run_method; [destruct (_suppressResizeRepaint e)|]; run_method.
  2: destruct (alloc_script w) as [|[ex|] rest] eqn:Hscript; run_method.
  3: rewrite FAILED_SUCCEEDED, ResultFromCaughtException_failed; run_method.
  all: change (SUCCEEDED S_OK) with true; cbn [andb];
    split_ifs; run_method; rewrite ?Hscript; (split; [destruct w; cbn in *; subst; reflexivity|]);
    eexists; reflexivity.
Qed.

End Shapes.

Lemma RequestCursor_result (RequestCursorSequence : string) (m : Machine) :
  RequestCursor RequestCursorSequence m =
  match pending_append (os m) with
  | Some ex => _Write RequestCursorSequence m
  | None =>
      let flushed := _Flush (snd (_Write RequestCursorSequence m)) in
      (if FAILED (fst flushed) then fst flushed else S_OK, snd flushed)
  end.
Proof.
  unfold RequestCursor, _RequestCursor, bind, ret.
  rewrite _Write_result.
  destruct (pending_append (os m)) as [ex|].
  - now rewrite ResultFromCaughtException_failed.
  - change (FAILED S_OK) with false. cbv iota. cbn [snd].
    destruct (_Flush _) as [hr2 m2]. cbn [fst snd].
    destruct (FAILED hr2); reflexivity.
Qed.

Section CallFacts.

Variable ResizeWindowSequence : SHORT -> SHORT -> string.
Variable RequestCursorSequence : string.

(** What a flush leaves of the engine and of the parts of the world the
    engine does not own. *)
Lemma _Flush_frame (m : Machine) :
  let m' := snd (_Flush m) in
  _shutdownEvent (this m') = _shutdownEvent (this m)
  /\ _hFile (this m') = _hFile (this m)
  /\ _inResizeRequest (this m') = _inResizeRequest (this m)
  /\ _suppressResizeRepaint (this m') = _suppressResizeRepaint (this m)
  /\ current_thread (os m') = current_thread (os m)
  /\ alloc_script (os m') = alloc_script (os m)
  /\ (_blockedThreadId (this m') = _blockedThreadId (this m)
      \/ _blockedThreadId (this m') = 0)
  /\ (shutdown_signaled (os m) = true -> shutdown_signaled (os m') = true).
Proof.
  cbv zeta. destruct (shutdown_signaled (os m)) eqn:Hsignal.
  - rewrite (_Flush_signaled m Hsignal). cbn [snd]. repeat split; auto.
  - rewrite (_Flush_result m Hsignal).
    destruct (pending_write (os m)); cbn; repeat split; auto; discriminate.
Qed.

(** The members and the parts of the world that each call leaves alone or
    sets in a fixed way. *)
Lemma perform_frame (c : Call) (m : Machine) :
  let m' := perform ResizeWindowSequence RequestCursorSequence c m in
  _shutdownEvent (this m') = _shutdownEvent (this m)
  /\ _hFile (this m') = _hFile (this m)
  /\ _inResizeRequest (this m') = inResizeRequest_after (_inResizeRequest (this m)) c
  /\ _suppressResizeRepaint (this m')
     = suppressResizeRepaint_after (_suppressResizeRepaint (this m)) c
  /\ current_thread (os m') = current_thread (os m)
  /\ (_blockedThreadId (this m') = _blockedThreadId (this m)
      \/ _blockedThreadId (this m') = 0).
Proof.
  cbv zeta.
  destruct c as [str| |sr| |coordCursor| | |]; cbn [perform].
  - unfold WriteTerminalUtf8. rewrite _Write_result. cbn. repeat split; auto.
  - destruct (_Flush_frame m) as (H1 & H2 & H3 & H4 & H5 & _ & H7 & _).
    cbn. repeat split; assumption.
  - destruct (UpdateViewport_shape ResizeWindowSequence sr m) as (Hos & region & Hthis).
    cbv zeta in Hos, Hthis. rewrite Hos, Hthis.
    destruct (emits_resize sr m); [rewrite _Write_result|]; cbn; repeat split; auto.
  - cbn. repeat split; auto.
  - cbn. repeat split; auto.
  - rewrite RequestCursor_result.
    destruct (pending_append (os m)) as [ex|] eqn:Hpending.
    + rewrite _Write_result, Hpending. cbn. repeat split; auto.
    + cbv zeta. cbn [snd].
      destruct (_Flush_frame (snd (_Write RequestCursorSequence m)))
        as (H1 & H2 & H3 & H4 & H5 & _ & H7 & _).
      cbv zeta in *. rewrite H1, H2, H3, H4, H5.
      rewrite _Write_result, Hpending in *. cbn in *. repeat split; auto.
  - cbn. repeat split; auto.
  - cbn. repeat split; auto.
Qed.

End CallFacts.

(** ** The ASCII writer *)

(** The loop, as a map over the wide string. *)
Lemma ascii_needed_map (wstr : list wchar_t) :
  ascii_needed wstr = string_of_list_ascii (map to_ascii wstr).
Proof.
  unfold ascii_needed.
  assert (Hloop : forall (l : list wchar_t) (acc : string),
             fold_left
               (fun needed wch =>
                  (needed ++ String (if wch >? 0x7f then "?"%char
                                     else ascii_of_nat (Z.to_nat wch)) "")%string)
               l acc
             = (acc ++ string_of_list_ascii (map to_ascii l))%string).
  { induction l as [|wch l IH]; intros acc; cbn [fold_left map string_of_list_ascii].
    - now rewrite string_app_nil_r.
    - rewrite IH, string_app_assoc. reflexivity. }
  apply Hloop.
Qed.

Lemma to_ascii_seven_bit (wch : wchar_t) : seven_bit (to_ascii wch) = true.
Proof.
  unfold seven_bit, to_ascii. apply Nat.ltb_lt.
  destruct (Z.gtb_spec wch 0x7f) as [Hbig|Hsmall].
  - cbn. lia.
  - rewrite nat_ascii_embedding; lia.
Qed.

Lemma to_ascii_of_seven_bit (c : ascii) :
  seven_bit c = true -> to_ascii (Z.of_nat (nat_of_ascii c)) = c.
Proof.
  unfold seven_bit, to_ascii. intros Hc. apply Nat.ltb_lt in Hc.
  destruct (Z.gtb_spec (Z.of_nat (nat_of_ascii c)) 0x7f) as [Hbig|Hsmall]; [lia|].
  rewrite Nat2Z.id. apply ascii_nat_embedding.
Qed.

(** [_WriteTerminalAscii], as one equation: the end of the process when the
    reservation throws, and otherwise the write of the bytes on the machine
    the reservation leaves. *)
Lemma _WriteTerminalAscii_result (wstr : list wchar_t) (m : Machine) :
  _WriteTerminalAscii wstr m =
  match pending_append (os m) with
  | Some _ => None
  | None => Some (_Write (ascii_needed wstr) (after_reservation m))
  end.
Proof.
  destruct m as [e w calls].
  unfold _WriteTerminalAscii, reserve, pending_append, after_reservation, on_world.
  run_method.
  destruct w as [signaled thread err pipe script tr]. run_method.
  destruct script as [|[ex|] rest]; reflexivity.
Qed.

Lemma ascii_needed_seven_bit (wstr : list wchar_t) :
  forallb seven_bit (list_ascii_of_string (ascii_needed wstr)) = true.
Proof.
  rewrite ascii_needed_map, list_ascii_of_string_of_list_ascii.
  apply forallb_forall. intros c Hc.
  apply in_map_iff in Hc as (wch & <- & _).
  apply to_ascii_seven_bit.
Qed.

(** X1.  [_WriteTerminalAscii] hands [_Write] one byte per wide character,
    each of them 7-bit; when neither the reservation of the local string nor
    the append to the buffer throws, the call returns [S_OK] and the buffer
    has grown by exactly these bytes. *)
Theorem WriteTerminalAscii_bytes (wstr : list wchar_t) (m : Machine) :
  forallb no_throw (firstn 2 (alloc_script (os m))) = true ->
  exists m',
    _WriteTerminalAscii wstr m = Some (S_OK, m')
    /\ _buffer (this m') = (_buffer (this m) ++ ascii_needed wstr)%string
    /\ String.length (_buffer (this m'))
       = (String.length (_buffer (this m)) + List.length wstr)%nat
    /\ forallb seven_bit (list_ascii_of_string (ascii_needed wstr)) = true
    /\ trace (os m') = trace (os m) ++ [EvTraceString (ascii_needed wstr)].
Proof.
  intros Hscript.
  assert (Hreserve : pending_append (os m) = None).
  { unfold pending_append.
    destruct (alloc_script (os m)) as [|[ex|] rest]; cbn in Hscript; congruence. }
  assert (Happend : pending_append (os (after_reservation m)) = None).
  { unfold pending_append, after_reservation. cbn.
    destruct (alloc_script (os m)) as [|o [|[ex|] rest]]; cbn in *;
      rewrite ?andb_false_r in Hscript; congruence. }
  rewrite _WriteTerminalAscii_result, Hreserve, _Write_result, Happend.
  eexists. split; [reflexivity|]. cbn.
  repeat split.
  - rewrite string_app_length, ascii_needed_map, string_of_list_ascii_length.
    now rewrite length_map.
  - apply ascii_needed_seven_bit.
Qed.

Lemma WriteTerminalAscii_bytes_witness :
  forallb no_throw (firstn 2 (alloc_script (os flush_sample))) = true
  /\ exists m',
       _WriteTerminalAscii wide_sample flush_sample = Some (S_OK, m')
       /\ _buffer (this m') = "abca??z"%string
       /\ String.length (_buffer (this m')) = 7%nat.
Proof.
  destruct (WriteTerminalAscii_bytes wide_sample flush_sample eq_refl)
    as (m' & Hresult & Hbuffer & Hlength & _).
  exact (conj eq_refl (ex_intro _ m' (conj Hresult (conj Hbuffer Hlength)))).
Defined.

Lemma ascii_needed_widen (str : string) :
  forallb seven_bit (list_ascii_of_string str) = true ->
  ascii_needed (widen str) = str.
Proof.
  intros Hstr. rewrite ascii_needed_map. unfold widen. rewrite map_map.
  rewrite <- (string_of_list_ascii_of_string str) at 2.
  f_equal.
  induction (list_ascii_of_string str) as [|c l IH]; cbn [map]; [reflexivity|].
  cbn [forallb] in Hstr. apply andb_prop in Hstr as [Hc Hl].
  now rewrite (to_ascii_of_seven_bit c Hc), (IH Hl).
Qed.

(** X2.  On text that is 7-bit already the ASCII writer is the plain
    writer behind a reservation: when the reservation of the local string
    throws, [_WriteTerminalAscii] of the widened string ends the process;
    otherwise it does what [_Write] does with the narrow string on the
    machine the reservation leaves. *)
Theorem WriteTerminalAscii_plain (str : string) (m : Machine) :
  forallb seven_bit (list_ascii_of_string str) = true ->
  _WriteTerminalAscii (widen str) m =
  match pending_append (os m) with
  | Some _ => None
  | None => Some (_Write str (after_reservation m))
  end.
Proof.
  intros Hstr. rewrite _WriteTerminalAscii_result.
  now rewrite (ascii_needed_widen str Hstr).
Qed.

Lemma WriteTerminalAscii_plain_witness :
  forallb seven_bit (list_ascii_of_string "ls -l") = true
  /\ _WriteTerminalAscii (widen "ls -l") flush_sample = Some (_Write "ls -l" flush_sample)
  /\ _WriteTerminalAscii (widen "ls -l") (starved_sample (rect 0 0 79 24)) = None.
Proof.
  exact (conj eq_refl
           (conj (WriteTerminalAscii_plain "ls -l" flush_sample eq_refl)
                 (WriteTerminalAscii_plain "ls -l" (starved_sample (rect 0 0 79 24))
                    eq_refl))).
Defined.

(** X3.  What the ASCII writer buffers cannot be told from 7-bit text: put
    through the writer again it comes out unchanged, so that replacing is
    done once and for all. *)
Theorem WriteTerminalAscii_settled (wstr : list wchar_t) :
  ascii_needed (widen (ascii_needed wstr)) = ascii_needed wstr.
Proof.
  apply ascii_needed_widen.
  rewrite ascii_needed_map, list_ascii_of_string_of_list_ascii.
  apply forallb_forall. intros c Hc.
  apply in_map_iff in Hc as (wch & <- & _).
  apply to_ascii_seven_bit.
Qed.

Lemma ascii_needed_app (wstr1 wstr2 : list wchar_t) :
  ascii_needed (wstr1 ++ wstr2) = (ascii_needed wstr1 ++ ascii_needed wstr2)%string.
Proof.
  now rewrite !ascii_needed_map, map_app, string_of_list_ascii_app.
Qed.

(** X4.  Splitting a wide string over two calls of [_WriteTerminalAscii]
    buffers the same bytes as one call with the whole string, as long as the
    allocator throws neither at a reservation nor at an append: all three
    calls return [S_OK]. *)
Theorem WriteTerminalAscii_split (wstr1 wstr2 : list wchar_t) (m : Machine) :
  forallb no_throw (alloc_script (os m)) = true ->
  exists whole first second,
    _WriteTerminalAscii (wstr1 ++ wstr2) m = Some (S_OK, whole)
    /\ _WriteTerminalAscii wstr1 m = Some (S_OK, first)
    /\ _WriteTerminalAscii wstr2 first = Some (S_OK, second)
    /\ _buffer (this second) = _buffer (this whole)
    /\ written (trace (os second)) = written (trace (os whole)).
Proof.
  intros Hscript.
  assert (Hpending : forall w, forallb no_throw (alloc_script w) = true ->
                               pending_append w = None).
  { intros w Hw. unfold pending_append.
    destruct (alloc_script w) as [|[ex|] rest]; cbn in Hw; congruence. }
  assert (Htl : forall l : list (option Exception),
             forallb no_throw l = true -> forallb no_throw (tl l) = true).
  { intros [|o l]; cbn; [auto|]. intros H. now apply andb_prop in H. }
  assert (Hwritten : forall tr str,
             written (tr ++ [EvTraceString str]) = (written tr ++ str)%string).
  { induction tr as [|ev tr IH]; intros str; cbn.
    - apply string_app_nil_r.
    - destruct ev; rewrite IH; cbn; rewrite ?string_app_assoc; reflexivity. }
  assert (Hcall : forall wstr m0,
             forallb no_throw (alloc_script (os m0)) = true ->
             let m1 := snd (_Write (ascii_needed wstr) (after_reservation m0)) in
             _WriteTerminalAscii wstr m0 = Some (S_OK, m1)
             /\ forallb no_throw (alloc_script (os m1)) = true
             /\ _buffer (this m1) = (_buffer (this m0) ++ ascii_needed wstr)%string
             /\ written (trace (os m1))
                = (written (trace (os m0)) ++ ascii_needed wstr)%string).
  { intros wstr m0 H0. cbv zeta.
    assert (H1 : forallb no_throw (alloc_script (os (after_reservation m0))) = true)
      by (cbn; auto).
    rewrite _WriteTerminalAscii_result, (Hpending _ H0).
    rewrite _Write_result, (Hpending _ H1). cbn.
    repeat split; auto. }
  destruct (Hcall (wstr1 ++ wstr2) m Hscript) as (Hwhole & _ & Hbuffer & Htrace).
  destruct (Hcall wstr1 m Hscript) as (Hfirst & Hscript1 & Hbuffer1 & Htrace1).
  destruct (Hcall wstr2 _ Hscript1) as (Hsecond & _ & Hbuffer2 & Htrace2).
  cbv zeta in *.
  eexists. eexists. eexists.
  split; [exact Hwhole|]. split; [exact Hfirst|]. split; [exact Hsecond|].
  rewrite Hbuffer2, Hbuffer1, Hbuffer, Htrace2, Htrace1, Htrace.
  now rewrite ascii_needed_app, !string_app_assoc.
Qed.

Lemma WriteTerminalAscii_split_witness :
  forallb no_throw (alloc_script (os flush_sample)) = true
  /\ exists whole first second,
       _WriteTerminalAscii ([97] ++ [233; 122]) flush_sample = Some (S_OK, whole)
       /\ _WriteTerminalAscii [97] flush_sample = Some (S_OK, first)
       /\ _WriteTerminalAscii [233; 122] first = Some (S_OK, second)
       /\ _buffer (this second) = _buffer (this whole).
Proof.
  destruct (WriteTerminalAscii_split [97] [233; 122] flush_sample eq_refl)
    as (whole & first & second & Hwhole & Hfirst & Hsecond & Hbuffer & _).
  exact (conj eq_refl
           (ex_intro _ whole
              (ex_intro _ first
                 (ex_intro _ second
                    (conj Hwhole (conj Hfirst (conj Hsecond Hbuffer))))))).
Defined.

(** ** Writing *)

(** X5.  [_Write] is all or nothing: either it returns [S_OK] and the whole
    string is at the end of the buffer, or it returns a failure and the
    buffer is as it was.  In both cases it stays away from the pipe, the
    shutdown event and the blocked-writer slot. *)
Theorem Write_all_or_nothing (str : string) (m : Machine) :
  let hr := fst (_Write str m) in
  let m' := snd (_Write str m) in
  ((hr = S_OK /\ _buffer (this m') = (_buffer (this m) ++ str)%string)
   \/ (FAILED hr = true /\ _buffer (this m') = _buffer (this m)))
  /\ writes (trace (os m')) = writes (trace (os m))
  /\ pipe_script (os m') = pipe_script (os m)
  /\ shutdown_signaled (os m') = shutdown_signaled (os m)
  /\ _blockedThreadId (this m') = _blockedThreadId (this m).
Proof.
  cbv zeta. rewrite _Write_result. cbn [fst snd this os].
  split.
  - destruct (pending_append (os m)) as [ex|].
    + right. split; [apply ResultFromCaughtException_failed|reflexivity].
    + left. split; reflexivity.
  - cbn. rewrite writes_app. cbn. rewrite app_nil_r. auto.
Qed.

(** ** The flags and the slot across calls *)

Section Protocols.

Variable ResizeWindowSequence : SHORT -> SHORT -> string.
Variable RequestCursorSequence : string.

(** X6.  [_inResizeRequest] is a plain flag without a nesting count:
    whatever calls are made, it is true afterwards exactly when the last of
    [BeginResizeRequest] and [EndResizeRequest] among them was a begin (and
    as before when there was none); no other call touches it. *)
Theorem inResizeRequest_protocol (calls : list Call) (m : Machine) :
  _inResizeRequest (this (perform_all ResizeWindowSequence RequestCursorSequence calls m))
  = fold_left inResizeRequest_after calls (_inResizeRequest (this m)).
Proof.
  revert m. induction calls as [|c rest IH]; intros m; cbn [perform_all fold_left].
  - reflexivity.
  - rewrite IH.
    destruct (perform_frame ResizeWindowSequence RequestCursorSequence c m)
      as (_ & _ & Hflag & _).
    cbv zeta in Hflag. now rewrite Hflag.
Qed.

(** X7.  [_suppressResizeRepaint] is set by [SuppressResizeRepaint] and
    cleared by every [UpdateViewport], be it of the same size or failing;
    no other call touches it. *)
Theorem suppressResizeRepaint_protocol (calls : list Call) (m : Machine) :
  _suppressResizeRepaint
    (this (perform_all ResizeWindowSequence RequestCursorSequence calls m))
  = fold_left suppressResizeRepaint_after calls (_suppressResizeRepaint (this m)).
Proof.
  revert m. induction calls as [|c rest IH]; intros m; cbn [perform_all fold_left].
  - reflexivity.
  - rewrite IH.
    destruct (perform_frame ResizeWindowSequence RequestCursorSequence c m)
      as (_ & _ & _ & Hflag & _).
    cbv zeta in Hflag. now rewrite Hflag.
Qed.

Lemma perform_all_keeps (calls : list Call) (m : Machine) :
  let m' := perform_all ResizeWindowSequence RequestCursorSequence calls m in
  _hFile (this m') = _hFile (this m)
  /\ _shutdownEvent (this m') = _shutdownEvent (this m)
  /\ (_blockedThreadId (this m) = 0 -> _blockedThreadId (this m') = 0).
Proof.
  revert m. induction calls as [|c rest IH]; intros m; cbn [perform_all].
  - auto.
  - destruct (perform_frame ResizeWindowSequence RequestCursorSequence c m)
      as (Hevent & Hfile & _ & _ & _ & Hslot').
    cbv zeta in Hevent, Hfile, Hslot'.
    destruct (IH (perform ResizeWindowSequence RequestCursorSequence c m))
      as (H1 & H2 & H3).
    cbv zeta in *. repeat split; try congruence.
    intros Hslot. apply H3. destruct Hslot'; congruence.
Qed.

(** X8.  Between calls the blocked-writer slot is empty: an engine whose
    slot holds 0 has it hold 0 again after any sequence of calls, and it
    keeps its pipe and event handles throughout. *)
Theorem slot_empty_between_calls (calls : list Call) (m : Machine) :
  _blockedThreadId (this m) = 0 ->
  let m' := perform_all ResizeWindowSequence RequestCursorSequence calls m in
  _blockedThreadId (this m') = 0
  /\ _hFile (this m') = _hFile (this m)
  /\ _shutdownEvent (this m') = _shutdownEvent (this m).
Proof.
  intros Hslot. cbv zeta.
  destruct (perform_all_keeps calls m) as (Hfile & Hevent & Hkeeps).
  auto.
Qed.

End Protocols.

Lemma slot_empty_between_calls_witness :
  _blockedThreadId (this broken_pipe_sample) = 0
  /\ _blockedThreadId
       (this (perform_all xterm_ResizeWindowSequence xterm_RequestCursorSequence
                [CallWriteTerminalUtf8 "more"; CallRequestCursor; CallFlush]
                broken_pipe_sample)) = 0.
Proof.
  destruct (slot_empty_between_calls xterm_ResizeWindowSequence
              xterm_RequestCursorSequence
              [CallWriteTerminalUtf8 "more"; CallRequestCursor; CallFlush]
              broken_pipe_sample eq_refl)
    as (Hslot & _).
  exact (conj eq_refl Hslot).
Defined.

(** ** Buffering *)

Section Buffering.

Variable ResizeWindowSequence : SHORT -> SHORT -> string.
Variable RequestCursorSequence : string.

Lemma sent_writes (tr tr' : list Event) : writes tr = writes tr' -> sent tr = sent tr'.
Proof.
  assert (Hsent : forall l, sent l = sent (filter is_WriteFile l)).
  { induction l as [|ev l IH]; cbn [sent filter]; [reflexivity|].
    destruct ev; cbn [is_WriteFile sent]; rewrite <- IH; reflexivity. }
  unfold writes. intros Heq. now rewrite (Hsent tr), (Hsent tr'), Heq.
Qed.

Lemma perform_unflushed (c : Call) (m : Machine) :
  flushes c = false ->
  let m' := perform ResizeWindowSequence RequestCursorSequence c m in
  writes (trace (os m')) = writes (trace (os m))
  /\ pipe_script (os m') = pipe_script (os m)
  /\ shutdown_signaled (os m') = shutdown_signaled (os m)
  /\ _blockedThreadId (this m') = _blockedThreadId (this m).
Proof.
  cbv zeta.
  destruct c as [str| |sr| |coordCursor| | |]; cbn [perform flushes];
    intros Hc; try discriminate Hc.
  - unfold WriteTerminalUtf8. rewrite _Write_result. cbn.
    rewrite writes_app. cbn. rewrite app_nil_r. auto.
  - destruct (UpdateViewport_shape ResizeWindowSequence sr m) as (Hos & region & Hthis).
    cbv zeta in Hos, Hthis. rewrite Hos, Hthis.
    destruct (emits_resize sr m); [rewrite _Write_result|]; cbn; [|auto].
    rewrite writes_app. cbn. rewrite app_nil_r. auto.
  - cbn. auto.
  - cbn. auto.
  - cbn. auto.
  - cbn. auto.
Qed.

(** X9.  Output is buffered: as long as neither [_Flush] nor
    [RequestCursor] is called, no call hands anything to the pipe, sets the
    shutdown event or stores to the blocked-writer slot, whatever is written
    and however the viewport changes. *)
Theorem nothing_sent_before_flush (calls : list Call) (m : Machine) :
  forallb (fun c => negb (flushes c)) calls = true ->
  let m' := perform_all ResizeWindowSequence RequestCursorSequence calls m in
  writes (trace (os m')) = writes (trace (os m))
  /\ sent (trace (os m')) = sent (trace (os m))
  /\ pipe_script (os m') = pipe_script (os m)
  /\ shutdown_signaled (os m') = shutdown_signaled (os m)
  /\ _blockedThreadId (this m') = _blockedThreadId (this m).
Proof.
  intros Hcalls. cbv zeta.
  assert (Hcore : writes (trace (os (perform_all ResizeWindowSequence
                                       RequestCursorSequence calls m)))
                  = writes (trace (os m))
                  /\ pipe_script (os (perform_all ResizeWindowSequence
                                        RequestCursorSequence calls m))
                     = pipe_script (os m)
                  /\ shutdown_signaled (os (perform_all ResizeWindowSequence
                                              RequestCursorSequence calls m))
                     = shutdown_signaled (os m)
                  /\ _blockedThreadId (this (perform_all ResizeWindowSequence
                                               RequestCursorSequence calls m))
                     = _blockedThreadId (this m)).
  { revert m. induction calls as [|c rest IH]; intros m; cbn [perform_all].
    - auto.
    - cbn [forallb] in Hcalls. apply andb_prop in Hcalls as [Hc Hrest].
      apply negb_true_iff in Hc.
      destruct (perform_unflushed c m Hc) as (H1 & H2 & H3 & H4).
      destruct (IH Hrest (perform ResizeWindowSequence RequestCursorSequence c m))
        as (H1' & H2' & H3' & H4').
      cbv zeta in *. repeat split; congruence. }
  destruct Hcore as (H1 & H2 & H3 & H4).
  repeat split; try assumption.
  now apply sent_writes.
Qed.

End Buffering.

Lemma nothing_sent_before_flush_witness :
  forallb (fun c => negb (flushes c))
    [CallWriteTerminalUtf8 "more"; CallUpdateViewport (Build_SMALL_RECT 0 0 119 29);
     CallInheritCursor {| X := 0; Y := 3 |}] = true
  /\ writes (trace (os (perform_all xterm_ResizeWindowSequence xterm_RequestCursorSequence
                          [CallWriteTerminalUtf8 "more";
                           CallUpdateViewport (Build_SMALL_RECT 0 0 119 29);
                           CallInheritCursor {| X := 0; Y := 3 |}]
                          flush_sample))) = [].
Proof.
  destruct (nothing_sent_before_flush xterm_ResizeWindowSequence
              xterm_RequestCursorSequence
              [CallWriteTerminalUtf8 "more";
               CallUpdateViewport (Build_SMALL_RECT 0 0 119 29);
               CallInheritCursor {| X := 0; Y := 3 |}]
              flush_sample eq_refl)
    as (Hwrites & _).
  exact (conj eq_refl Hwrites).
Defined.

(** ** Delivery *)

Section Delivery.

Variable ResizeWindowSequence : SHORT -> SHORT -> string.
Variable RequestCursorSequence : string.

Lemma healthy_parts (w : World) :
  healthy w = true <->
  shutdown_signaled w = false
  /\ forallb no_throw (alloc_script w) = true
  /\ forallb no_failure (pipe_script w) = true.
Proof.
  unfold healthy. rewrite !andb_true_iff, negb_true_iff. tauto.
Qed.

(** One write in a healthy world. *)
Lemma _Write_delivery (str : string) (m : Machine) :
  healthy (os m) = true ->
  let m' := snd (_Write str m) in
  healthy (os m') = true
  /\ written (trace (os m')) = (written (trace (os m)) ++ str)%string
  /\ (sent (trace (os m')) ++ _buffer (this m'))%string
     = ((sent (trace (os m)) ++ _buffer (this m)) ++ str)%string.
Proof.
  intros Hhealthy. apply healthy_parts in Hhealthy as (Hsignal & Halloc & Hpipe).
  cbv zeta. rewrite _Write_result, (pending_append_healthy _ Halloc).
  cbn [snd this os]. split; [|split].
  - apply healthy_parts. cbn. auto using forallb_tl.
  - cbn. rewrite written_app. cbn. now rewrite string_app_nil_r.
  - cbn. rewrite sent_app. cbn.
    now rewrite string_app_nil_r, string_app_assoc.
Qed.

Lemma substring_whole (str : string) : substring 0 (String.length str) str = str.
Proof.
  induction str as [|c str IH]; cbn; [reflexivity|now rewrite IH].
Qed.

(** One flush in a healthy world, of a buffer whose size is a DWORD. *)
Lemma _Flush_delivery (m : Machine) :
  healthy (os m) = true ->
  forallb whole_buffer (trace (os (snd (_Flush m)))) = true ->
  let m' := snd (_Flush m) in
  fst (_Flush m) = S_OK
  /\ healthy (os m') = true
  /\ written (trace (os m')) = written (trace (os m))
  /\ _buffer (this m') = ""%string
  /\ sent (trace (os m')) = (sent (trace (os m)) ++ _buffer (this m))%string.
Proof.
  intros Hhealthy. apply healthy_parts in Hhealthy as (Hsignal & Halloc & Hpipe).
  cbv zeta. rewrite (_Flush_result m Hsignal), (pending_write_healthy _ Hpipe).
  cbn [fst snd this os]. intros Hwhole.
  split; [reflexivity|]. split; [|split; [|split]].
  - apply healthy_parts. cbn. auto using forallb_tl.
  - cbn. rewrite written_app. cbn. now rewrite string_app_nil_r.
  - reflexivity.
  - cbn in Hwhole. rewrite forallb_app in Hwhole.
    apply andb_prop in Hwhole as [_ Hwrite]. cbn in Hwrite.
    rewrite andb_true_r in Hwrite. apply Z.eqb_eq in Hwrite.
    cbn. rewrite sent_app. cbn.
    rewrite Hwrite, Nat2Z.id, substring_whole.
    now rewrite string_app_nil_r.
Qed.

(** A call adds to the trace and takes nothing from it. *)
Lemma perform_trace (c : Call) (m : Machine) :
  exists added,
    trace (os (perform ResizeWindowSequence RequestCursorSequence c m))
    = trace (os m) ++ added.
Proof.
  assert (Hflush : forall m0 : Machine,
             exists added, trace (os (snd (_Flush m0))) = trace (os m0) ++ added).
  { intros m0. destruct (shutdown_signaled (os m0)) eqn:Hsignal.
    - rewrite (_Flush_signaled m0 Hsignal). exists []. now rewrite app_nil_r.
    - rewrite (_Flush_result m0 Hsignal).
      destruct (pending_write (os m0)); cbn; [eexists; reflexivity|].
      rewrite <- app_assoc. eexists; reflexivity. }
  destruct c as [str| |sr| |coordCursor| | |]; cbn [perform].
  - unfold WriteTerminalUtf8. rewrite _Write_result. cbn. eexists; reflexivity.
  - apply Hflush.
  - destruct (UpdateViewport_shape ResizeWindowSequence sr m) as (Hos & _).
    cbv zeta in Hos. rewrite Hos.
    destruct (emits_resize sr m); [rewrite _Write_result; cbn; eexists; reflexivity|].
    exists []. now rewrite app_nil_r.
  - exists []. now rewrite app_nil_r.
  - exists []. now rewrite app_nil_r.
  - rewrite RequestCursor_result.
    destruct (pending_append (os m)) as [ex|] eqn:Hpending.
    + rewrite _Write_result. cbn. eexists; reflexivity.
    + cbv zeta. cbn [snd].
      destruct (Hflush (snd (_Write RequestCursorSequence m))) as (added & Hadded).
      rewrite Hadded, _Write_result. cbn. rewrite <- app_assoc. eexists; reflexivity.
  - exists []. now rewrite app_nil_r.
  - exists []. now rewrite app_nil_r.
Qed.

Lemma perform_all_trace (calls : list Call) (m : Machine) :
  exists added,
    trace (os (perform_all ResizeWindowSequence RequestCursorSequence calls m))
    = trace (os m) ++ added.
Proof.
  revert m. induction calls as [|c rest IH]; intros m; cbn [perform_all].
  - exists []. now rewrite app_nil_r.
  - destruct (IH (perform ResizeWindowSequence RequestCursorSequence c m))
      as (added' & Hrest).
    destruct (perform_trace c m) as (added & Hc).
    rewrite Hrest, Hc, <- app_assoc. eexists; reflexivity.
Qed.

Lemma perform_delivery (c : Call) (m : Machine) :
  healthy (os m) = true ->
  let m' := perform ResizeWindowSequence RequestCursorSequence c m in
  forallb whole_buffer (trace (os m')) = true ->
  healthy (os m') = true
  /\ exists delta,
       written (trace (os m')) = (written (trace (os m)) ++ delta)%string
       /\ (sent (trace (os m')) ++ _buffer (this m'))%string
          = ((sent (trace (os m)) ++ _buffer (this m)) ++ delta)%string.
Proof.
  intros Hhealthy. cbv zeta.
  assert (Hnothing : forall m' : Machine,
             os m' = os m -> _buffer (this m') = _buffer (this m) ->
             healthy (os m') = true
             /\ exists delta,
                  written (trace (os m')) = (written (trace (os m)) ++ delta)%string
                  /\ (sent (trace (os m')) ++ _buffer (this m'))%string
                     = ((sent (trace (os m)) ++ _buffer (this m)) ++ delta)%string).
  { intros m' -> ->. split; [assumption|].
    exists ""%string. now rewrite !string_app_nil_r. }
  destruct c as [str| |sr| |coordCursor| | |]; cbn [perform]; intros Hwhole.
  - unfold WriteTerminalUtf8.
    destruct (_Write_delivery str m Hhealthy) as (H1 & H2 & H3).
    split; [exact H1|]. exists str. auto.
  - destruct (_Flush_delivery m Hhealthy Hwhole) as (_ & H1 & H2 & H3 & H4).
    cbv zeta in *. split; [exact H1|]. exists ""%string.
    rewrite H2, H3, H4. now rewrite !string_app_nil_r.
  - destruct (UpdateViewport_shape ResizeWindowSequence sr m) as (Hos & region & Hthis).
    cbv zeta in Hos, Hthis.
    destruct (emits_resize sr m).
    + destruct (_Write_delivery
                  (ResizeWindowSequence (Viewport.Width (Viewport.FromInclusive sr))
                     (Viewport.Height (Viewport.FromInclusive sr))) m Hhealthy)
        as (H1 & H2 & H3).
      cbv zeta in *. rewrite Hos, Hthis. cbn [_buffer set_resized set_invalidRect
        set_suppressResizeRepaint set_lastViewport].
      split; [exact H1|]. eexists. split; [exact H2|exact H3].
    + apply Hnothing; [exact Hos|]. rewrite Hthis. reflexivity.
  - apply Hnothing; reflexivity.
  - apply Hnothing; reflexivity.
  - rewrite RequestCursor_result in *.
    apply healthy_parts in Hhealthy as Hparts. destruct Hparts as (_ & Halloc & _).
    rewrite (pending_append_healthy _ Halloc) in *. cbv zeta in *. cbn [snd] in *.
    destruct (_Write_delivery RequestCursorSequence m Hhealthy) as (H1 & H2 & H3).
    cbv zeta in *.
    destruct (_Flush_delivery _ H1 Hwhole) as (_ & H1' & H2' & H3' & H4').
    cbv zeta in *. split; [exact H1'|].
    exists RequestCursorSequence.
    rewrite H2', H3', H4', H2, H3. now rewrite !string_app_nil_r.
  - apply Hnothing; reflexivity.
  - apply Hnothing; reflexivity.
Qed.

(** X10.  Nothing is lost, repeated or reordered while nothing goes wrong
    and no flush finds 2^32 bytes or more in the buffer: in a world where
    the event is not signalled, no append throws and no write fails, after
    any sequence of calls in which every [WriteFile] was asked for the whole
    of its buffer, the bytes handed to the pipe, followed by what is still
    in the buffer, are what had been handed over and buffered before,
    followed by the strings written since, in the order of writing.  The
    world is still such a world afterwards. *)
Theorem bytes_are_conserved (calls : list Call) (m : Machine) :
  healthy (os m) = true ->
  let m' := perform_all ResizeWindowSequence RequestCursorSequence calls m in
  forallb whole_buffer (trace (os m')) = true ->
  healthy (os m') = true
  /\ exists delta,
       written (trace (os m')) = (written (trace (os m)) ++ delta)%string
       /\ (sent (trace (os m')) ++ _buffer (this m'))%string
          = ((sent (trace (os m)) ++ _buffer (this m)) ++ delta)%string.
Proof.
  revert m. induction calls as [|c rest IH]; intros m Hhealthy; cbn [perform_all];
    cbv zeta; intros Hwhole.
  - split; [assumption|]. exists ""%string. now rewrite !string_app_nil_r.
  - assert (Hstep : forallb whole_buffer
                      (trace (os (perform ResizeWindowSequence RequestCursorSequence c m)))
                    = true).
    { destruct (perform_all_trace rest
                  (perform ResizeWindowSequence RequestCursorSequence c m))
        as (added & Hadded).
      rewrite Hadded, forallb_app in Hwhole. now apply andb_prop in Hwhole. }
    destruct (perform_delivery c m Hhealthy Hstep) as (Hhealthy' & delta & Hwritten & Hsent).
    destruct (IH _ Hhealthy' Hwhole) as (Hhealthy'' & delta' & Hwritten' & Hsent').
    split; [assumption|].
    exists (delta ++ delta')%string.
    rewrite Hwritten', Hwritten, Hsent', Hsent.
    now rewrite !string_app_assoc.
Qed.

End Delivery.

Lemma bytes_are_conserved_witness :
  healthy (os flush_sample) = true
  /\ forallb whole_buffer
       (trace (os (perform_all xterm_ResizeWindowSequence xterm_RequestCursorSequence
                     [CallWriteTerminalUtf8 "more"; CallRequestCursor;
                      CallWriteTerminalUtf8 "x"] flush_sample))) = true
  /\ healthy (os (perform_all xterm_ResizeWindowSequence xterm_RequestCursorSequence
                    [CallWriteTerminalUtf8 "more"; CallRequestCursor;
                     CallWriteTerminalUtf8 "x"] flush_sample)) = true
  /\ exists delta,
       written (trace (os (perform_all xterm_ResizeWindowSequence
                             xterm_RequestCursorSequence
                             [CallWriteTerminalUtf8 "more"; CallRequestCursor;
                              CallWriteTerminalUtf8 "x"] flush_sample)))
       = (written (trace (os flush_sample)) ++ delta)%string
       /\ (sent (trace (os (perform_all xterm_ResizeWindowSequence
                              xterm_RequestCursorSequence
                              [CallWriteTerminalUtf8 "more"; CallRequestCursor;
                               CallWriteTerminalUtf8 "x"] flush_sample)))
           ++ _buffer (this (perform_all xterm_ResizeWindowSequence
                               xterm_RequestCursorSequence
                               [CallWriteTerminalUtf8 "more"; CallRequestCursor;
                                CallWriteTerminalUtf8 "x"] flush_sample)))%string
          = ((sent (trace (os flush_sample)) ++ _buffer (this flush_sample))
             ++ delta)%string.
Proof.
  exact (conj eq_refl
           (conj eq_refl
              (bytes_are_conserved xterm_ResizeWindowSequence xterm_RequestCursorSequence
                 [CallWriteTerminalUtf8 "more"; CallRequestCursor;
                  CallWriteTerminalUtf8 "x"] flush_sample eq_refl eq_refl))).
Defined.

(** ** After the event is set, from any cause *)

Section Final.

Variable ResizeWindowSequence : SHORT -> SHORT -> string.
Variable RequestCursorSequence : string.

(** X11.  The shutdown event is final for the engine: once it is set, by
    whomever, no sequence of calls unsets it or hands anything to the pipe,
    and every flush among them reports success. *)
Theorem shutdown_is_final (calls : list Call) (m : Machine) :
  shutdown_signaled (os m) = true ->
  let m' := perform_all ResizeWindowSequence RequestCursorSequence calls m in
  shutdown_signaled (os m') = true
  /\ writes (trace (os m')) = writes (trace (os m))
  /\ sent (trace (os m')) = sent (trace (os m))
  /\ _Flush m' = (S_OK, m').
Proof.
  intros Hset. cbv zeta.
  destruct (perform_all_after_shutdown ResizeWindowSequence RequestCursorSequence
              calls m Hset) as [Hset' Hwrites].
  repeat split; try assumption.
  - now apply sent_writes.
  - now apply _Flush_signaled.
Qed.

(** X12.  A cursor request made after the event is set cannot reach the
    terminal and yet is reported as sent: [RequestCursor] returns [S_OK]
    (the append not throwing), nothing is handed to the pipe, and the
    request stays at the end of the buffer. *)
Theorem RequestCursor_after_shutdown (m : Machine) :
  shutdown_signaled (os m) = true ->
  pending_append (os m) = None ->
  let result := RequestCursor RequestCursorSequence m in
  fst result = S_OK
  /\ writes (trace (os (snd result))) = writes (trace (os m))
  /\ _buffer (this (snd result)) = (_buffer (this m) ++ RequestCursorSequence)%string
  /\ _blockedThreadId (this (snd result)) = _blockedThreadId (this m).
Proof.
  intros Hset Hpending. cbv zeta.
  rewrite RequestCursor_result, Hpending. cbv zeta.
  assert (Hset1 : shutdown_signaled (os (snd (_Write RequestCursorSequence m))) = true).
  { rewrite _Write_result. exact Hset. }
  rewrite (_Flush_signaled _ Hset1). cbn [fst snd].
  change (FAILED S_OK) with false. cbv iota.
  rewrite _Write_result, Hpending. cbn.
  rewrite writes_app. cbn. rewrite app_nil_r. auto.
Qed.

End Final.

Lemma shutdown_is_final_witness :
  shutdown_signaled (os shutdown_sample) = true
  /\ shutdown_signaled
       (os (perform_all xterm_ResizeWindowSequence xterm_RequestCursorSequence
              [CallWriteTerminalUtf8 "more"; CallFlush; CallRequestCursor]
              shutdown_sample)) = true
  /\ writes (trace (os (perform_all xterm_ResizeWindowSequence
                          xterm_RequestCursorSequence
                          [CallWriteTerminalUtf8 "more"; CallFlush; CallRequestCursor]
                          shutdown_sample))) = [].
Proof.
  destruct (shutdown_is_final xterm_ResizeWindowSequence xterm_RequestCursorSequence
              [CallWriteTerminalUtf8 "more"; CallFlush; CallRequestCursor]
              shutdown_sample eq_refl)
    as (Hset & Hwrites & _).
  exact (conj eq_refl (conj Hset Hwrites)).
Defined.

Lemma RequestCursor_after_shutdown_witness :
  shutdown_signaled (os shutdown_sample) = true
  /\ pending_append (os shutdown_sample) = None
  /\ fst (RequestCursor xterm_RequestCursorSequence shutdown_sample) = S_OK
  /\ writes (trace (os (snd (RequestCursor xterm_RequestCursorSequence shutdown_sample))))
     = []
  /\ _buffer (this (snd (RequestCursor xterm_RequestCursorSequence shutdown_sample)))
     = ("abc" ++ xterm_RequestCursorSequence)%string.
Proof.
  destruct (RequestCursor_after_shutdown xterm_RequestCursorSequence shutdown_sample
              eq_refl eq_refl)
    as (Hhr & Hwrites & Hbuffer & _).
  exact (conj eq_refl (conj eq_refl (conj Hhr (conj Hwrites Hbuffer)))).
Defined.

(** ** More on viewport updates *)

Section ViewportUpdates.

Variable ResizeWindowSequence : SHORT -> SHORT -> string.

(** X13.  [UpdateViewport] records the new viewport, clears the suppression
    flag and marks the frame as resized on every path, the failing one
    included.  When the emission of the resize sequence fails, the call
    returns that failure and has asked for no invalidation: neither the
    buffer nor the invalidated region has changed. *)
Theorem UpdateViewport_always_records (sr : SMALL_RECT) (m : Machine) :
  let hr := fst (UpdateViewport ResizeWindowSequence sr m) in
  let m' := snd (UpdateViewport ResizeWindowSequence sr m) in
  _lastViewport (this m') = Viewport.FromInclusive sr
  /\ _suppressResizeRepaint (this m') = false
  /\ _resized (this m') = true
  /\ (forall ex,
        emits_resize sr m = true ->
        pending_append (os m) = Some ex ->
        hr = ResultFromCaughtException ex
        /\ FAILED hr = true
        /\ _buffer (this m') = _buffer (this m)
        /\ _invalidRect (this m') = _invalidRect (this m)
        /\ invalidations m' = invalidations m).
Proof.
  cbv zeta.
  destruct (UpdateViewport_flags ResizeWindowSequence sr m) as (Hview & Hflag & Hresized).
  cbv zeta in Hview, Hflag, Hresized.
  repeat (split; [assumption|]).
  intros ex Hemit Hpending.
  destruct (UpdateViewport_emit ResizeWindowSequence sr m Hemit)
    as (_ & _ & _ & Hresult).
  cbv zeta in Hresult. rewrite Hpending in Hresult.
  destruct Hresult as [Hhr Hbuffer].
  assert (Hfailed : FAILED (fst (UpdateViewport ResizeWindowSequence sr m)) = true)
    by (rewrite Hhr; apply ResultFromCaughtException_failed).
  pose proof (UpdateViewport_region ResizeWindowSequence sr m) as Hregion.
  pose proof (UpdateViewport_invalidations ResizeWindowSequence sr m) as Hcalls.
  cbv zeta in Hregion, Hcalls. rewrite Hfailed in Hregion, Hcalls.
  rewrite app_nil_r in Hcalls. auto.
Qed.

(** X14.  An [UpdateViewport] to a rectangle of the old width and height,
    wherever it lies, succeeds and neither emits nor invalidates: the
    operating system, the buffer and the invalidated region are as they
    were, even if a suppression was pending (which is used up all the
    same). *)
Theorem UpdateViewport_same_size (sr : SMALL_RECT) (m : Machine) :
  Viewport.Width (Viewport.FromInclusive sr) = Viewport.Width (_lastViewport (this m)) ->
  Viewport.Height (Viewport.FromInclusive sr) = Viewport.Height (_lastViewport (this m)) ->
  let result := UpdateViewport ResizeWindowSequence sr m in
  fst result = S_OK
  /\ os (snd result) = os m
  /\ _buffer (this (snd result)) = _buffer (this m)
  /\ _invalidRect (this (snd result)) = _invalidRect (this m)
  /\ _lastViewport (this (snd result)) = Viewport.FromInclusive sr
  /\ _suppressResizeRepaint (this (snd result)) = false.
Proof.
  intros Hwidth Hheight. cbv zeta.
  assert (Hquiet : emits_resize sr m = false).
  { unfold emits_resize, size_changed. now rewrite Hwidth, Hheight, !Z.eqb_refl. }
  destruct (UpdateViewport_quiet ResizeWindowSequence sr m Hquiet) as (Hhr & Hos & Hbuffer).
  destruct (UpdateViewport_flags ResizeWindowSequence sr m) as (Hview & Hflag & _).
  pose proof (UpdateViewport_region ResizeWindowSequence sr m) as Hregion.
  cbv zeta in Hview, Hflag, Hregion.
  rewrite Hhr in Hregion. change (FAILED S_OK) with false in Hregion.
  unfold shrank, grown_region, width_grew, height_grew in Hregion.
  rewrite Hwidth, Hheight, !Z.gtb_ltb, !Z.ltb_irrefl in Hregion.
  cbn in Hregion.
  repeat split; assumption.
Qed.

End ViewportUpdates.

(** The spec's growth scenario, short of memory: the call fails with
    [E_OUTOFMEMORY] and asks for no invalidation, and the new viewport is
    recorded all the same. *)
Lemma UpdateViewport_always_records_witness :
  emits_resize (Build_SMALL_RECT 0 0 15 12) (starved_sample (rect 0 0 10 10)) = true
  /\ pending_append (os (starved_sample (rect 0 0 10 10))) = Some bad_alloc
  /\ _lastViewport (this (snd growth_scenario_starved)) = rect 0 0 15 12
  /\ fst growth_scenario_starved = E_OUTOFMEMORY
  /\ invalidations (snd growth_scenario_starved) = [].
Proof.
  destruct (UpdateViewport_always_records xterm_ResizeWindowSequence
              (Build_SMALL_RECT 0 0 15 12) (starved_sample (rect 0 0 10 10)))
    as (Hview & _ & _ & Hfailing).
  destruct (Hfailing bad_alloc eq_refl eq_refl) as (Hhr & _ & _ & _ & Hcalls).
  exact (conj eq_refl (conj eq_refl (conj Hview (conj Hhr Hcalls)))).
Defined.

(** A scrolled viewport of the same size: nothing emitted, nothing
    invalidated. *)
Lemma UpdateViewport_same_size_witness :
  Viewport.Width (rect 0 5 79 29) = Viewport.Width (_lastViewport (this flush_sample))
  /\ Viewport.Height (rect 0 5 79 29) = Viewport.Height (_lastViewport (this flush_sample))
  /\ fst (UpdateViewport xterm_ResizeWindowSequence (Build_SMALL_RECT 0 5 79 29)
            flush_sample) = S_OK
  /\ os (snd (UpdateViewport xterm_ResizeWindowSequence (Build_SMALL_RECT 0 5 79 29)
                flush_sample)) = os flush_sample
  /\ _invalidRect (this (snd (UpdateViewport xterm_ResizeWindowSequence
                                (Build_SMALL_RECT 0 5 79 29) flush_sample)))
     = _invalidRect (this flush_sample).
Proof.
  destruct (UpdateViewport_same_size xterm_ResizeWindowSequence
              (Build_SMALL_RECT 0 5 79 29) flush_sample eq_refl eq_refl)
    as (Hhr & Hos & _ & Hregion & _).
  exact (conj eq_refl (conj eq_refl (conj Hhr (conj Hos Hregion)))).
Defined.

(** ** The watchdog on any schedule *)

Lemma watchdog_from_Cancelling (schedule : list Watchdog.Env) (h : HANDLE) :
  let acts := snd (Watchdog.run schedule (Watchdog.Cancelling h)) in
  acts = [] \/ acts = [Watchdog.ActCancelSynchronousIo h].
Proof.
  cbv zeta. destruct schedule as [|env rest]; cbn [Watchdog.run Watchdog.step].
  - left. reflexivity.
  - rewrite (watchdog_returned rest). right. reflexivity.
Qed.

Lemma watchdog_from_Opening (schedule : list Watchdog.Env) (threadId : DWORD) :
  let access := Z.lor Watchdog.STANDARD_RIGHTS_ALL Watchdog.THREAD_TERMINATE in
  let acts := snd (Watchdog.run schedule (Watchdog.Opening threadId)) in
  acts = []
  \/ acts = [Watchdog.ActOpenThread access threadId]
  \/ exists h, h <> 0
       /\ acts = [Watchdog.ActOpenThread access threadId;
                  Watchdog.ActCancelSynchronousIo h].
Proof.
  cbv zeta. destruct schedule as [|env rest]; cbn [Watchdog.run Watchdog.step].
  - left. reflexivity.
  - destruct (Z.eqb_spec
                (Watchdog.OpenThread env
                   (Z.lor Watchdog.STANDARD_RIGHTS_ALL Watchdog.THREAD_TERMINATE)
                   threadId) 0) as [Hnull|Hhandle].
    + rewrite (watchdog_returned rest). right. left. reflexivity.
    + destruct (watchdog_from_Cancelling rest
                  (Watchdog.OpenThread env
                     (Z.lor Watchdog.STANDARD_RIGHTS_ALL Watchdog.THREAD_TERMINATE)
                     threadId)) as [Hacts|Hacts];
        cbv zeta in Hacts;
        destruct (Watchdog.run rest _) as [p acts]; cbn [snd] in *; subst acts.
      * right. left. reflexivity.
      * right. right. eexists. split; [exact Hhandle|reflexivity].
Qed.

Lemma watchdog_from_Loading (schedule : list Watchdog.Env) :
  let access := Z.lor Watchdog.STANDARD_RIGHTS_ALL Watchdog.THREAD_TERMINATE in
  let acts := snd (Watchdog.run schedule Watchdog.Loading) in
  acts = []
  \/ (exists threadId, acts = [Watchdog.ActLoad threadId])
  \/ (exists threadId, threadId <> 0
        /\ acts = [Watchdog.ActLoad threadId; Watchdog.ActOpenThread access threadId])
  \/ (exists threadId h, threadId <> 0 /\ h <> 0
        /\ acts = [Watchdog.ActLoad threadId; Watchdog.ActOpenThread access threadId;
                   Watchdog.ActCancelSynchronousIo h]).
Proof.
  cbv zeta. destruct schedule as [|env rest]; cbn [Watchdog.run Watchdog.step].
  - left. reflexivity.
  - destruct (Z.eqb_spec (_blockedThreadId (this (Watchdog.machine env))) 0)
      as [Hzero|Hid].
    + rewrite (watchdog_returned rest). right. left. eexists. reflexivity.
    + destruct (watchdog_from_Opening rest
                  (_blockedThreadId (this (Watchdog.machine env))))
        as [Hacts|[Hacts|(h & Hh & Hacts)]];
        cbv zeta in Hacts;
        destruct (Watchdog.run rest _) as [p acts]; cbn [snd] in *; subst acts.
      * right. left. eexists. reflexivity.
      * right. right. left. eexists. split; [exact Hid|reflexivity].
      * right. right. right. do 2 eexists.
        split; [exact Hid|]. split; [exact Hh|reflexivity].
Qed.

(** X15.  On any schedule whatsoever, however the engine and the event
    change between its steps, the watchdog does one of four things: nothing;
    one read of the slot; a read of a non-zero id and an [OpenThread] for
    that id; or these two and one [CancelSynchronousIo] on the handle
    obtained, which is not null.  It never reads twice, never opens a thread
    for id 0 and never cancels without a handle. *)
Theorem watchdog_acts_once (schedule : list Watchdog.Env) :
  let access := Z.lor Watchdog.STANDARD_RIGHTS_ALL Watchdog.THREAD_TERMINATE in
  let acts := snd (Watchdog.run schedule Watchdog.Waiting) in
  (acts = []
   \/ (exists threadId, acts = [Watchdog.ActLoad threadId])
   \/ (exists threadId, threadId <> 0
         /\ acts = [Watchdog.ActLoad threadId; Watchdog.ActOpenThread access threadId])
   \/ (exists threadId h, threadId <> 0 /\ h <> 0
         /\ acts = [Watchdog.ActLoad threadId; Watchdog.ActOpenThread access threadId;
                    Watchdog.ActCancelSynchronousIo h]))
  /\ (Watchdog.loads acts <= 1)%nat
  /\ (Watchdog.cancels acts <= 1)%nat.
Proof.
  cbv zeta.
  assert (Hshape :
            snd (Watchdog.run schedule Watchdog.Waiting) = []
            \/ (exists threadId,
                   snd (Watchdog.run schedule Watchdog.Waiting)
                   = [Watchdog.ActLoad threadId])
            \/ (exists threadId, threadId <> 0
                  /\ snd (Watchdog.run schedule Watchdog.Waiting)
                     = [Watchdog.ActLoad threadId;
                        Watchdog.ActOpenThread
                          (Z.lor Watchdog.STANDARD_RIGHTS_ALL Watchdog.THREAD_TERMINATE)
                          threadId])
            \/ (exists threadId h, threadId <> 0 /\ h <> 0
                  /\ snd (Watchdog.run schedule Watchdog.Waiting)
                     = [Watchdog.ActLoad threadId;
                        Watchdog.ActOpenThread
                          (Z.lor Watchdog.STANDARD_RIGHTS_ALL Watchdog.THREAD_TERMINATE)
                          threadId;
                        Watchdog.ActCancelSynchronousIo h])).
  { induction schedule as [|env rest IH]; cbn [Watchdog.run Watchdog.step].
    - left. reflexivity.
    - destruct (shutdown_signaled (os (Watchdog.machine env))).
      + pose proof (watchdog_from_Loading rest) as Hloading. cbv zeta in Hloading.
        destruct (Watchdog.run rest Watchdog.Loading) as [p acts].
        exact Hloading.
      + destruct (Watchdog.run rest Watchdog.Waiting) as [p acts].
        exact IH. }
  split; [exact Hshape|].
  destruct Hshape as [->|[(t & ->)|[(t & _ & ->)|(t & h & _ & _ & ->)]]];
    cbn; lia.
Qed.

(** ** From construction to destruction *)

Lemma VtEngine_ctor_yields (INVALID_COLOR : COLORREF) (pipe shutdownEvent : HANDLE)
    (initialViewport : Viewport.t) (slot : DWORD)
    (engine : VtEngine) (watchdog : Watchdog.pc) :
  VtEngine_ctor INVALID_COLOR pipe shutdownEvent initialViewport slot
  = inr (engine, watchdog) ->
  watchdog = Watchdog.Waiting
  /\ pipe <> INVALID_HANDLE_VALUE
  /\ shutdownEvent <> 0
  /\ _hFile engine = pipe
  /\ _shutdownEvent engine = shutdownEvent
  /\ _blockedThreadId engine = slot
  /\ _buffer engine = ""%string.
Proof.
  unfold VtEngine_ctor. cbn [_hFile _shutdownEvent].
  destruct (Z.eqb_spec pipe INVALID_HANDLE_VALUE) as [|Hpipe]; [discriminate|].
  destruct (Z.eqb_spec shutdownEvent 0) as [|Hevent]; [discriminate|].
  intros Hctor. injection Hctor as <- <-. cbn.
  repeat split; assumption || reflexivity.
Qed.

Lemma VtEngine_dtor_result (m : Machine) :
  _shutdownEvent (this m) <> 0 ->
  snd (VtEngine_dtor m) =
  {| this := this m;
     os := set_shutdown_signaled true
             (set_trace (trace (os m) ++ [EvSetEvent (_shutdownEvent (this m))]) (os m));
     invalidations := invalidations m |}.
Proof.
  intros Hevent. destruct m as [e w calls]. cbn [this] in Hevent.
  unfold VtEngine_dtor. run_method.
  destruct (Z.eqb_spec (_shutdownEvent e) 0) as [Hnull|_]; [contradiction|].
  run_method. destruct w; reflexivity.
Qed.

(** X16.  An engine that was constructed can always be destroyed without
    leaving its watchdog behind: whatever calls were made in between and
    whatever the world, the destructor sets the shutdown event (writing
    nothing to the pipe and leaving the engine's members alone), and the
    watchdog started by the constructor, given four steps in the world the
    destructor leaves, has returned.  If the slot started empty it is found
    empty, and no thread is opened or cancelled. *)
Theorem destructor_releases_watchdog
    (ResizeWindowSequence : SHORT -> SHORT -> string) (RequestCursorSequence : string)
    (INVALID_COLOR : COLORREF) (pipe shutdownEvent : HANDLE)
    (initialViewport : Viewport.t) (slot : DWORD)
    (engine : VtEngine) (watchdog : Watchdog.pc) (w : World) (calls : list Call)
    (OpenThread : DWORD -> DWORD -> HANDLE) :
  VtEngine_ctor INVALID_COLOR pipe shutdownEvent initialViewport slot
  = inr (engine, watchdog) ->
  let m := perform_all ResizeWindowSequence RequestCursorSequence calls (boot engine w) in
  let m' := snd (VtEngine_dtor m) in
  let env := env_of m' OpenThread in
  shutdown_signaled (os m') = true
  /\ this m' = this m
  /\ writes (trace (os m')) = writes (trace (os m))
  /\ fst (Watchdog.run [env; env; env; env] watchdog) = Watchdog.Returned
  /\ (slot = 0 ->
      snd (Watchdog.run [env; env; env; env] watchdog) = [Watchdog.ActLoad 0]).
Proof.
  intros Hctor. cbv zeta.
  destruct (VtEngine_ctor_yields _ _ _ _ _ _ _ Hctor)
    as (-> & _ & Hevent & _ & Hengine_event & Hslot & _).
  destruct (perform_all_keeps ResizeWindowSequence RequestCursorSequence calls
              (boot engine w)) as (_ & Hkeeps_event & Hkeeps_slot).
  cbv zeta in Hkeeps_event, Hkeeps_slot. cbn [boot this] in Hkeeps_event, Hkeeps_slot.
  set (m := perform_all ResizeWindowSequence RequestCursorSequence calls (boot engine w))
    in *.
  assert (Hheld : _shutdownEvent (this m) <> 0) by congruence.
  rewrite (VtEngine_dtor_result m Hheld).
  cbn [this os shutdown_signaled set_shutdown_signaled trace set_trace].
  split; [reflexivity|]. split; [reflexivity|].
  split; [rewrite writes_app; cbn; now rewrite app_nil_r|].
  unfold env_of.
  cbn [Watchdog.run Watchdog.step Watchdog.machine Watchdog.OpenThread this os
       shutdown_signaled set_shutdown_signaled].
  destruct (Z.eqb_spec (_blockedThreadId (this m)) 0) as [Hzero|Hid].
  - cbn. rewrite Hzero. split; [reflexivity|auto].
  - cbn [Watchdog.run Watchdog.step Watchdog.machine Watchdog.OpenThread fst snd].
    split.
    + match goal with
      | |- context [if ?c then _ else _] => destruct c
      end; reflexivity.
    + intros ->. rewrite Hkeeps_slot in Hid by exact Hslot. contradiction.
Qed.

Lemma destructor_releases_watchdog_witness :
  VtEngine_ctor 0xffffffff 3 4 (rect 0 0 79 24) 0 = inr (fresh_engine, Watchdog.Waiting)
  /\ shutdown_signaled
       (os (snd (VtEngine_dtor
                   (perform_all xterm_ResizeWindowSequence xterm_RequestCursorSequence
                      [CallWriteTerminalUtf8 "more"; CallFlush]
                      (boot fresh_engine (os flush_sample)))))) = true
  /\ Watchdog.run
       [env_of (snd (VtEngine_dtor
                       (perform_all xterm_ResizeWindowSequence
                          xterm_RequestCursorSequence
                          [CallWriteTerminalUtf8 "more"; CallFlush]
                          (boot fresh_engine (os flush_sample)))))
          (fun _ _ => 9);
        env_of (snd (VtEngine_dtor
                       (perform_all xterm_ResizeWindowSequence
                          xterm_RequestCursorSequence
                          [CallWriteTerminalUtf8 "more"; CallFlush]
                          (boot fresh_engine (os flush_sample)))))
          (fun _ _ => 9)]
       Watchdog.Waiting
     = (Watchdog.Returned, [Watchdog.ActLoad 0]).
Proof.
  destruct (destructor_releases_watchdog xterm_ResizeWindowSequence
              xterm_RequestCursorSequence 0xffffffff 3 4 (rect 0 0 79 24) 0
              fresh_engine Watchdog.Waiting (os flush_sample)
              [CallWriteTerminalUtf8 "more"; CallFlush] (fun _ _ => 9) eq_refl)
    as (Hset & _).
  exact (conj eq_refl (conj Hset eq_refl)).
Defined.

(** ** Edges of the flush *)

(** X17.  A flush whose write fails wakes the watchdog but is not its
    victim: by the time the flush returns the slot is cleared, so the
    watchdog that runs in the world the flush leaves reads 0 and returns
    without opening or cancelling any thread, whatever comes after. *)
Theorem failed_flush_cancels_nobody (m : Machine) (err : DWORD)
    (OpenThread : DWORD -> DWORD -> HANDLE) (rest : list Watchdog.Env) :
  shutdown_signaled (os m) = false ->
  pending_write (os m) = WriteFails err ->
  let env := env_of (snd (_Flush m)) OpenThread in
  Watchdog.run (env :: env :: rest) Watchdog.Waiting
  = (Watchdog.Returned, [Watchdog.ActLoad 0]).
Proof.
  intros Hrunning Hfails. cbv zeta.
  rewrite (_Flush_result m Hrunning), Hfails. unfold env_of.
  cbn [snd Watchdog.run Watchdog.step Watchdog.machine this os shutdown_signaled
       set_shutdown_signaled _blockedThreadId set_buffer set_blockedThreadId].
  change (0 =? 0) with true. cbv iota.
  now rewrite (watchdog_returned rest).
Qed.

Lemma failed_flush_cancels_nobody_witness :
  shutdown_signaled (os broken_pipe_sample) = false
  /\ pending_write (os broken_pipe_sample) = WriteFails 109
  /\ Watchdog.run
       [env_of (snd (_Flush broken_pipe_sample)) (fun _ _ => 9);
        env_of (snd (_Flush broken_pipe_sample)) (fun _ _ => 9)]
       Watchdog.Waiting
     = (Watchdog.Returned, [Watchdog.ActLoad 0]).
Proof.
  exact (conj eq_refl
           (conj eq_refl
              (failed_flush_cancels_nobody broken_pipe_sample 109 (fun _ _ => 9) []
                 eq_refl eq_refl))).
Defined.

(** X18.  An empty buffer is flushed like any other: with the event not
    signalled, [_Flush] calls [WriteFile] for zero bytes, and if that call
    fails the event is set and the failure returned, although there was
    nothing to send. *)
Theorem empty_flush_still_writes (m : Machine) :
  shutdown_signaled (os m) = false ->
  _buffer (this m) = ""%string ->
  let hr := fst (_Flush m) in
  let m' := snd (_Flush m) in
  writes (trace (os m')) = writes (trace (os m)) ++ [EvWriteFile (_hFile (this m)) "" 0]
  /\ (forall err, pending_write (os m) = WriteFails err ->
      FAILED hr = true /\ shutdown_signaled (os m') = true)
  /\ (pending_write (os m) = WriteOk ->
      hr = S_OK /\ shutdown_signaled (os m') = false).
Proof.
  intros Hrunning Hempty. cbv zeta.
  destruct (_Flush_running m Hrunning) as (_ & Hwrites & Houtcome).
  cbv zeta in Hwrites, Houtcome. rewrite Hempty in Hwrites.
  split; [exact Hwrites|].
  split.
  - intros err Hfails. rewrite Hfails in Houtcome.
    destruct Houtcome as (Hhr & _ & Hset).
    split; [rewrite Hhr; apply GetLastErrorFailHr_failed|exact Hset].
  - intros Hok. rewrite Hok in Houtcome. tauto.
Qed.

Lemma empty_flush_still_writes_witness :
  shutdown_signaled (os (on_engine (set_buffer "") broken_pipe_sample)) = false
  /\ _buffer (this (on_engine (set_buffer "") broken_pipe_sample)) = ""%string
  /\ writes (trace (os (snd (_Flush (on_engine (set_buffer "") broken_pipe_sample)))))
     = [EvWriteFile 3 "" 0]
  /\ FAILED (fst (_Flush (on_engine (set_buffer "") broken_pipe_sample))) = true
  /\ shutdown_signaled (os (snd (_Flush (on_engine (set_buffer "") broken_pipe_sample))))
     = true.
Proof.
  destruct (empty_flush_still_writes (on_engine (set_buffer "") broken_pipe_sample)
              eq_refl eq_refl)
    as (Hwrites & Hfails & _).
  destruct (Hfails 109 eq_refl) as [Hfailed Hset].
  exact (conj eq_refl (conj eq_refl (conj Hwrites (conj Hfailed Hset)))).
Defined.

(** X19.  [WriteFile] is asked for the buffer's size modulo 2^32 bytes: for
    all of the buffer exactly when it is shorter than 4 GiB, for fewer bytes
    otherwise.  The buffer is emptied in either case, so that what exceeds
    the count is dropped without an error. *)
Theorem flush_count_is_32_bit (m : Machine) :
  shutdown_signaled (os m) = false ->
  let size := Z.of_nat (String.length (_buffer (this m))) in
  exists count,
    writes (trace (os (snd (_Flush m))))
    = writes (trace (os m)) ++ [EvWriteFile (_hFile (this m)) (_buffer (this m)) count]
    /\ count = size mod 2 ^ 32
    /\ 0 <= count <= size
    /\ (count = size <-> size < 2 ^ 32)
    /\ _buffer (this (snd (_Flush m))) = ""%string.
Proof.
  intros Hrunning. cbv zeta.
  destruct (_Flush_running m Hrunning) as (Hthis & Hwrites & _).
  cbv zeta in Hthis, Hwrites.
  exists (static_cast_DWORD (String.length (_buffer (this m)))).
  split; [exact Hwrites|].
  unfold static_cast_DWORD, to_DWORD.
  set (size := Z.of_nat (String.length (_buffer (this m)))).
  assert (Hsize : 0 <= size) by (unfold size; lia).
  pose proof (Z.mod_pos_bound size (2 ^ 32) ltac:(lia)) as Hbound.
  pose proof (Z.mod_le size (2 ^ 32) Hsize ltac:(lia)) as Hle.
  split; [reflexivity|]. split; [lia|]. split; [split|].
  - intros Heq. lia.
  - intros Hsmall. apply Z.mod_small. lia.
  - now rewrite Hthis.
Qed.

Lemma flush_count_is_32_bit_witness :
  shutdown_signaled (os flush_sample) = false
  /\ exists count,
       writes (trace (os (snd (_Flush flush_sample))))
       = writes (trace (os flush_sample))
         ++ [EvWriteFile (_hFile (this flush_sample)) (_buffer (this flush_sample)) count]
       /\ count = Z.of_nat (String.length (_buffer (this flush_sample))) mod 2 ^ 32
       /\ 0 <= count <= Z.of_nat (String.length (_buffer (this flush_sample)))
       /\ (count = Z.of_nat (String.length (_buffer (this flush_sample)))
           <-> Z.of_nat (String.length (_buffer (this flush_sample))) < 2 ^ 32)
       /\ _buffer (this (snd (_Flush flush_sample))) = ""%string.
Proof.
  exact (conj eq_refl (flush_count_is_32_bit flush_sample eq_refl)).
Defined.

(** ** The failure code of a flush *)

Lemma lor_shifted (a b n : Z) :
  0 <= n -> 0 <= a < 2 ^ n -> Z.lor a (b * 2 ^ n) = a + b * 2 ^ n.
Proof.
  intros Hn Ha.
  assert (Hdisjoint : Z.land a (b * 2 ^ n) = 0).
  { apply Z.bits_inj'. intros i Hi.
    rewrite Z.land_spec, Z.bits_0.
    destruct (Z_lt_le_dec i n) as [Hlow|Hhigh].
    - rewrite Z.mul_pow2_bits_low by lia. apply andb_false_r.
    - destruct (Z.eq_dec a 0) as [->|Hnz]; [now rewrite Z.bits_0|].
      rewrite (Z.bits_above_log2 a i); [reflexivity|lia|].
      apply Z.lt_le_trans with n; [|exact Hhigh].
      apply Z.log2_lt_pow2; lia. }
  rewrite <- Z.lxor_lor by exact Hdisjoint.
  symmetry. now apply Z.add_nocarry_lxor.
Qed.

Lemma HRESULT_FROM_WIN32_code (err : DWORD) :
  0 < err < 2 ^ 16 ->
  HRESULT_FROM_WIN32 err = err + FACILITY_WIN32 * 2 ^ 16 - 2 ^ 31.
Proof.
  intros Herr. unfold HRESULT_FROM_WIN32.
  rewrite (to_LONG_small err) by lia.
  destruct (Z.leb_spec err 0) as [Hle|_]; [lia|].
  change 0xFFFF with (Z.ones 16). rewrite Z.land_ones by lia.
  rewrite Z.mod_small by lia.
  rewrite Z.shiftl_mul_pow2 by lia.
  rewrite lor_shifted by lia.
  change 0x80000000 with (2 ^ 31).
  unfold FACILITY_WIN32.
  rewrite lor_pow2_above by lia.
  rewrite to_LONG_big by lia. lia.
Qed.

(** X20.  The failure a flush returns carries the error of the pipe: when
    [WriteFile] fails with a Win32 error between 1 and 65535, the HRESULT
    returned is a failure whose low 16 bits are that error and whose
    facility is [FACILITY_WIN32]. *)
Theorem flush_failure_carries_error (m : Machine) (err : DWORD) :
  shutdown_signaled (os m) = false ->
  pending_write (os m) = WriteFails err ->
  0 < err < 2 ^ 16 ->
  let hr := fst (_Flush m) in
  FAILED hr = true
  /\ Z.land hr 0xFFFF = err
  /\ Z.land (Z.shiftr hr 16) 0x1FFF = FACILITY_WIN32.
Proof.
  intros Hrunning Hfails Herr. cbv zeta.
  destruct (_Flush_running m Hrunning) as (_ & _ & Houtcome).
  cbv zeta in Houtcome. rewrite Hfails in Houtcome.
  destruct Houtcome as (Hhr & _).
  assert (Hdword : to_DWORD err = err) by (apply Z.mod_small; lia).
  rewrite Hhr, Hdword.
  unfold GetLastErrorFailHr, GetLastErrorFail.
  destruct (Z.eqb_spec err ERROR_SUCCESS) as [Hzero|_];
    [unfold ERROR_SUCCESS in Hzero; lia|].
  rewrite (HRESULT_FROM_WIN32_code err Herr). unfold FACILITY_WIN32, FAILED.
  split; [apply Z.ltb_lt; lia|]. split.
  - change 0xFFFF with (Z.ones 16). rewrite Z.land_ones by lia.
    replace (err + 7 * 2 ^ 16 - 2 ^ 31) with (err + (7 - 2 ^ 15) * 2 ^ 16) by lia.
    rewrite Z.mod_add by lia. apply Z.mod_small. lia.
  - rewrite Z.shiftr_div_pow2 by lia.
    replace (err + 7 * 2 ^ 16 - 2 ^ 31) with (err + (7 - 2 ^ 15) * 2 ^ 16) by lia.
    rewrite Z.div_add by lia. rewrite Z.div_small by lia.
    reflexivity.
Qed.

Lemma flush_failure_carries_error_witness :
  shutdown_signaled (os broken_pipe_sample) = false
  /\ pending_write (os broken_pipe_sample) = WriteFails 109
  /\ 0 < 109 < 2 ^ 16
  /\ FAILED (fst (_Flush broken_pipe_sample)) = true
  /\ Z.land (fst (_Flush broken_pipe_sample)) 0xFFFF = 109
  /\ Z.land (Z.shiftr (fst (_Flush broken_pipe_sample)) 16) 0x1FFF = FACILITY_WIN32.
Proof.
  assert (Hrange : 0 < 109 < 2 ^ 16) by lia.
  exact (conj eq_refl
           (conj eq_refl
              (conj Hrange
                 (flush_failure_carries_error broken_pipe_sample 109
                    eq_refl eq_refl Hrange)))).
Defined.
